(** * Python documentation fathead: extraction, output rows and reconciliation

    A shallow embedding of [lib/fathead/python/parse.py].

    - [Str]: the methods of Python's [str] the program calls.
    - [Soup]: the parsed HTML tree as BeautifulSoup presents it, with the
      queries the program issues ([find], [find_all], [text], [get]).
    - the classes [PythonDataParser] and [PythonDataOutput], as records
      with their methods.
    - [Csv]: the reader of Python's csv module, through which petl reads
      the output files back.
    - [Petl]: the table operations of the petl library that [unify] chains.
    - [unify], [pre_parse] and the main program.

    A Python [str] is a [string] whose characters are the code points
    below 256; an exception is a value of [exn] carried by [result]; the
    file system is a finite map from paths to files. *)

From stdpp Require Import base tactics option list strings sorting gmap.
From Stdlib Require Import Ascii Sorted.

Set Default Proof Using "Type".
Set Warnings "-register-all".

(** ** Exceptions *)

Inductive exn : Set :=
| AttributeError
| KeyError
| IndexError
| FileNotFoundError
| FieldSelectionError
| CsvError.

Inductive result (A : Type) : Type :=
| Ok (a : A)
| Raise (e : exn).

Arguments Ok {A} a.
Arguments Raise {A} e.

Global Instance result_ret : MRet result := fun A a => Ok a.

Global Instance result_bind : MBind result := fun A B k m =>
  match m with
  | Ok a => k a
  | Raise e => Raise e
  end.

(** ** Python strings *)

Module Str.

Definition chr (n : nat) : ascii := ascii_of_nat n.

(** The characters the source spells with an escape or outside ASCII. *)
Definition LF : string := String (chr 10) "".              (* '\n' *)
Definition backslash_n : string := String (chr 92) "n".   (* '\\n' *)
Definition backslash2_n : string :=                        (* r'\\n' *)
  String (chr 92) (String (chr 92) "n").
Definition pilcrow : string := String (chr 182) "".        (* U+00B6 *)
Definition TAB : string := String (chr 9) "".              (* '\t' *)

(** Truth value of a string: non-empty. *)
Definition truthy (s : string) : bool :=
  match s with
  | EmptyString => false
  | String _ _ => true
  end.

(** [s.replace(old, new)]: every non-overlapping occurrence, leftmost
    first.  [skip] counts the characters of a match still to be dropped. *)
Fixpoint replace_from (skip : nat) (old new s : string) : string :=
  match s with
  | EmptyString => EmptyString
  | String c s' =>
      match skip with
      | S k => replace_from k old new s'
      | O =>
          if String.prefix old (String c s')
          then new +:+ replace_from (String.length old - 1) old new s'
          else String c (replace_from 0 old new s')
      end
  end.

(** With an empty [old] Python inserts [new] around every character. *)
Fixpoint interleave (new s : string) : string :=
  match s with
  | EmptyString => EmptyString
  | String c s' => String c (new +:+ interleave new s')
  end.

Definition replace (old new s : string) : string :=
  match old with
  | EmptyString => new +:+ interleave new s
  | String _ _ => replace_from 0 old new s
  end.

(** [s.split(sep)] for a separator of one character (the source only
    splits on ['.']): one more part than there are separators. *)
Fixpoint split (sep : ascii) (s : string) : list string :=
  match s with
  | EmptyString => [EmptyString]
  | String c s' =>
      if Ascii.eqb c sep then EmptyString :: split sep s'
      else match split sep s' with
           | [] => [String c EmptyString]
           | p :: ps => String c p :: ps
           end
  end.

(** [sep.join(parts)]. *)
Definition join (sep : string) (parts : list string) : string :=
  String.concat sep parts.

(** [str.isspace] on one character, for code points below 256. *)
Definition isspace (c : ascii) : bool :=
  let n := nat_of_ascii c in
  ((9 <=? n) && (n <=? 13)) || ((28 <=? n) && (n <=? 32))
  || (n =? 133) || (n =? 160).

Fixpoint lstrip_by (f : ascii -> bool) (s : string) : string :=
  match s with
  | EmptyString => EmptyString
  | String c s' => if f c then lstrip_by f s' else String c s'
  end.

Fixpoint rstrip_by (f : ascii -> bool) (s : string) : string :=
  match s with
  | EmptyString => EmptyString
  | String c s' =>
      match rstrip_by f s' with
      | EmptyString => if f c then EmptyString else String c EmptyString
      | String d r => String c (String d r)
      end
  end.

(** [s.strip()]. *)
Definition strip (s : string) : string :=
  rstrip_by isspace (lstrip_by isspace s).

Definition mem_chars (chars : string) (c : ascii) : bool :=
  existsb (Ascii.eqb c) (String.list_ascii_of_string chars).

(** [s.rstrip(chars)]: drops every trailing character that is in [chars]. *)
Definition rstrip (chars s : string) : string :=
  rstrip_by (mem_chars chars) s.

(** [template.format(a1, .., an)] for templates whose only fields are [{}].
    Every call in the source passes as many arguments as the template
    has fields; a field without argument is left empty here. *)
Fixpoint format (template : string) (args : list string) : string :=
  match template with
  | EmptyString => EmptyString
  | String "{"%char (String "}"%char t') =>
      match args with
      | a :: args' => a +:+ format t' args'
      | [] => format t' []
      end
  | String c t' => String c (format t' args)
  end.

(** [s.endswith(c)] for one character. *)
Fixpoint endswith (s : string) (c : ascii) : bool :=
  match s with
  | EmptyString => false
  | String d EmptyString => Ascii.eqb d c
  | String _ s' => endswith s' c
  end.

End Str.

(** ** The parsed document

    [BeautifulSoup(raw, 'html.parser')] is the external HTML parser; the
    model starts from the tree it returns.  A tag carries its name, the
    value of its multi-valued [class] attribute (a list, empty when the
    attribute is absent), its other attributes and its children. *)

Module Soup.

Inductive node : Type :=
| NavigableString (s : string)
| Tag (name : string) (class_ : list string)
      (attrs : list (string * string)) (contents : list node).

(** All nodes below [n], in document order. *)
Fixpoint descendants (n : node) : list node :=
  match n with
  | NavigableString _ => []
  | Tag _ _ _ cs =>
      (fix go (l : list node) : list node :=
         match l with
         | [] => []
         | c :: l' => c :: (descendants c ++ go l')
         end) cs
  end.

(** [n.text]: the strings below [n], concatenated. *)
Fixpoint text (n : node) : string :=
  match n with
  | NavigableString s => s
  | Tag _ _ _ cs =>
      (fix go (l : list node) : string :=
         match l with
         | [] => EmptyString
         | c :: l' => text c +:+ go l'
         end) cs
  end.

(** A [class] filter matches one of the classes of the tag, or all of
    them joined by a space. *)
Definition has_class (value : string) (n : node) : bool :=
  match n with
  | NavigableString _ => false
  | Tag _ cls _ _ =>
      existsb (String.eqb value) cls || String.eqb (Str.join " " cls) value
  end.

Definition matches (name : string) (cls : option string) (n : node) : bool :=
  match n with
  | NavigableString _ => false
  | Tag nm _ _ _ =>
      String.eqb nm name
      && match cls with
         | None => true
         | Some value => has_class value n
         end
  end.

(** [n.find_all(name, {'class': cls})]. *)
Definition find_all (name : string) (cls : option string) (n : node) : list node :=
  List.filter (matches name cls) (descendants n).

(** [n.find(name, {'class': cls})]: the first match or [None]. *)
Definition find (name : string) (cls : option string) (n : node) : option node :=
  head (find_all name cls n).

Fixpoint assoc (key : string) (attrs : list (string * string)) : option string :=
  match attrs with
  | [] => None
  | (k, v) :: attrs' => if String.eqb k key then Some v else assoc key attrs'
  end.

(** [tag.get(key)]. *)
Definition get (key : string) (n : node) : option string :=
  match n with
  | NavigableString _ => None
  | Tag _ _ attrs _ => assoc key attrs
  end.

(** [tag[key]]. *)
Definition getitem (key : string) (n : node) : result string :=
  match get key n with
  | Some v => Ok v
  | None => Raise KeyError
  end.

End Soup.

Import Soup.

(** ** The parser and the writer *)

Definition PYTHON_DOC_BASE_URL : string := "https://docs.python.org/3.5{}".

Definition DOWNLOADED_HTML_PATHS : list (string * string) :=
  [ ("python3", "download/python-3.5.2-docs-html");
    ("python2", "download/python-2.7.12-docs-html") ].

(** The dict built for each entry by [parse_for_data]. *)
Record data_element : Type := {
  module : string;
  function : string;
  method_signature : string;
  first_paragraph : string;
  url : string
}.

Record PythonDataParser : Type := {
  function_sections : list node;
  method_sections : list node;
  intro_text : string;
  title : string;
  download_path : string;
  file_being_used : string
}.

(** [.replace('\\n', r'\\n')], the last step of the chains applied to
    paragraphs and to signatures. *)
Definition escape_newlines (s : string) : string :=
  Str.replace Str.backslash_n Str.backslash2_n s.

(** The chain [.replace('  ', ' ').replace('\n', ' ').replace('\\n', r'\\n')]
    applied to the text of a paragraph. *)
Definition fix_up (s : string) : string :=
  escape_newlines (Str.replace Str.LF " " (Str.replace "  " " " s)).

(** [PythonDataParser.__init__], from the file path of the data object and
    the tree parsed from its raw HTML. *)
Definition PythonDataParser_init
    (file : string) (soup_data : node) (path : string) : PythonDataParser :=
  let sections := find_all "div" (Some "section") soup_data in
  let '(functions, methods) :=
    fold_left
      (fun '(fs, ms) section =>
         (fs ++ find_all "dl" (Some "function") section,
          ms ++ find_all "dl" (Some "method") section))
      sections ([], []) in
  let intro := take 2 (find_all "p" None soup_data) in
  {| function_sections := functions;
     method_sections := methods;
     intro_text := fold_left (fun acc p => acc +:+ fix_up (text p)) intro "";
     title := match find "a" (Some "reference internal") soup_data with
              | Some t => text t
              | None => ""
              end;
     download_path := path;
     file_being_used := file |}.

Section Parser.

Variable self : PythonDataParser.

Definition parse_for_module_name (section : node) : string :=
  match find "code" (Some "descclassname") section with
  | Some module_name => Str.rstrip "." (text module_name)
  | None => ""
  end.

Definition parse_for_function_name (section : node) : string :=
  match find "code" (Some "descname") section with
  | Some function_name => text function_name
  | None => ""
  end.

(** The first paragraph whose text is not empty. *)
Definition parse_for_first_paragraph (section : node) : string :=
  match List.filter (fun p => Str.truthy (text p)) (find_all "p" None section) with
  | paragraph :: _ => fix_up (text paragraph)
  | [] => ""
  end.

(** [a_tag['href']] raises [KeyError] when the link has no [href]. *)
Definition parse_for_anchor (section : node) : result string :=
  match find "a" (Some "headerlink") section with
  | Some a_tag => getitem "href" a_tag
  | None => Ok ""
  end.

Definition parse_for_method_signature (section : node) : string :=
  match find "dt" None section with
  | Some dt =>
      Str.format "<pre><code>{}</code></pre>"
        [escape_newlines
           (Str.replace Str.LF "" (Str.replace Str.pilcrow "" (text dt)))]
  | None => ""
  end.

(** [section.find('dt').get('id')] is evaluated without a test on the
    result of [find]: on [None] the attribute access raises. *)
Definition parse_for_class_method (section : node) : result (string * string * string) :=
  match find "dt" None section with
  | None => Raise AttributeError
  | Some dt =>
      match get "id" dt with
      | Some id_tag =>
          if Str.truthy id_tag then
            let tag_parts := Str.split "." id_tag in
            if length tag_parts =? 3 then
              Ok (nth 0 tag_parts "", nth 1 tag_parts "", nth 2 tag_parts "")
            else if 3 <? length tag_parts then
              Ok (nth 0 tag_parts "", nth 1 tag_parts "",
                  Str.join "." (drop 2 tag_parts))
            else Ok ("", "", "")
          else Ok ("", "", "")
      | None => Ok ("", "", "")
      end
  end.

Definition create_url (anchor : string) : string :=
  let file_path := Str.replace (download_path self) "" (file_being_used self) in
  Str.format PYTHON_DOC_BASE_URL [Str.format "{}{}" [file_path; anchor]].

(** The three parts of [parse_for_data]: the intro entry, the body of the
    loop over [function_sections] and the body of the loop over
    [method_sections]; each yields the entries it appends to [data]. *)
Definition parse_intro : list data_element :=
  if Str.truthy (intro_text self) && Str.truthy (title self) then
    [ {| module := title self;
         function := "";
         method_signature := "";
         first_paragraph := intro_text self;
         url := create_url "" |} ]
  else [].

Definition parse_function_section (function_section : node)
  : result (list data_element) :=
  let module := parse_for_module_name function_section in
  let function := parse_for_function_name function_section in
  if Str.truthy module || Str.truthy function then
    let method_signature := parse_for_method_signature function_section in
    let first_paragraph := parse_for_first_paragraph function_section in
    anchor ← parse_for_anchor function_section;
    let url := create_url anchor in
    mret [ {| module := module;
              function := function;
              method_signature := method_signature;
              first_paragraph := first_paragraph;
              url := url |} ]
  else mret [].

Definition parse_method_section (method_section : node)
  : result (list data_element) :=
  '(module, class_name, method) ← parse_for_class_method method_section;
  if Str.truthy method then
    let method_signature := parse_for_method_signature method_section in
    let first_paragraph := parse_for_first_paragraph method_section in
    let url := create_url ("#" +:+ Str.join "." [module; class_name; method]) in
    mret [ {| module := module;
              function := class_name +:+ "." +:+ method;
              method_signature := method_signature;
              first_paragraph := first_paragraph;
              url := url |} ]
  else mret [].

Definition parse_for_data : result (list data_element) :=
  fs ← mapM parse_function_section (function_sections self);
  ms ← mapM parse_method_section (method_sections self);
  mret (parse_intro ++ concat fs ++ concat ms).

End Parser.

(** ** Output files

    The program writes an output file one line at a time, each line being
    the fields of a list joined by tabs and followed by a line feed.  A
    file is modelled by the list of the lines written to it, each line by
    the list of fields that was joined: [tsv_line] is the text written for
    one line and [file_text] the text the file holds.  The fields are
    written raw, so a field that holds a tab or a line break gives a text
    with other fields or other lines: what a reader finds in the file is
    settled by [file_text] alone (see [Csv.reader]), not by the lists.
    Every text the program writes ends with a line feed or is empty, and
    so does every text of the model. *)

Abbreviation row := (list string).
Abbreviation files := (gmap string (list row)).

Definition tsv_line (fields : row) : string :=
  Str.format ("{}" +:+ Str.LF) [Str.join Str.TAB fields].

Definition file_text (lines : list row) : string :=
  foldr (fun fields text => tsv_line fields +:+ text) "" lines.

Record PythonDataOutput : Type := {
  data : list data_element;
  output : string
}.

Definition PythonDataOutput_init
    (data : list data_element) (version : string) : PythonDataOutput :=
  {| data := data;
     output := if String.eqb version "python2" then "output_py2.txt"
               else "output.txt" |}.

Definition create_names_from_data (data_element : data_element) : string * string :=
  let module := module data_element in
  let function := function data_element in
  let dotted_name :=
    Str.format "{}{}{}"
      [module; if Str.truthy module && Str.truthy function then "." else "";
       function] in
  let spaced_name := Str.format "{} {}" [module; function] in
  (Str.strip dotted_name, Str.strip spaced_name).

(** The body of the loop of [create_file]: the lines written for one entry. *)
Definition write_element (data_element : data_element) : list row :=
  if Str.truthy (module data_element) || Str.truthy (function data_element) then
    let method_signature := method_signature data_element in
    let first_paragraph := first_paragraph data_element in
    let '(name, redirect) := create_names_from_data data_element in
    let abstract :=
      Str.format "{}{}{}"
        [method_signature;
         if Str.truthy method_signature && Str.truthy first_paragraph
         then "<br>" else "";
         first_paragraph] in
    let url := url data_element in
    [name; "A"; ""; ""; ""; ""; ""; ""; "https://docs.python.org"; ""; "";
     abstract; url]
    :: (if negb (String.eqb redirect name) then
          [[redirect; "R"; name; ""; ""; ""; ""; ""; ""; ""; ""; ""; ""]]
        else [])
  else [].

(** [open(self.output, 'a')]: the lines are added after those the file holds,
    and the file is created when it does not exist.  Each line is written
    as [tsv_line] of the 13 fields listed in [write_element]. *)
Definition create_file (self : PythonDataOutput) (fs : files) : files :=
  <[output self := default [] (fs !! output self)
                   ++ flat_map write_element (data self)]> fs.

(** ** The csv reader

    petl reads a file of tab-separated values with [csv.reader] of the
    Python standard library, in the dialect [excel-tab]: the delimiter is
    the tab, the quote character is the double quote, a doubled quote
    inside a quoted field stands for one quote, there is no escape
    character and the reader is not strict.  The file is opened with
    [newline=''].  The reader is the state machine of CPython's [_csv]
    module; the states that need an escape character are left out.  As in
    CPython 3.11 and later, a NUL character is a character like any
    other. *)

Module Csv.

Definition LF : ascii := Str.chr 10.
Definition CR : ascii := Str.chr 13.
Definition delimiter : ascii := Str.chr 9.
Definition quotechar : ascii := Str.chr 34.

(** [csv.field_size_limit()]. *)
Definition field_limit : N := 131072.

(** The lines a text file opened with [newline=''] hands out: a line ends
    after a line feed, after a carriage return followed by a line feed, or
    after a carriage return that no line feed follows, and keeps its
    ending; the last line may have none. *)
Fixpoint readlines (text : string) : list string :=
  match text with
  | EmptyString => []
  | String c text' =>
      if Ascii.eqb c LF then String c "" :: readlines text'
      else if Ascii.eqb c CR then
        match text' with
        | String d text'' =>
            if Ascii.eqb d LF then String c (String d "") :: readlines text''
            else String c "" :: readlines text'
        | EmptyString => [String c ""]
        end
      else
        match readlines text' with
        | [] => [String c ""]
        | line :: lines => String c line :: lines
        end
  end.

Inductive state : Set :=
| START_RECORD
| START_FIELD
| IN_FIELD
| IN_QUOTED_FIELD
| QUOTE_IN_QUOTED_FIELD
| EAT_CRNL.

(** The reader object: its state, the field being read and the fields of
    the record read so far. *)
Record reader_obj : Type := {
  state_of : state;
  field : string;
  fields : row
}.

Definition set_state (s : state) (self : reader_obj) : reader_obj :=
  {| state_of := s; field := field self; fields := fields self |}.

Definition parse_reset : reader_obj :=
  {| state_of := START_RECORD; field := ""; fields := [] |}.

Definition parse_save_field (self : reader_obj) : reader_obj :=
  {| state_of := state_of self;
     field := "";
     fields := fields self ++ [field self] |}.

(** A field that has reached the size limit takes no more characters. *)
Definition parse_add_char (self : reader_obj) (c : ascii) : result reader_obj :=
  if (field_limit <=? N.of_nat (String.length (field self)))%N
  then Raise CsvError
  else Ok {| state_of := state_of self;
             field := field self +:+ String c "";
             fields := fields self |}.

Definition is_newline (c : ascii) : bool := Ascii.eqb c LF || Ascii.eqb c CR.

(** The case [START_FIELD] of [parse_process_char], which the case
    [START_RECORD] falls through to; [None] is the end of a line. *)
Definition start_field (self : reader_obj) (c : option ascii) : result reader_obj :=
  match c with
  | None => Ok (set_state START_RECORD (parse_save_field self))
  | Some ch =>
      if is_newline ch then Ok (set_state EAT_CRNL (parse_save_field self))
      else if Ascii.eqb ch quotechar then Ok (set_state IN_QUOTED_FIELD self)
      else if Ascii.eqb ch delimiter then Ok (parse_save_field self)
      else self' ← parse_add_char self ch; mret (set_state IN_FIELD self')
  end.

Definition parse_process_char (self : reader_obj) (c : option ascii)
  : result reader_obj :=
  match state_of self with
  | START_RECORD =>
      match c with
      | None => Ok self
      | Some ch =>
          if is_newline ch then Ok (set_state EAT_CRNL self)
          else start_field (set_state START_FIELD self) c
      end
  | START_FIELD => start_field self c
  | IN_FIELD =>
      match c with
      | None => Ok (set_state START_RECORD (parse_save_field self))
      | Some ch =>
          if is_newline ch then Ok (set_state EAT_CRNL (parse_save_field self))
          else if Ascii.eqb ch delimiter
          then Ok (set_state START_FIELD (parse_save_field self))
          else parse_add_char self ch
      end
  | IN_QUOTED_FIELD =>
      match c with
      | None => Ok self
      | Some ch =>
          if Ascii.eqb ch quotechar then Ok (set_state QUOTE_IN_QUOTED_FIELD self)
          else parse_add_char self ch
      end
  | QUOTE_IN_QUOTED_FIELD =>
      match c with
      | None => Ok (set_state START_RECORD (parse_save_field self))
      | Some ch =>
          if Ascii.eqb ch quotechar
          then self' ← parse_add_char self ch; mret (set_state IN_QUOTED_FIELD self')
          else if Ascii.eqb ch delimiter
          then Ok (set_state START_FIELD (parse_save_field self))
          else if is_newline ch then Ok (set_state EAT_CRNL (parse_save_field self))
          else self' ← parse_add_char self ch; mret (set_state IN_FIELD self')
      end
  | EAT_CRNL =>
      match c with
      | None => Ok (set_state START_RECORD self)
      | Some ch => if is_newline ch then Ok self else Raise CsvError
      end
  end.

(** The characters of one line, then the end of the line. *)
Fixpoint process_line (self : reader_obj) (line : string) : result reader_obj :=
  match line with
  | EmptyString => parse_process_char self None
  | String c line' =>
      self' ← parse_process_char self (Some c);
      process_line self' line'
  end.

Definition in_quoted_field (s : state) : bool :=
  match s with
  | IN_QUOTED_FIELD => true
  | _ => false
  end.

(** The loop over [Reader_iternext]: a record takes lines until the state
    is [START_RECORD] again; when the lines run out inside a record (the
    field is not empty, or a quoted field is open), the record ends
    there. *)
Fixpoint records (self : reader_obj) (lines : list string) : result (list row) :=
  match lines with
  | [] =>
      if Str.truthy (field self) || in_quoted_field (state_of self)
      then Ok [fields (parse_save_field self)]
      else Ok []
  | line :: lines' =>
      self' ← process_line self line;
      match state_of self' with
      | START_RECORD =>
          rest ← records parse_reset lines';
          mret (fields self' :: rest)
      | _ => records self' lines'
      end
  end.

(** [list(csv.reader(f, dialect='excel-tab'))] on a file with the given
    text. *)
Definition reader (text : string) : result (list row) :=
  records parse_reset (readlines text).

End Csv.

(** ** The petl tables of [unify]

    petl is an external library.  A table is a header and the rows below
    it; the operations follow the library's documented behaviour. *)

Module Petl.

Record table : Type := { hdr : row; rows : list row }.

(** [fromtsv(source)]: the rows the csv reader finds in the text of the
    file; the consumer takes the first one as the header. *)
Definition fromtsv (fs : files) (source : string) : result (list row) :=
  match fs !! source with
  | Some lines => Csv.reader (file_text lines)
  | None => Raise FileNotFoundError
  end.

(** [setheader(header)] replaces the header, that is the first row read.
    A source without any row gives the header alone, as in the current
    releases of petl. *)
Definition setheader (header : row) (lines : list row) : table :=
  {| hdr := header; rows := tail lines |}.

(** The position of field [key] in the header. *)
Fixpoint asindex (header : row) (key : string) : result nat :=
  match header with
  | [] => Raise FieldSelectionError
  | f :: header' =>
      if String.eqb f key then Ok 0
      else i ← asindex header' key; mret (S i)
  end.

Definition getkey (i : nat) (r : row) : string := nth i r "".

(** A stable sort by the key: of rows with equal keys the one that came
    first stays first. *)
Fixpoint insert_row (i : nat) (r : row) (l : list row) : list row :=
  match l with
  | [] => [r]
  | r' :: l' =>
      if String.leb (getkey i r) (getkey i r') then r :: r' :: l'
      else r' :: insert_row i r l'
  end.

Definition sorted_rows (i : nat) (l : list row) : list row :=
  foldr (insert_row i) [] l.

(** [sort(key)]: a row too short to have the key field raises. *)
Definition sort (key : string) (t : table) : result table :=
  i ← asindex (hdr t) key;
  if forallb (fun r => i <? length r) (rows t)
  then Ok {| hdr := hdr t; rows := sorted_rows i (rows t) |}
  else Raise IndexError.

(** The loop of [unique] over sorted rows: a row is kept when its key
    differs from the key of the row before and of the row after. *)
Fixpoint iterunique (i : nat) (prev : row) (prev_comp_ne : bool)
    (rest : list row) : list row :=
  match rest with
  | [] => if prev_comp_ne then [prev] else []
  | curr :: rest' =>
      let curr_comp_ne := negb (String.eqb (getkey i curr) (getkey i prev)) in
      (if prev_comp_ne && curr_comp_ne then [prev] else [])
      ++ iterunique i curr curr_comp_ne rest'
  end.

(** [unique(key)]: sorts its source (it is not told the source is
    sorted), then keeps the rows whose key occurs once. *)
Definition unique (key : string) (t : table) : result table :=
  t' ← sort key t;
  i ← asindex (hdr t') key;
  mret {| hdr := hdr t';
          rows := match rows t' with
                  | [] => []
                  | prev :: rest => iterunique i prev true rest
                  end |}.

(** A dict from key to the list of rows with that key, in insertion
    order. *)
Abbreviation dict := (list (string * list row)).

Fixpoint dict_get (k : string) (d : dict) : option (list row) :=
  match d with
  | [] => None
  | (k', v) :: d' => if String.eqb k' k then Some v else dict_get k d'
  end.

Fixpoint dict_append (k : string) (v : row) (d : dict) : dict :=
  match d with
  | [] => [(k, [v])]
  | (k', l) :: d' =>
      if String.eqb k' k then (k', l ++ [v]) :: d'
      else (k', l) :: dict_append k v d'
  end.

(** [lookup(key)]: the value stored for a row is the tuple of its fields
    under the header's names (distinct in [unify]); a row shorter than
    the header raises. *)
Definition lookup (key : string) (t : table) : result dict :=
  i ← asindex (hdr t) key;
  if forallb (fun r => length (hdr t) <=? length r) (rows t)
  then Ok (fold_left
             (fun d r => dict_append (getkey i r) (take (length (hdr t)) r) d)
             (rows t) [])
  else Raise IndexError.

End Petl.

Import Petl.

(** [seq[i]] on a list or tuple. *)
Definition item {A : Type} (l : list A) (i : nat) : result A :=
  match l !! i with
  | Some x => Ok x
  | None => Raise IndexError
  end.

Fixpoint foldM {A S : Type} (f : S -> A -> result S) (s : S) (xs : list A) : result S :=
  match xs with
  | [] => Ok s
  | x :: xs' => s' ← f s x; foldM f s' xs'
  end.

Definition header : row :=
  ["name"; "article_type"; "redirects"; "ignore"; "categories"; "ignore2";
   "related"; "ignore3"; "external_links"; "disambiguation"; "images";
   "abstract"; "url"].

(** The step [.sort(key='name').unique(key='name')] of both chains. *)
Definition dedup_by_name (t : table) : result table :=
  t' ← sort "name" t;
  unique "name" t'.

(** The chain [fromtsv(..).setheader(header).sort(..).unique(..)] and its
    [lookup('name')]. *)
Definition dedup_table (fs : files) (source : string) : result table :=
  lines ← fromtsv fs source;
  dedup_by_name (setheader header lines).

Definition load_table (fs : files) (source : string) : result dict :=
  t ← dedup_table fs source;
  lookup "name" t.

(** The state of the loop of [unify]: [new_table2], [differ] and [nf]. *)
Definition unify_step (table2 : dict) (st : list row * nat * nat)
    (kv : string * list row) : result (list row * nat * nat) :=
  let '(new_table2, differ, nf) := st in
  let '(k, v) := kv in
  match dict_get k table2 with
  | Some v2 =>
      v0 ← item v 0;
      a3 ← item v0 11;
      w0 ← item v2 0;
      a2 ← item w0 11;
      if negb (String.eqb a3 a2)
      then Ok (new_table2 ++ [v0], S differ, nf)
      else Ok (new_table2, differ, S nf)
  | None => Ok (new_table2, differ, S nf)
  end.

(** [unify]: the new file system and the two counts it prints.
    [open('output_py2.txt', 'w')] replaces what the file held. *)
Definition unify (fs : files) : result (files * (nat * nat)) :=
  table2 ← load_table fs "output_py2.txt";
  table3 ← load_table fs "output.txt";
  '(new_table2, differ, nf) ← foldM (unify_step table2) ([], 0, 0) table3;
  mret (<["output_py2.txt" := new_table2]> fs, (differ, nf)).

Definition pre_parse (fs : files) : files :=
  delete "output_py2.txt" (delete "output.txt" fs).

(** The body of the main loop for one HTML file, given its path, the tree
    parsed from it and the download path of its version. *)
Definition process_file (version download_path file_path : string)
    (soup_data : node) (fs : files) : result files :=
  let parser := PythonDataParser_init file_path soup_data download_path in
  parsed_data ← parse_for_data parser;
  mret (create_file (PythonDataOutput_init parsed_data version) fs).

(** The main program.  [walk download_path] stands for the traversal of
    the directory: the paths of the files whose name contains [.html], with
    the tree parsed from each. *)
Definition main (walk : string -> list (string * node)) (fs : files)
    : result (files * (nat * nat)) :=
  fs' ← foldM
          (fun fs '(version, download_path) =>
             foldM
               (fun fs '(file_path, soup_data) =>
                  process_file version download_path file_path soup_data fs)
               fs (walk download_path))
          (pre_parse fs) DOWNLOADED_HTML_PATHS;
  unify fs'.

(** ** Notions used to state the properties *)

(** [n] dots. *)
Fixpoint dots (n : nat) : string :=
  match n with
  | O => EmptyString
  | S n' => String "."%char (dots n')
  end.

(** The abstract of an article row, by cases on the emptiness of the
    signature and of the summary. *)
Definition abstract_of (signature summary abstract : string) : Prop :=
  (signature <> "" -> summary <> "" ->
   abstract = signature +:+ "<br>" +:+ summary)
  /\ (signature <> "" -> summary = "" -> abstract = signature)
  /\ (signature = "" -> summary <> "" -> abstract = summary)
  /\ (signature = "" -> summary = "" -> abstract = "").

(** The fields of a row the properties name. *)
Definition row_name (r : row) : string := nth 0 r "".
Definition row_kind (r : row) : string := nth 1 r "".
Definition row_abstract (r : row) : string := nth 11 r "".

(** ** Concrete documents and files *)

Definition code (cls txt : string) : node :=
  Tag "code" [cls] [] [NavigableString txt].

Definition paragraph (txt : string) : node :=
  Tag "p" [] [] [NavigableString txt].

Definition page (blocks : list node) : node :=
  Tag "[document]" [] [] [Tag "div" ["section"] [] blocks].

Definition py3_path : string := "download/python-3.5.2-docs-html".
Definition py2_path : string := "download/python-2.7.12-docs-html".

(** A function block whose module text ends with two dots. *)
Definition socket_code : node := code "descclassname" "socket..".

Definition socket_block : node :=
  Tag "dl" ["function"] []
    [Tag "dt" [] [("id", "socket.socket")]
       [socket_code; code "descname" "socket"; NavigableString "()"]].

(** An entry with a signature and a summary, written to a file that holds
    one line already. *)
Definition getcwd_entry : data_element :=
  {| module := "os";
     function := "getcwd";
     method_signature := "<pre><code>os.getcwd()</code></pre>";
     first_paragraph := "Return a string.";
     url := "https://docs.python.org/3.5/library/os.html#os.getcwd" |}.

Definition getcwd_output : PythonDataOutput :=
  PythonDataOutput_init [getcwd_entry] "python3".

Definition old_line : row :=
  ["os"; "A"; ""; ""; ""; ""; ""; ""; "https://docs.python.org"; ""; "";
   "Intro."; "https://docs.python.org/3.5/library/os.html"].

Definition getcwd_files : files := {[ "output.txt" := [old_line] ]}.

Definition getcwd_row : row :=
  ["os.getcwd"; "A"; ""; ""; ""; ""; ""; ""; "https://docs.python.org"; "";
   ""; "<pre><code>os.getcwd()</code></pre><br>Return a string.";
   "https://docs.python.org/3.5/library/os.html#os.getcwd"].

Definition getcwd_lines : list row :=
  [old_line; getcwd_row;
   ["os getcwd"; "R"; "os.getcwd"; ""; ""; ""; ""; ""; ""; ""; ""; ""; ""]].

(** A function block whose module text starts with a blank. *)
Definition padded_block : node :=
  Tag "dl" ["function"] []
    [Tag "dt" [] [("id", "os.getcwd")]
       [code "descclassname" " os."; code "descname" "getcwd";
        NavigableString "()"]].

Definition padded_parser : PythonDataParser :=
  PythonDataParser_init "download/python-3.5.2-docs-html/library/os.html"
    (page [padded_block]) py3_path.

(** Method blocks with a given identifier, and one without a [dt]. *)
Definition method_block (id_tag : string) : node :=
  Tag "dl" ["method"] []
    [Tag "dt" [] [("id", id_tag)] [NavigableString "m()"];
     Tag "dd" [] [] [paragraph "Doc."]].

Definition bare_method_block : node :=
  Tag "dl" ["method"] [] [Tag "dd" [] [] [paragraph "Doc."]].

Definition email_id : string := "email.message.EmailMessage.is_attachment".

Definition email_dt : node :=
  Tag "dt" [] [("id", email_id)] [NavigableString "m()"].

Definition email_html : string :=
  "download/python-3.5.2-docs-html/library/email.message.html".

Definition email_parser : PythonDataParser :=
  PythonDataParser_init email_html
    (page [method_block email_id]) py3_path.

Definition trailing_dot_parser : PythonDataParser :=
  PythonDataParser_init email_html (page [method_block "os.path."]) py3_path.

Definition bare_method_parser : PythonDataParser :=
  PythonDataParser_init email_html (page [bare_method_block]) py3_path.

(** A function block with a module name and no function name. *)
Definition nameless_block : node :=
  Tag "dl" ["function"] []
    [Tag "dt" [] [] [code "descclassname" "os."; NavigableString "()"]].

Definition nameless_entry : data_element :=
  {| module := "os";
     function := "";
     method_signature := "<pre><code>os.()</code></pre>";
     first_paragraph := "";
     url := "https://docs.python.org/3.5/library/os.html" |}.

Definition nameless_parser : PythonDataParser :=
  PythonDataParser_init "download/python-3.5.2-docs-html/library/os.html"
    (page [nameless_block]) py3_path.

(** Missing elements give empty strings. *)
Definition missing_elements_degrade (section : node) : Prop :=
  (find "code" (Some "descclassname") section = None ->
   parse_for_module_name section = "")
  /\ (find "code" (Some "descname") section = None ->
      parse_for_function_name section = "")
  /\ (find "dt" None section = None ->
      parse_for_method_signature section = "")
  /\ (List.filter (fun p => Str.truthy (text p)) (find_all "p" None section) = [] ->
      parse_for_first_paragraph section = "")
  /\ (find "a" (Some "headerlink") section = None ->
      parse_for_anchor section = Ok "")
  /\ (forall dt, find "dt" None section = Some dt -> get "id" dt = None ->
      parse_for_class_method section = Ok ("", "", "")).

(** The identifier of a method block names no method: it is missing or
    empty, has fewer than three parts, or has three with an empty last
    part. *)
Definition no_method_name (section : node) : Prop :=
  forall dt, find "dt" None section = Some dt ->
    match get "id" dt with
    | None => True
    | Some id_tag =>
        let parts := Str.split "." id_tag in
        id_tag = "" \/ length parts < 3
        \/ (length parts = 3 /\ nth 2 parts "" = "")
    end.

(** A page of the python2 documentation with one function block. *)
Definition getcwd_block : node :=
  Tag "dl" ["function"] []
    [Tag "dt" [] [("id", "os.getcwd")]
       [code "descclassname" "os."; code "descname" "getcwd";
        NavigableString "()";
        Tag "a" ["headerlink"] [("href", "#os.getcwd")]
          [NavigableString Str.pilcrow]];
     Tag "dd" [] [] [paragraph "Return  a string."]].

Definition py2_os_html : string :=
  "download/python-2.7.12-docs-html/library/os.html".

Definition py2_getcwd_entry : data_element :=
  {| module := "os";
     function := "getcwd";
     method_signature := "<pre><code>os.getcwd()</code></pre>";
     first_paragraph := "Return a string.";
     url := "https://docs.python.org/3.5/library/os.html#os.getcwd" |}.

(** A page with function blocks and method blocks of every kind that
    parses. *)
Definition mixed_parser : PythonDataParser :=
  PythonDataParser_init "download/python-3.5.2-docs-html/library/os.html"
    (page [paragraph "The os module."; getcwd_block; nameless_block;
           Tag "dl" ["function"] [] [];
           method_block "email.message.EmailMessage.is_attachment";
           method_block "os.path.join"; method_block "os.path.";
           method_block "a.b"])
    py3_path.

(** Orders on rows by the key field. *)
Definition key_le (i : nat) (r1 r2 : row) : Prop :=
  String.le (getkey i r1) (getkey i r2).

Definition key_lt (i : nat) (r1 r2 : row) : Prop :=
  key_le i r1 r2 /\ getkey i r1 <> getkey i r2.

(** The rows [unique] keeps of sorted rows. *)
Definition unique_rows (i : nat) (l : list row) : list row :=
  match l with
  | [] => []
  | prev :: rest => iterunique i prev true rest
  end.

(** The first row with a given key. *)
Definition find_row (i : nat) (k : string) (l : list row) : option row :=
  List.find (fun r => String.eqb (getkey i r) k) l.

(** Article rows for the files of [unify]. *)
Definition article (name abstract : string) : row :=
  [name; "A"; ""; ""; ""; ""; ""; ""; "https://docs.python.org"; ""; "";
   abstract; "https://docs.python.org/3.5/library/os.html"].

(** A table in which the name [os.getcwd] occurs twice. *)
Definition listing : table :=
  {| hdr := header;
     rows := [article "os.path.join" "J"; article "os.getcwd" "A";
              article "os" "O"; article "os.getcwd" "A2"] |}.

Definition listing_dedup : table :=
  {| hdr := header;
     rows := [article "os" "O"; article "os.path.join" "J"] |}.

(** The test of the loop of [unify] on a row of the newer table: the older
    rows have a row of the same name, and its abstract is another one. *)
Definition differs (older : list row) (r3 : row) : bool :=
  match find_row 0 (getkey 0 r3) older with
  | Some r2 => negb (String.eqb (nth 11 r3 "") (nth 11 r2 ""))
  | None => false
  end.

(** The dict [lookup] builds from rows with distinct keys. *)
Definition dict_of (i n : nat) (l : list row) : dict :=
  (fun r => (getkey i r, [take n r])) <$> l.

(** The two output files, the older one with a first line, a name whose
    abstract is the same in both, a name whose abstract is another one in
    each and a name of its own; [setheader] takes the first line of each. *)
Definition older_file : list row :=
  [article "os" "Older intro."; article "os.getcwd" "A";
   article "os.getpid" "P"; article "os.getcwdu" "U"].

Definition newer_file : list row :=
  [article "os" "Newer intro."; article "os.getcwd" "B";
   article "os.getpid" "P"; article "os.getcwdb" "W"].

Definition both_files : files :=
  {[ "output_py2.txt" := older_file; "output.txt" := newer_file ]}.

(** The number of rows with key [k]. *)
Definition count_key (i : nat) (k : string) (l : list row) : nat :=
  length (filter (fun r => getkey i r = k) l).

(** The deduplication as the specification words it, to compare with the
    step of the code: after the stable sort by name, the first row of each
    name. [seen] is the name of the row before. *)
Fixpoint first_of_each_name (i : nat) (seen : option string) (l : list row)
    : list row :=
  match l with
  | [] => []
  | r :: l' =>
      if decide (seen = Some (getkey i r)) then first_of_each_name i seen l'
      else r :: first_of_each_name i (Some (getkey i r)) l'
  end.

Definition dedup_first_wins (i : nat) (l : list row) : list row :=
  first_of_each_name i None (sorted_rows i l).




(** ** Further notions *)

(** [c] occurs in [s]. *)
Definition occurs (c : ascii) (s : string) : bool := Str.mem_chars s c.

(** A string with no blank at either end. *)
Definition trimmed (s : string) : Prop :=
  (forall c s', s = String c s' -> Str.isspace c = false)
  /\ (forall c, Str.isspace c = true -> Str.endswith s c = false).

(** The characters of a string that are not blanks. *)
Definition letters (s : string) : list ascii :=
  List.filter (fun c => negb (Str.isspace c)) (String.list_ascii_of_string s).

(** The line feed and the pilcrow as characters. *)
Definition LF_char : ascii := Str.chr 10.
Definition pilcrow_char : ascii := Str.chr 182.

(** The email method block of [email_parser] as an entry. *)
Definition email_entry : data_element :=
  {| module := "email";
     function := "message.EmailMessage.is_attachment";
     method_signature := "<pre><code>m()</code></pre>";
     first_paragraph := "Doc.";
     url := "https://docs.python.org/3.5/library/email.message.html#email.message.EmailMessage.is_attachment" |}.

(** A page whose texts hold line feeds, a pilcrow and blanks. *)
Definition multiline_block : node :=
  Tag "dl" ["function"] []
    [Tag "dt" [] [("id", "os.getcwd")]
       [code "descclassname" "os."; code "descname" "getcwd";
        NavigableString ("(" +:+ Str.LF +:+ ")");
        Tag "a" ["headerlink"] [("href", "#os.getcwd")]
          [NavigableString Str.pilcrow]];
     Tag "dd" [] []
       [paragraph ("Return a string" +:+ Str.LF +:+ "of the directory.")]].

Definition multiline_entry : data_element :=
  {| module := "os";
     function := "getcwd";
     method_signature := "<pre><code>os.getcwd()</code></pre>";
     first_paragraph := "Return a string of the directory.";
     url := "https://docs.python.org/3.5/library/os.html#os.getcwd" |}.

Definition multiline_row : row :=
  ["os.getcwd"; "A"; ""; ""; ""; ""; ""; ""; "https://docs.python.org"; "";
   "";
   "<pre><code>os.getcwd()</code></pre><br>Return a string of the directory.";
   "https://docs.python.org/3.5/library/os.html#os.getcwd"].

Definition py3_os_html : string :=
  "download/python-3.5.2-docs-html/library/os.html".

(** An entry whose fields have blanks at the ends, and its redirect row. *)
Definition blank_entry : data_element :=
  {| module := " os"; function := "getcwd ";
     method_signature := ""; first_paragraph := ""; url := "" |}.

Definition blank_redirect_row : row :=
  ["os getcwd"; "R"; "os.getcwd"; ""; ""; ""; ""; ""; ""; ""; ""; ""; ""].

(** What a run of [unify] shows: the older file it leaves and the counts
    it prints, or the exception. *)
Definition revised_of (r : result (files * (nat * nat)))
    : result (option (list row) * (nat * nat)) :=
  '(fs', counts) ← r; mret (fs' !! "output_py2.txt", counts).

(** [both_files] with other first lines. *)
Definition both_files_retitled : files :=
  {[ "output_py2.txt" := article "sys" "Sys." :: tail older_file;
     "output.txt" := article "sys.argv" "Argv." :: tail newer_file ]}.

(** A file system with the newer output file only. *)
Definition newer_only : files := {[ "output.txt" := newer_file ]}.

(** [both_files] after [unify]. *)
Definition both_files_unified : files :=
  <["output_py2.txt" := [article "os.getcwd" "B"]]> both_files.

(** A field the csv reader gives back as it was written: no tab, line
    break or NUL in it (Python before 3.11 refuses a line with a NUL), no
    double quote at its start, and no more characters than the reader
    accepts in a field. *)
Definition plain_char (c : ascii) : bool :=
  negb (Ascii.eqb c Csv.delimiter || Csv.is_newline c || Ascii.eqb c (Str.chr 0)).

Definition plain_field (f : string) : bool :=
  forallb plain_char (String.list_ascii_of_string f)
  && negb match f with
          | String c _ => Ascii.eqb c Csv.quotechar
          | EmptyString => false
          end
  && (N.of_nat (String.length f) <=? Csv.field_limit)%N.

(** A line of at least two plain fields. *)
Definition plain_row (r : row) : Prop :=
  1 < length r /\ Forall (fun f => plain_field f = true) r.

(** The document is parsed without exception. *)
Definition parses (download_path : string) (doc : string * node) : Prop :=
  exists data,
    parse_for_data (PythonDataParser_init (fst doc) (snd doc) download_path)
    = Ok data.

(** The output file of a version. *)
Definition output_of (version : string) : string :=
  output (PythonDataOutput_init [] version).

(** The body of the loop of the main program over the files of a
    version. *)
Definition process_files (version download_path : string)
    (docs : list (string * node)) (fs : files) : result files :=
  foldM
    (fun fs '(file_path, soup_data) =>
       process_file version download_path file_path soup_data fs)
    fs docs.

(** A traversal with one page for each version. *)
Definition one_page_each (download_path : string) : list (string * node) :=
  if String.eqb download_path py3_path then
    [(py3_os_html, page [getcwd_block])]
  else if String.eqb download_path py2_path then
    [(py2_os_html, page [getcwd_block; method_block "os.path.join"])]
  else [].

(** A traversal that finds pages of the newer version only. *)
Definition python3_only (download_path : string) : list (string * node) :=
  if String.eqb download_path py3_path then
    [(py3_os_html, page [getcwd_block])]
  else [].

(** A traversal in which one page has a method block without [dt]. *)
Definition one_bad_page (download_path : string) : list (string * node) :=
  if String.eqb download_path py3_path then
    [(py3_os_html, page [getcwd_block]);
     (email_html, page [bare_method_block])]
  else one_page_each download_path.

(** The rows written for one document. *)
Definition document_rows (download_path : string) (doc : string * node)
    : list row :=
  match parse_for_data (PythonDataParser_init (fst doc) (snd doc) download_path) with
  | Ok data => flat_map write_element data
  | Raise _ => []
  end.

(** Each version has a document, and every document is parsed. *)
Definition documents_ok (walk : string -> list (string * node)) : Prop :=
  (walk py3_path <> [] /\ Forall (parses py3_path) (walk py3_path))
  /\ (walk py2_path <> [] /\ Forall (parses py2_path) (walk py2_path)).

(** Lines are written for the documents of each version, and every line
    written is plain. *)
Definition plain_lines (lines : list row) : Prop :=
  lines <> [] /\ Forall plain_row lines.

Definition plain_documents (walk : string -> list (string * node)) : Prop :=
  plain_lines (flat_map (document_rows py3_path) (walk py3_path))
  /\ plain_lines (flat_map (document_rows py2_path) (walk py2_path)).

(** A function block whose name holds a line feed, and a traversal with a
    page of each version that has it. *)
Definition broken_block : node :=
  Tag "dl" ["function"] []
    [Tag "dt" [] [("id", "os.getcwd")]
       [code "descclassname" "os.";
        code "descname" ("get" +:+ Str.LF +:+ "cwd");
        NavigableString "()"];
     Tag "dd" [] [] [paragraph "Return a string."]].

Definition broken_walk (download_path : string) : list (string * node) :=
  if String.eqb download_path py3_path then
    [(py3_os_html, page [getcwd_block; broken_block])]
  else if String.eqb download_path py2_path then
    [(py2_os_html, page [getcwd_block; broken_block])]
  else [].

(** A file system with stale output files and another file. *)
Definition stale_files : files :=
  {[ "output.txt" := [["stale"]]; "output_py2.txt" := [["stale"; "line"]];
     "notes.txt" := [["kept"]] ]}.

Definition one_page_each_result : files :=
  {[ "output.txt" := document_rows py3_path (py3_os_html, page [getcwd_block]);
     "output_py2.txt" := [];
     "notes.txt" := [["kept"]] ]}.

(** A page with a section inside a section, the inner one holding a
    function block. *)
Definition inner_section : node := Tag "div" ["section"] [] [getcwd_block].

Definition outer_section : node :=
  Tag "div" ["section"] [] [paragraph "Files and directories."; inner_section].

Definition nested_page : node := Tag "[document]" [] [] [outer_section].

(** The parser of a page of the python3 documentation with the function
    block [getcwd_block]. *)
Definition getcwd_parser : PythonDataParser :=
  PythonDataParser_init py3_os_html (page [getcwd_block]) py3_path.

(** A block with an empty paragraph before the one with text, and no
    [dt]. *)
Definition undocumented_block : node :=
  Tag "dl" ["function"] []
    [Tag "dd" [] [] [paragraph ""; paragraph "Return the   path."]].

(** * Properties *)

(** ** Strings *)

Lemma append_nil_l s : "" +:+ s = s.
Proof. reflexivity. Qed.

Lemma append_cons c s t : String c s +:+ t = String c (s +:+ t).
Proof. reflexivity. Qed.

Lemma append_empty_r s : s +:+ "" = s.
Proof. induction s as [|c s IH]; [done | by rewrite append_cons, IH]. Qed.

Lemma truthy_true s : Str.truthy s = true <-> s <> "".
Proof. destruct s; simpl; split; congruence. Qed.

Lemma truthy_false s : Str.truthy s = false <-> s = "".
Proof. destruct s; simpl; split; congruence. Qed.

Lemma truthy_append_r s t : Str.truthy t = true -> Str.truthy (s +:+ t) = true.
Proof. destruct s; [done | by rewrite append_cons]. Qed.

Lemma format1_pre x :
  Str.format "<pre><code>{}</code></pre>" [x]
  = "<pre><code>" +:+ x +:+ "</code></pre>".
Proof. reflexivity. Qed.

Lemma format2 a b : Str.format "{}{}" [a; b] = a +:+ b.
Proof. cbn. by rewrite append_empty_r. Qed.

Lemma format3 a b c : Str.format "{}{}{}" [a; b; c] = a +:+ b +:+ c.
Proof. cbn. by rewrite append_empty_r. Qed.

Lemma format_spaced a b : Str.format "{} {}" [a; b] = a +:+ " " +:+ b.
Proof. cbn. by rewrite append_empty_r. Qed.

Lemma format_base_url x :
  Str.format PYTHON_DOC_BASE_URL [x] = "https://docs.python.org/3.5" +:+ x.
Proof. cbn. by rewrite append_empty_r. Qed.

(** *** [rstrip] *)

Lemma rstrip_by_cons f c s :
  Str.rstrip_by f (String c s)
  = match Str.rstrip_by f s with
    | EmptyString => if f c then EmptyString else String c EmptyString
    | String d r => String c (String d r)
    end.
Proof. reflexivity. Qed.

Lemma endswith_cons_cons a b s c :
  Str.endswith (String a (String b s)) c = Str.endswith (String b s) c.
Proof. reflexivity. Qed.

(** What [rstrip_by] returns does not end with a stripped character. *)
Lemma rstrip_by_endswith f s c :
  f c = true -> Str.endswith (Str.rstrip_by f s) c = false.
Proof.
  intros Hc. induction s as [|a s IH]; [done|].
  rewrite rstrip_by_cons. destruct (Str.rstrip_by f s) as [|d r].
  - destruct (f a) eqn:Ha; [done|]. simpl.
    destruct (Ascii.eqb_spec a c) as [->|]; congruence.
  - by rewrite endswith_cons_cons.
Qed.

Lemma rstrip_by_all f s :
  Forall (fun c => f c = true) (String.list_ascii_of_string s) ->
  Str.rstrip_by f s = "".
Proof.
  induction s as [|a s IH]; [done|]. simpl. intros H.
  apply Forall_cons in H as [Ha H]. by rewrite IH, Ha.
Qed.

Lemma rstrip_by_app f s t :
  Forall (fun c => f c = true) (String.list_ascii_of_string t) ->
  Str.rstrip_by f (s +:+ t) = Str.rstrip_by f s.
Proof.
  intros Ht. induction s as [|a s IH].
  - by rewrite append_nil_l, rstrip_by_all.
  - by rewrite append_cons, !rstrip_by_cons, IH.
Qed.

(** A string that ends with no stripped character is returned as it is. *)
Lemma rstrip_by_id f s :
  (forall c, f c = true -> Str.endswith s c = false) ->
  Str.rstrip_by f s = s.
Proof.
  induction s as [|a s IH]; [done|]. intros H. rewrite rstrip_by_cons.
  destruct s as [|b s].
  - simpl. destruct (f a) eqn:Ha; [|done].
    specialize (H a Ha). simpl in H. by rewrite Ascii.eqb_refl in H.
  - rewrite IH; [done|]. intros c Hc. specialize (H c Hc).
    by rewrite endswith_cons_cons in H.
Qed.

Lemma mem_chars_dot c : Str.mem_chars "." c = true <-> c = "."%char.
Proof.
  unfold Str.mem_chars. simpl. rewrite orb_false_r. apply Ascii.eqb_eq.
Qed.

Lemma dots_all n :
  Forall (fun c => Str.mem_chars "." c = true)
         (String.list_ascii_of_string (dots n)).
Proof. induction n; simpl; constructor; auto. Qed.

(** *** The string methods on examples *)

Example replace_ex1 : Str.replace "  " " " "a   b    c" = "a  b  c".
Proof. reflexivity. Qed.
Example replace_ex2 : Str.replace "ab" "" "xabaabby" = "xaby".
Proof. reflexivity. Qed.
Example replace_ex3 : Str.replace "" "-" "abc" = "-a-b-c-".
Proof. reflexivity. Qed.
Example split_ex1 : Str.split "." "os.path.join" = ["os"; "path"; "join"].
Proof. reflexivity. Qed.
Example split_ex2 : Str.split "." "a..b." = ["a"; ""; "b"; ""].
Proof. reflexivity. Qed.
Example split_ex3 : Str.split "." "" = [""].
Proof. reflexivity. Qed.
Example strip_ex1 : Str.strip "  os getcwd " = "os getcwd".
Proof. reflexivity. Qed.
Example rstrip_ex1 : Str.rstrip "." "socket.." = "socket".
Proof. reflexivity. Qed.
Example rstrip_ex2 : Str.rstrip "." "a.b." = "a.b".
Proof. reflexivity. Qed.
Example format_ex1 :
  Str.format "<pre><code>{}</code></pre>" ["f(x)"] = "<pre><code>f(x)</code></pre>".
Proof. reflexivity. Qed.
Example format_ex2 : Str.format "{}{}{}" ["a"; "."; "b"] = "a.b".
Proof. reflexivity. Qed.

(** ** The module name of a function block *)

(** C10.  [parse_for_module_name] removes every trailing dot: what it
    returns never ends with a dot, and when the text of the
    [descclassname] element is a stem that does not end with a dot followed
    by any number of dots, it returns the stem. *)
Theorem parse_for_module_name_strips_all_dots
    (section module_name : node) (stem : string) (n : nat) :
  find "code" (Some "descclassname") section = Some module_name ->
  text module_name = stem +:+ dots n ->
  Str.endswith stem "." = false ->
  parse_for_module_name section = stem
  /\ Str.endswith (parse_for_module_name section) "." = false.
Proof.
  intros Hfind Htext Hstem. unfold parse_for_module_name.
  rewrite Hfind, Htext. unfold Str.rstrip.
  rewrite rstrip_by_app by apply dots_all.
  rewrite rstrip_by_id; [done|].
  intros c Hc. apply mem_chars_dot in Hc. by subst c.
Qed.

(** Without any assumption on the block, the module name has no trailing
    dot. *)
Lemma parse_for_module_name_no_trailing_dot (section : node) :
  Str.endswith (parse_for_module_name section) "." = false.
Proof.
  unfold parse_for_module_name.
  destruct (find "code" (Some "descclassname") section); [|done].
  apply rstrip_by_endswith. by apply mem_chars_dot.
Qed.

Lemma parse_for_module_name_socket :
  (find "code" (Some "descclassname") socket_block = Some socket_code
   /\ text socket_code = "socket" +:+ dots 2
   /\ Str.endswith "socket" "." = false)
  /\ parse_for_module_name socket_block = "socket"
  /\ Str.endswith (parse_for_module_name socket_block) "." = false.
Proof.
  split; [repeat split; reflexivity|].
  apply (parse_for_module_name_strips_all_dots socket_block socket_code "socket" 2);
    reflexivity.
Defined.

(** ** The writer *)

Lemma create_names_from_data_eq d :
  create_names_from_data d
  = (Str.strip (module d
                +:+ (if Str.truthy (module d) && Str.truthy (function d)
                     then "." else "")
                +:+ function d),
     Str.strip (module d +:+ " " +:+ function d)).
Proof. unfold create_names_from_data. by rewrite format3, format_spaced. Qed.

Lemma write_element_eq d :
  write_element d
  = if Str.truthy (module d) || Str.truthy (function d) then
      [fst (create_names_from_data d); "A"; ""; ""; ""; ""; ""; "";
       "https://docs.python.org"; ""; "";
       method_signature d
       +:+ (if Str.truthy (method_signature d) && Str.truthy (first_paragraph d)
            then "<br>" else "")
       +:+ first_paragraph d;
       url d]
      :: (if String.eqb (snd (create_names_from_data d))
                        (fst (create_names_from_data d))
          then []
          else [[snd (create_names_from_data d); "R";
                 fst (create_names_from_data d);
                 ""; ""; ""; ""; ""; ""; ""; ""; ""; ""]])
    else [].
Proof.
  unfold write_element. destruct (_ || _); [|done].
  destruct (create_names_from_data d) as [name redirect]; simpl fst; simpl snd.
  rewrite format3. by destruct (String.eqb redirect name).
Qed.

Lemma abstract_of_format sig par :
  abstract_of sig par
    (sig +:+ (if Str.truthy sig && Str.truthy par then "<br>" else "") +:+ par).
Proof.
  unfold abstract_of. destruct sig as [|a sig], par as [|b par]; simpl;
    repeat split; intros; try congruence.
  by rewrite append_nil_l, append_empty_r.
Qed.

Lemma create_file_lookup self fs :
  create_file self fs !! output self
  = Some (default [] (fs !! output self) ++ flat_map write_element (data self)).
Proof. unfold create_file. by rewrite lookup_insert_eq. Qed.

Lemma create_file_other self fs path :
  path <> output self -> create_file self fs !! path = fs !! path.
Proof. intros H. unfold create_file. by rewrite lookup_insert_ne. Qed.

(** C7.  The lines [create_file] adds to its output file come after the
    lines the file held; each added line of kind [A] is the line of an
    entry of the data, and its abstract is the signature, [<br>] and the
    summary when both are non-empty, the non-empty one when exactly one is,
    and empty when both are. *)
Theorem create_file_abstract
    (self : PythonDataOutput) (fs : files) (lines : list row) (r : row) :
  create_file self fs !! output self = Some lines ->
  r ∈ drop (length (default [] (fs !! output self))) lines ->
  row_kind r = "A" ->
  take (length (default [] (fs !! output self))) lines
  = default [] (fs !! output self)
  /\ exists d : data_element,
      d ∈ data self
      /\ row_name r = fst (create_names_from_data d)
      /\ abstract_of (method_signature d) (first_paragraph d) (row_abstract r).
Proof.
  rewrite create_file_lookup. intros [= <-].
  rewrite drop_app_length, take_app_length. intros Hr Hkind. split; [done|].
  apply list_elem_of_In, in_flat_map in Hr as (d & Hd & Hr).
  exists d. split; [by apply list_elem_of_In|].
  rewrite write_element_eq in Hr.
  destruct (_ || _); [|by destruct Hr].
  destruct Hr as [<-|Hr].
  - split; [done|]. apply abstract_of_format.
  - destruct (String.eqb _ _); [by destruct Hr|].
    destruct Hr as [<-|[]]. discriminate Hkind.
Qed.

Lemma create_file_abstract_getcwd :
  (create_file getcwd_output getcwd_files !! output getcwd_output
   = Some getcwd_lines
   /\ getcwd_row
      ∈ drop (length (default [] (getcwd_files !! output getcwd_output)))
             getcwd_lines
   /\ row_kind getcwd_row = "A")
  /\ take (length (default [] (getcwd_files !! output getcwd_output)))
          getcwd_lines
     = default [] (getcwd_files !! output getcwd_output)
  /\ exists d : data_element,
      d ∈ data getcwd_output
      /\ row_name getcwd_row = fst (create_names_from_data d)
      /\ abstract_of (method_signature d) (first_paragraph d)
                     (row_abstract getcwd_row).
Proof.
  assert (H1 : create_file getcwd_output getcwd_files !! output getcwd_output
               = Some getcwd_lines) by reflexivity.
  assert (H2 : getcwd_row
               ∈ drop (length (default [] (getcwd_files !! output getcwd_output)))
                      getcwd_lines)
    by (apply list_elem_of_In; vm_compute; auto).
  assert (H3 : row_kind getcwd_row = "A") by reflexivity.
  split; [auto|].
  exact (create_file_abstract getcwd_output getcwd_files getcwd_lines
           getcwd_row H1 H2 H3).
Defined.

(** C3 as stated fails: with both fields non-empty the dotted name is not
    always [module + "." + function].  The entry extracted from a block
    whose module text is [" os."] has module [" os"] and function
    ["getcwd"], and its article row is named ["os.getcwd"]. *)
Lemma dotted_name_is_trimmed :
  exists d : data_element,
    parse_for_data padded_parser = Ok [d]
    /\ module d <> "" /\ function d <> ""
    /\ fst (create_names_from_data d) = "os.getcwd"
    /\ fst (create_names_from_data d) <> module d +:+ "." +:+ function d
    /\ (exists r, write_element d !! 0 = Some r /\ row_kind r = "A"
                  /\ row_name r <> module d +:+ "." +:+ function d).
Proof.
  eexists. split; [reflexivity|]. repeat split; try discriminate.
  eexists. repeat split; discriminate.
Qed.

(** C3, amended.  For an entry with a module or a function, the dotted name
    is the trimmed [module + "." + function] when both are non-empty and
    the trimmed non-empty one otherwise, the spaced name is the trimmed
    [module + " " + function]; the entry is written as one [A] row named
    by the dotted name, followed by one [R] row from the spaced name to the
    dotted name exactly when the two names differ. *)
Theorem write_element_names (d : data_element) :
  Str.truthy (module d) || Str.truthy (function d) = true ->
  let dotted := fst (create_names_from_data d) in
  let spaced := snd (create_names_from_data d) in
  (module d <> "" -> function d <> "" ->
   dotted = Str.strip (module d +:+ "." +:+ function d))
  /\ (function d = "" -> dotted = Str.strip (module d))
  /\ (module d = "" -> dotted = Str.strip (function d))
  /\ spaced = Str.strip (module d +:+ " " +:+ function d)
  /\ (exists abstract : string,
        write_element d
        = [dotted; "A"; ""; ""; ""; ""; ""; ""; "https://docs.python.org";
           ""; ""; abstract; url d]
          :: (if decide (spaced = dotted) then []
              else [[spaced; "R"; dotted; ""; ""; ""; ""; ""; ""; ""; ""; "";
                     ""]]))
  /\ ((exists r : row, r ∈ write_element d /\ row_kind r = "R")
      <-> spaced <> dotted).
Proof.
  intros Hacc dotted spaced.
  assert (Hrows :
    exists abstract : string,
      write_element d
      = [dotted; "A"; ""; ""; ""; ""; ""; ""; "https://docs.python.org";
         ""; ""; abstract; url d]
        :: (if decide (spaced = dotted) then []
            else [[spaced; "R"; dotted; ""; ""; ""; ""; ""; ""; ""; ""; "";
                   ""]])).
  { eexists. rewrite write_element_eq, Hacc. fold dotted spaced. f_equal.
    destruct (String.eqb_spec spaced dotted), (decide (spaced = dotted));
      congruence. }
  subst dotted spaced. rewrite create_names_from_data_eq in *. simpl fst in *.
  simpl snd in *. repeat split.
  - intros Hm Hf. apply truthy_true in Hm, Hf. by rewrite Hm, Hf.
  - intros ->. rewrite andb_false_r. by rewrite append_nil_l, append_empty_r.
  - intros ->. by rewrite !append_nil_l.
  - done.
  - intros (r & Hr & Hkind). destruct Hrows as (abstract & Hrows).
    rewrite Hrows in Hr. destruct (decide _) as [|Hne]; [|done].
    apply list_elem_of_singleton in Hr as ->. discriminate Hkind.
  - intros Hne. destruct Hrows as (abstract & Hrows). rewrite Hrows.
    destruct (decide _) as [|_]; [done|].
    eexists. split; [apply list_elem_of_In; right; left; reflexivity|done].
Qed.

Lemma write_element_names_getcwd :
  Str.truthy (module getcwd_entry) || Str.truthy (function getcwd_entry) = true
  /\ fst (create_names_from_data getcwd_entry) = "os.getcwd"
  /\ snd (create_names_from_data getcwd_entry) = "os getcwd"
  /\ (exists r : row, r ∈ write_element getcwd_entry /\ row_kind r = "R").
Proof.
  split; [reflexivity|].
  pose proof (write_element_names getcwd_entry eq_refl) as H.
  cbv zeta in H. destruct H as (_ & _ & _ & _ & _ & H).
  repeat split. apply H. discriminate.
Defined.

(** For a module that does not start with a blank and a function that does
    not end with one, trimming changes nothing: the dotted name is
    [module + "." + function] itself. *)
Lemma endswith_app s t c :
  t <> "" -> Str.endswith (s +:+ t) c = Str.endswith t c.
Proof.
  intros Ht. induction s as [|a s IH]; [done|]. rewrite append_cons.
  destruct (s +:+ t) as [|b u] eqn:Hst; [|by rewrite endswith_cons_cons].
  destruct s, t; done.
Qed.

Lemma strip_id c s :
  Str.isspace c = false ->
  (forall d, Str.isspace d = true -> Str.endswith (String c s) d = false) ->
  Str.strip (String c s) = String c s.
Proof.
  intros Hc Hend. unfold Str.strip. simpl. rewrite Hc.
  by apply rstrip_by_id.
Qed.

Lemma dotted_name_untrimmed (d : data_element) (c : ascii) (m : string) :
  module d = String c m ->
  Str.isspace c = false ->
  function d <> "" ->
  (forall a, Str.isspace a = true -> Str.endswith (function d) a = false) ->
  fst (create_names_from_data d) = module d +:+ "." +:+ function d.
Proof.
  intros Hm Hc Hf Hend. rewrite create_names_from_data_eq. simpl fst.
  apply truthy_true in Hf as Hf'. rewrite Hm, Hf'. simpl andb. cbv iota.
  rewrite append_cons. apply strip_id; [done|].
  intros a Ha. rewrite <- append_cons.
  rewrite endswith_app by (by destruct (function d)).
  rewrite endswith_app by done. by apply Hend.
Qed.

(** ** The result monad *)

Lemma bind_Ok {A B : Type} (m : result A) (k : A -> result B) (b : B) :
  m ≫= k = Ok b <-> exists a : A, m = Ok a /\ k a = Ok b.
Proof.
  destruct m as [a|e]; simpl; split.
  - intros H. by exists a.
  - by intros (a' & [= <-] & H).
  - discriminate.
  - by intros (a' & [=] & _).
Qed.

Lemma mapM_cons {A B : Type} (f : A -> result B) (x : A) (l : list A) :
  mapM f (x :: l) = y ← f x; k ← mapM f l; mret (y :: k).
Proof. reflexivity. Qed.

Lemma mapM_Ok {A B : Type} (f : A -> result B) (l : list A) (k : list B) :
  mapM f l = Ok k <-> Forall2 (fun x y => f x = Ok y) l k.
Proof.
  revert k. induction l as [|x l IH]; intros k.
  - split.
    + intros [= <-]. constructor.
    + intros H. by apply Forall2_nil_inv_l in H as ->.
  - rewrite mapM_cons. split.
    + intros H. apply bind_Ok in H as (y & Hy & H).
      apply bind_Ok in H as (k' & Hk' & [= <-]).
      constructor; [done|]. by apply IH.
    + intros H. apply Forall2_cons_inv_l in H as (y & k' & Hy & Hk' & ->).
      apply IH in Hk'. by rewrite Hy, Hk'.
Qed.

Lemma mapM_total {A B : Type} (f : A -> result B) (l : list A) :
  Forall (fun x => exists y, f x = Ok y) l -> exists k, mapM f l = Ok k.
Proof.
  induction 1 as [|x l [y Hy] _ [k Hk]].
  - by exists [].
  - exists (y :: k). by rewrite mapM_cons, Hy, Hk.
Qed.

Lemma mapM_Raise {A B : Type} (f : A -> result B) (l1 l2 : list A) (x : A) (e : exn) :
  Forall (fun x => exists y, f x = Ok y) l1 ->
  f x = Raise e ->
  mapM f (l1 ++ x :: l2) = Raise e.
Proof.
  intros H Hx. induction H as [|z l1 [y Hy] _ IH].
  - by rewrite app_nil_l, mapM_cons, Hx.
  - by rewrite <- app_comm_cons, mapM_cons, Hy, IH.
Qed.

Lemma elem_of_concat_Forall2 {A B : Type} (f : A -> result (list B))
    (xs : list A) (ys : list (list B)) (d : B) :
  Forall2 (fun x y => f x = Ok y) xs ys ->
  d ∈ concat ys ->
  exists x y, x ∈ xs /\ f x = Ok y /\ d ∈ y.
Proof.
  induction 1 as [|x y xs ys Hxy _ IH]; simpl.
  - by intros ?%elem_of_nil.
  - intros [Hd|Hd]%elem_of_app.
    + exists x, y. split; [left|done].
    + destruct (IH Hd) as (x' & y' & ? & ? & ?). exists x', y'.
      split; [by right|done].
Qed.

(** ** The parser *)

Section ParserFacts.

Variable self : PythonDataParser.

Lemma create_url_eq anchor :
  create_url self anchor
  = "https://docs.python.org/3.5"
    +:+ Str.replace (download_path self) "" (file_being_used self) +:+ anchor.
Proof. unfold create_url. by rewrite format2, format_base_url. Qed.

(** What [parse_for_data] returns when it returns. *)
Lemma parse_for_data_Ok data :
  parse_for_data self = Ok data <->
  exists fs ms,
    Forall2 (fun s y => parse_function_section self s = Ok y)
            (function_sections self) fs
    /\ Forall2 (fun s y => parse_method_section self s = Ok y)
               (method_sections self) ms
    /\ data = parse_intro self ++ concat fs ++ concat ms.
Proof.
  unfold parse_for_data. split.
  - intros H. apply bind_Ok in H as (fs & Hfs & H).
    apply bind_Ok in H as (ms & Hms & [= <-]).
    exists fs, ms. by rewrite <- !mapM_Ok.
  - intros (fs & ms & Hfs & Hms & ->).
    apply mapM_Ok in Hfs, Hms. by rewrite Hfs, Hms.
Qed.

Lemma parse_function_section_Ok section recs :
  parse_function_section self section = Ok recs <->
  (parse_for_module_name section = "" /\ parse_for_function_name section = ""
   /\ recs = [])
  \/ (exists anchor,
        (parse_for_module_name section <> ""
         \/ parse_for_function_name section <> "")
        /\ parse_for_anchor section = Ok anchor
        /\ recs = [ {| module := parse_for_module_name section;
                       function := parse_for_function_name section;
                       method_signature := parse_for_method_signature section;
                       first_paragraph := parse_for_first_paragraph section;
                       url := create_url self anchor |} ]).
Proof.
  unfold parse_function_section.
  destruct (Str.truthy (parse_for_module_name section)) eqn:Hm;
    [|destruct (Str.truthy (parse_for_function_name section)) eqn:Hf]; simpl.
  - apply truthy_true in Hm. split.
    + intros H. apply bind_Ok in H as (anchor & Ha & [= <-]).
      right. exists anchor. auto.
    + intros [(? & _)|(anchor & _ & Ha & ->)]; [done|]. by rewrite Ha.
  - apply truthy_true in Hf. split.
    + intros H. apply bind_Ok in H as (anchor & Ha & [= <-]).
      right. exists anchor. auto.
    + intros [(_ & ? & _)|(anchor & _ & Ha & ->)]; [done|]. by rewrite Ha.
  - apply truthy_false in Hm, Hf. split.
    + intros [= <-]. auto.
    + intros [(_ & _ & ->)|(anchor & [?|?] & _)]; done.
Qed.

Lemma parse_method_section_Ok section recs :
  parse_method_section self section = Ok recs <->
  exists module class_name method,
    parse_for_class_method section = Ok (module, class_name, method)
    /\ ((method = "" /\ recs = [])
        \/ (method <> ""
            /\ recs = [ {| module := module;
                           function := class_name +:+ "." +:+ method;
                           method_signature := parse_for_method_signature section;
                           first_paragraph := parse_for_first_paragraph section;
                           url := create_url self
                                    ("#" +:+ Str.join "." [module; class_name; method]) |} ])).
Proof.
  unfold parse_method_section. split.
  - intros H. apply bind_Ok in H as ([[m c] me] & Hp & H).
    exists m, c, me. split; [done|].
    destruct (Str.truthy me) eqn:Hme; injection H as <-.
    + right. by apply truthy_true in Hme.
    + left. by apply truthy_false in Hme.
  - intros (m & c & me & -> & [[-> ->]|[Hme ->]]); simpl; [done|].
    apply truthy_true in Hme. by rewrite Hme.
Qed.

End ParserFacts.

(** ** URLs *)

Lemma init_download_path file soup path :
  download_path (PythonDataParser_init file soup path) = path.
Proof. unfold PythonDataParser_init. by destruct (fold_left _ _ _). Qed.

Lemma init_file_being_used file soup path :
  file_being_used (PythonDataParser_init file soup path) = file.
Proof. unfold PythonDataParser_init. by destruct (fold_left _ _ _). Qed.

Lemma url_of_entry self data d :
  parse_for_data self = Ok data -> d ∈ data ->
  exists anchor, url d = create_url self anchor.
Proof.
  intros (fs & ms & Hfs & Hms & ->)%parse_for_data_Ok Hd.
  apply elem_of_app in Hd as [Hd|Hd]; [|apply elem_of_app in Hd as [Hd|Hd]].
  - unfold parse_intro in Hd. destruct (_ && _); [|by apply elem_of_nil in Hd].
    apply list_elem_of_singleton in Hd as ->. by exists "".
  - destruct (elem_of_concat_Forall2 _ _ _ _ Hfs Hd) as (s & y & _ & Hy & Hdy).
    apply parse_function_section_Ok in Hy as [(_ & _ & ->)|(anchor & _ & _ & ->)].
    + by apply elem_of_nil in Hdy.
    + apply list_elem_of_singleton in Hdy as ->. by exists anchor.
  - destruct (elem_of_concat_Forall2 _ _ _ _ Hms Hd) as (s & y & _ & Hy & Hdy).
    apply parse_method_section_Ok in Hy
      as (m & c & me & _ & [[_ ->]|[_ ->]]).
    + by apply elem_of_nil in Hdy.
    + apply list_elem_of_singleton in Hdy as ->. eexists. reflexivity.
Qed.

(** C8.  For a document of either version, every entry the parser returns
    has a URL obtained by formatting [PYTHON_DOC_BASE_URL], the template
    [https://docs.python.org/3.5{}], with the file path relative to the
    download path followed by an anchor. *)
Theorem url_uses_python3_template
    (version path file : string) (soup_data : node)
    (data : list data_element) (d : data_element) :
  (version, path) ∈ DOWNLOADED_HTML_PATHS ->
  parse_for_data (PythonDataParser_init file soup_data path) = Ok data ->
  d ∈ data ->
  exists anchor : string,
    url d = Str.format PYTHON_DOC_BASE_URL [Str.replace path "" file +:+ anchor]
    /\ url d = "https://docs.python.org/3.5" +:+ Str.replace path "" file +:+ anchor.
Proof.
  intros _ Hdata Hd. destruct (url_of_entry _ _ _ Hdata Hd) as (anchor & ->).
  exists anchor. rewrite create_url_eq, format_base_url.
  by rewrite init_download_path, init_file_being_used.
Qed.

Lemma url_uses_python3_template_py2 :
  (("python2", py2_path) ∈ DOWNLOADED_HTML_PATHS
   /\ parse_for_data (PythonDataParser_init py2_os_html (page [getcwd_block]) py2_path)
      = Ok [py2_getcwd_entry]
   /\ py2_getcwd_entry ∈ [py2_getcwd_entry])
  /\ exists anchor : string,
      url py2_getcwd_entry
      = Str.format PYTHON_DOC_BASE_URL
          [Str.replace py2_path "" py2_os_html +:+ anchor]
      /\ url py2_getcwd_entry
         = "https://docs.python.org/3.5"
           +:+ Str.replace py2_path "" py2_os_html +:+ anchor.
Proof.
  assert (H1 : ("python2", py2_path) ∈ DOWNLOADED_HTML_PATHS)
    by (apply list_elem_of_In; simpl; auto).
  assert (H2 : parse_for_data
                 (PythonDataParser_init py2_os_html (page [getcwd_block]) py2_path)
               = Ok [py2_getcwd_entry]) by reflexivity.
  assert (H3 : py2_getcwd_entry ∈ [py2_getcwd_entry])
    by (apply list_elem_of_In; simpl; auto).
  split; [auto|].
  exact (url_uses_python3_template "python2" py2_path py2_os_html
           (page [getcwd_block]) [py2_getcwd_entry] py2_getcwd_entry H1 H2 H3).
Defined.

(** ** Method blocks *)

Lemma join_two_truthy sep a b l :
  Str.truthy sep = true -> Str.truthy (Str.join sep (a :: b :: l)) = true.
Proof.
  intros H. change (Str.join sep (a :: b :: l))
    with (a +:+ sep +:+ Str.join sep (b :: l)).
  apply truthy_append_r. destruct sep; [done|]. by rewrite append_cons.
Qed.

Lemma parse_for_class_method_id section dt id_tag :
  find "dt" None section = Some dt ->
  get "id" dt = Some id_tag ->
  let parts := Str.split "." id_tag in
  parse_for_class_method section
  = Ok (if Str.truthy id_tag then
          if length parts =? 3 then (nth 0 parts "", nth 1 parts "", nth 2 parts "")
          else if 3 <? length parts then
                 (nth 0 parts "", nth 1 parts "", Str.join "." (drop 2 parts))
               else ("", "", "")
        else ("", "", "")).
Proof.
  intros Hdt Hid parts. unfold parse_for_class_method. rewrite Hdt, Hid.
  fold parts. destruct (Str.truthy id_tag); [|done].
  destruct (length parts =? 3); [done|]. by destruct (3 <? length parts).
Qed.

(** C2 as stated fails: an identifier of exactly three parts whose last
    part is empty gives no entry. *)
Lemma three_parts_without_record :
  exists dt,
    find "dt" None (method_block "os.path.") = Some dt
    /\ get "id" dt = Some "os.path."
    /\ Str.split "." "os.path." = ["os"; "path"; ""]
    /\ parse_method_section trailing_dot_parser (method_block "os.path.") = Ok []
    /\ method_sections trailing_dot_parser = [method_block "os.path."]
    /\ parse_for_data trailing_dot_parser = Ok [].
Proof. eexists. repeat split. Qed.

(** C2, amended.  For a method block whose [dt] has identifier [id_tag],
    split on dots: with exactly three parts of which the last is not
    empty, one entry with module [parts[0]] and function
    [parts[1] + "." + parts[2]]; with more than three parts, one entry
    with module [parts[0]] and function
    [parts[1] + "." + ".".join(parts[2:])]; with fewer than three parts,
    or exactly three of which the last is empty, no entry. *)
Theorem parse_method_section_identifier
    (self : PythonDataParser) (section dt : node) (id_tag : string) :
  find "dt" None section = Some dt ->
  get "id" dt = Some id_tag ->
  let parts := Str.split "." id_tag in
  (length parts = 3 -> nth 2 parts "" <> "" ->
   exists d, parse_method_section self section = Ok [d]
             /\ module d = nth 0 parts ""
             /\ function d = nth 1 parts "" +:+ "." +:+ nth 2 parts "")
  /\ (3 < length parts ->
      exists d, parse_method_section self section = Ok [d]
                /\ module d = nth 0 parts ""
                /\ function d
                   = nth 1 parts "" +:+ "." +:+ Str.join "." (drop 2 parts))
  /\ (length parts < 3 -> parse_method_section self section = Ok [])
  /\ (length parts = 3 -> nth 2 parts "" = "" ->
      parse_method_section self section = Ok []).
Proof.
  intros Hdt Hid parts.
  pose proof (parse_for_class_method_id section dt id_tag Hdt Hid) as Hp.
  cbv zeta in Hp. fold parts in Hp.
  unfold parse_method_section. rewrite Hp. clear Hp.
  destruct (Str.truthy id_tag) eqn:Hid_tag.
  - repeat split.
    + intros Hlen Hlast. rewrite Hlen. simpl.
      apply truthy_true in Hlast. rewrite Hlast. eexists. by repeat split.
    + intros Hlen. destruct (Nat.eqb_spec (length parts) 3) as [|_]; [lia|].
      destruct (Nat.ltb_spec 3 (length parts)) as [_|]; [|lia]. simpl.
      assert (Str.truthy (Str.join "." (drop 2 parts)) = true) as ->.
      { destruct parts as [|a [|b [|c [|e parts']]]]; simpl in Hlen; try lia.
        by apply join_two_truthy. }
      eexists. by repeat split.
    + intros Hlen. destruct (Nat.eqb_spec (length parts) 3) as [|_]; [lia|].
      by destruct (Nat.ltb_spec 3 (length parts)) as [|_]; [lia|].
    + intros Hlen Hlast. rewrite Hlen. simpl. by rewrite Hlast.
  - apply truthy_false in Hid_tag. subst id_tag. subst parts. simpl.
    repeat split; intros; try done; lia.
Qed.

Lemma parse_method_section_identifier_email :
  (find "dt" None (method_block email_id) = Some email_dt
   /\ get "id" email_dt = Some email_id
   /\ 3 < length (Str.split "." email_id))
  /\ exists d, parse_method_section email_parser (method_block email_id) = Ok [d]
               /\ module d = "email"
               /\ function d = "message.EmailMessage.is_attachment".
Proof.
  assert (H1 : find "dt" None (method_block email_id) = Some email_dt)
    by reflexivity.
  assert (H2 : get "id" email_dt = Some email_id) by reflexivity.
  assert (H3 : 3 < length (Str.split "." email_id)) by (vm_compute; lia).
  split; [auto|].
  destruct (parse_method_section_identifier email_parser (method_block email_id)
              email_dt email_id H1 H2) as (_ & H & _).
  exact (H H3).
Defined.

(** An identifier of exactly three parts. *)
Example parse_method_section_os_path_join :
  exists d, parse_method_section email_parser (method_block "os.path.join") = Ok [d]
            /\ module d = "os" /\ function d = "path.join"
            /\ url d = "https://docs.python.org/3.5/library/email.message.html#os.path.join".
Proof. eexists. repeat split. Qed.

(** ** Missing elements *)

Lemma missing_elements (section : node) : missing_elements_degrade section.
Proof.
  unfold missing_elements_degrade, parse_for_module_name,
    parse_for_function_name, parse_for_method_signature,
    parse_for_first_paragraph, parse_for_anchor, parse_for_class_method.
  repeat split.
  - by intros ->.
  - by intros ->.
  - by intros ->.
  - by intros ->.
  - by intros ->.
  - by intros dt -> ->.
Qed.

Lemma parse_for_anchor_Ok section :
  (forall a, find "a" (Some "headerlink") section = Some a -> is_Some (get "href" a)) ->
  exists anchor, parse_for_anchor section = Ok anchor.
Proof.
  intros H. unfold parse_for_anchor, getitem.
  destruct (find "a" (Some "headerlink") section) as [a|]; [|by eexists].
  destruct (H a eq_refl) as [v ->]. by eexists.
Qed.

Lemma no_method_name_dt section dt :
  find "dt" None section = Some dt ->
  no_method_name section <->
  match get "id" dt with
  | None => True
  | Some id_tag =>
      let parts := Str.split "." id_tag in
      id_tag = "" \/ length parts < 3
      \/ (length parts = 3 /\ nth 2 parts "" = "")
  end.
Proof.
  intros Hdt. unfold no_method_name. rewrite Hdt. split.
  - intros H. apply (H dt eq_refl).
  - intros H dt0 [= <-]. exact H.
Qed.

(** The method name [parse_for_class_method] returns is empty exactly when
    the identifier names no method. *)
Lemma parse_for_class_method_name section dt :
  find "dt" None section = Some dt ->
  exists t : string * string * string,
    parse_for_class_method section = Ok t
    /\ (snd t = "" <-> no_method_name section).
Proof.
  intros Hdt. setoid_rewrite (no_method_name_dt section dt Hdt).
  destruct (get "id" dt) as [id_tag|] eqn:Hid.
  - pose proof (parse_for_class_method_id section dt id_tag Hdt Hid) as Hp.
    cbv zeta in Hp |- *. eexists. split; [exact Hp|]. clear Hp.
    set (parts := Str.split "." id_tag).
    destruct (Str.truthy id_tag) eqn:Ht.
    + apply truthy_true in Ht.
      destruct (Nat.eqb_spec (length parts) 3) as [Hlen|Hlen].
      * simpl. split; [auto|]. intros [?|[?|[_ ?]]]; [done|lia|done].
      * destruct (Nat.ltb_spec 3 (length parts)) as [Hlt|Hge]; simpl.
        -- split.
           ++ intros Hj. exfalso.
              assert (Str.truthy (Str.join "." (drop 2 parts)) = true) as Hj'.
              { destruct parts as [|a [|b [|c [|e parts']]]]; simpl in Hlt;
                  try lia. by apply join_two_truthy. }
              by rewrite Hj in Hj'.
           ++ intros [?|[?|[? _]]]; [done|lia|lia].
        -- split; [|done]. intros _. right. left. lia.
    + apply truthy_false in Ht. simpl. split; auto.
  - unfold parse_for_class_method. rewrite Hdt, Hid. eexists.
    split; [reflexivity|]. done.
Qed.

(** C5 as stated fails twice.  A method block without a [dt] makes the
    whole extraction raise; and a method block whose identifier has three
    parts, the last one empty, is dropped. *)
Lemma extraction_raises_without_dt :
  (method_sections bare_method_parser = [bare_method_block]
   /\ find "dt" None bare_method_block = None
   /\ parse_for_data bare_method_parser = Raise AttributeError)
  /\ (method_sections trailing_dot_parser = [method_block "os.path."]
      /\ length (Str.split "." "os.path.") = 3
      /\ parse_for_data trailing_dot_parser = Ok []).
Proof. repeat split. Qed.

(** C5, amended.  When every method block has a [dt] and every header link
    of a function block has an [href], [parse_for_data] returns: the intro
    entry if any, then the entries of the function blocks, then those of
    the method blocks.  A function block is dropped exactly when its module
    and function are both empty and gives one entry otherwise; a method
    block is dropped exactly when its identifier names no method and gives
    one entry otherwise; and in every block a missing element gives the
    empty string. *)
Theorem parse_for_data_total (self : PythonDataParser) :
  Forall (fun s => is_Some (find "dt" None s)) (method_sections self) ->
  Forall (fun s => forall a, find "a" (Some "headerlink") s = Some a ->
                             is_Some (get "href" a))
         (function_sections self) ->
  exists fs ms : list (list data_element),
    parse_for_data self = Ok (parse_intro self ++ concat fs ++ concat ms)
    /\ Forall2 (fun s recs =>
                  missing_elements_degrade s
                  /\ (recs = [] <->
                      parse_for_module_name s = ""
                      /\ parse_for_function_name s = "")
                  /\ (recs <> [] ->
                      exists d, recs = [d]
                                /\ module d = parse_for_module_name s
                                /\ function d = parse_for_function_name s
                                /\ method_signature d = parse_for_method_signature s
                                /\ first_paragraph d = parse_for_first_paragraph s))
               (function_sections self) fs
    /\ Forall2 (fun s recs =>
                  missing_elements_degrade s
                  /\ (recs = [] <-> no_method_name s)
                  /\ (recs <> [] ->
                      exists d, recs = [d]
                                /\ method_signature d = parse_for_method_signature s
                                /\ first_paragraph d = parse_for_first_paragraph s))
               (method_sections self) ms.
Proof.
  intros Hms Hfs.
  assert (Hf : exists fs,
    Forall2 (fun s y => parse_function_section self s = Ok y)
            (function_sections self) fs).
  { setoid_rewrite <- mapM_Ok. apply mapM_total.
    eapply Forall_impl; [exact Hfs|]. intros s Hs. simpl in Hs.
    destruct (parse_for_anchor_Ok s Hs) as (anchor & Ha).
    unfold parse_function_section. rewrite Ha. simpl.
    destruct (_ || _); by eexists. }
  assert (Hm : exists ms,
    Forall2 (fun s y => parse_method_section self s = Ok y)
            (method_sections self) ms).
  { setoid_rewrite <- mapM_Ok. apply mapM_total.
    eapply Forall_impl; [exact Hms|]. intros s [dt Hdt]. simpl.
    destruct (parse_for_class_method_name s dt Hdt) as ([[m c] me] & Hp & _).
    unfold parse_method_section. rewrite Hp. simpl.
    destruct (Str.truthy me); by eexists. }
  destruct Hf as (fs & Hf), Hm as (ms & Hm). exists fs, ms. split; [|split].
  - apply parse_for_data_Ok. by exists fs, ms.
  - eapply Forall2_impl; [exact Hf|]. intros s recs Hs. simpl in Hs.
    split; [apply missing_elements|].
    apply parse_function_section_Ok in Hs
      as [(Hm0 & Hf0 & ->)|(anchor & Hne & _ & ->)].
    + split; [done|]. by intros [].
    + split.
      * split; [done|]. intros [? ?]. by destruct Hne.
      * intros _. eexists. by repeat split.
  - rewrite Forall2_same_length_lookup in Hm |- *.
    destruct Hm as [Hlen Hm]. split; [done|]. intros i s recs Hi Hr.
    specialize (Hm i s recs Hi Hr). simpl in Hm.
    split; [apply missing_elements|].
    rewrite Forall_lookup in Hms. destruct (Hms i s Hi) as [dt Hdt].
    destruct (parse_for_class_method_name s dt Hdt) as ([[m c] me] & Hp & Hno).
    simpl in Hno.
    apply parse_method_section_Ok in Hm as (m' & c' & me' & Hp' & Hcase).
    rewrite Hp in Hp'. injection Hp' as <- <- <-.
    destruct Hcase as [[-> ->]|[Hme ->]].
    + split; [|done]. split; [intros _; by apply Hno|done].
    + split.
      * split; [done|]. intros Hn. by apply Hno in Hn.
      * intros _. eexists. by repeat split.
Qed.

Lemma parse_for_data_total_mixed :
  (Forall (fun s => is_Some (find "dt" None s)) (method_sections mixed_parser)
   /\ Forall (fun s => forall a, find "a" (Some "headerlink") s = Some a ->
                                 is_Some (get "href" a))
             (function_sections mixed_parser))
  /\ exists fs ms : list (list data_element),
      parse_for_data mixed_parser
      = Ok (parse_intro mixed_parser ++ concat fs ++ concat ms)
      /\ length fs = 3 /\ length ms = 4.
Proof.
  assert (H1 : Forall (fun s => is_Some (find "dt" None s))
                      (method_sections mixed_parser)).
  { vm_compute method_sections. repeat constructor; by eexists. }
  assert (H2 : Forall (fun s => forall a, find "a" (Some "headerlink") s = Some a ->
                                          is_Some (get "href" a))
                      (function_sections mixed_parser)).
  { vm_compute function_sections.
    repeat constructor; intros a [= <-]; by eexists. }
  split; [auto|].
  destruct (parse_for_data_total mixed_parser H1 H2) as (fs & ms & H & Hf & Hm).
  exists fs, ms. split; [exact H|].
  apply Forall2_length in Hf, Hm. by rewrite <- Hf, <- Hm.
Defined.

(** ** Entries with an empty function *)

(** C6 as stated fails: a function block with a module name and no
    function name gives an entry whose function is empty; it is not the
    intro entry (this page has none), and the writer accepts it. *)
Lemma function_entry_with_empty_function :
  exists d : data_element,
    parse_for_data nameless_parser = Ok [d]
    /\ parse_intro nameless_parser = []
    /\ function_sections nameless_parser = [nameless_block]
    /\ parse_function_section nameless_parser nameless_block = Ok [d]
    /\ d = nameless_entry
    /\ module d = "os" /\ function d = ""
    /\ write_element d
       = [["os"; "A"; ""; ""; ""; ""; ""; ""; "https://docs.python.org"; "";
           ""; "<pre><code>os.()</code></pre>";
           "https://docs.python.org/3.5/library/os.html"]].
Proof. eexists. repeat split. Qed.

(** C6, amended.  Every entry the parser returns has a module or a
    function and is accepted by the writer.  An entry whose function is
    empty has a module, and is either the intro entry or the entry of a
    function block in which no function name was found; the entry of a
    method block never has an empty function. *)
Theorem entry_function_field
    (self : PythonDataParser) (data : list data_element) (d : data_element) :
  parse_for_data self = Ok data ->
  d ∈ data ->
  (module d <> "" \/ function d <> "")
  /\ write_element d <> []
  /\ (function d = "" ->
      module d <> ""
      /\ (d ∈ parse_intro self
          \/ exists s, s ∈ function_sections self
                       /\ parse_function_section self s = Ok [d]
                       /\ parse_for_function_name s = ""))
  /\ (forall s recs, s ∈ method_sections self ->
        parse_method_section self s = Ok recs -> d ∈ recs -> function d <> "").
Proof.
  intros (fs & ms & Hfs & Hms & ->)%parse_for_data_Ok Hd.
  assert (Hmeth : forall s recs, parse_method_section self s = Ok recs ->
                                 d ∈ recs -> function d <> "").
  { intros s recs Hs Hdr.
    apply parse_method_section_Ok in Hs as (m & c & me & _ & [[_ ->]|[_ ->]]).
    - by apply elem_of_nil in Hdr.
    - apply list_elem_of_singleton in Hdr as ->. simpl.
      intros H. apply truthy_false in H.
      rewrite truthy_append_r in H; [done|]. by rewrite append_cons. }
  assert (Hcases :
    (d ∈ parse_intro self /\ module d <> "")
    \/ (exists s, s ∈ function_sections self
                  /\ parse_function_section self s = Ok [d]
                  /\ (module d <> "" \/ function d <> "")
                  /\ function d = parse_for_function_name s)
    \/ function d <> "").
  { apply elem_of_app in Hd as [Hd|Hd]; [|apply elem_of_app in Hd as [Hd|Hd]].
    - left. split; [done|]. unfold parse_intro in Hd.
      destruct (Str.truthy (intro_text self)); simpl in Hd;
        [|by apply elem_of_nil in Hd].
      destruct (Str.truthy (title self)) eqn:Ht; [|by apply elem_of_nil in Hd].
      apply list_elem_of_singleton in Hd as ->. simpl. by apply truthy_true.
    - right. left.
      destruct (elem_of_concat_Forall2 _ _ _ _ Hfs Hd) as (s & y & Hs & Hy & Hdy).
      exists s. split; [done|].
      pose proof Hy as Hy'.
      apply parse_function_section_Ok in Hy'
        as [(_ & _ & ->)|(anchor & Hne & _ & ->)].
      + by apply elem_of_nil in Hdy.
      + apply list_elem_of_singleton in Hdy as ->. by rewrite Hy.
    - right. right.
      destruct (elem_of_concat_Forall2 _ _ _ _ Hms Hd) as (s & y & _ & Hy & Hdy).
      by apply (Hmeth s y). }
  assert (Hne : module d <> "" \/ function d <> "").
  { destruct Hcases as [[_ ?]|[(s & _ & _ & ? & _)|?]]; auto. }
  split; [done|]. split; [|split].
  - rewrite write_element_eq.
    assert (Str.truthy (module d) || Str.truthy (function d) = true) as ->; [|done].
    destruct Hne as [H|H]; apply truthy_true in H; rewrite H; [done|].
    apply orb_true_r.
  - intros Hf. split; [by destruct Hne|].
    destruct Hcases as [[? _]|[(s & Hs & Hy & _ & Hfn)|?]]; [by left| |done].
    right. exists s. by rewrite <- Hfn.
  - intros s recs _. apply Hmeth.
Qed.

Lemma entry_function_field_mixed :
  (exists data, parse_for_data mixed_parser = Ok data /\ nameless_entry ∈ data)
  /\ module nameless_entry <> ""
  /\ exists s, s ∈ function_sections mixed_parser
               /\ parse_function_section mixed_parser s = Ok [nameless_entry]
               /\ parse_for_function_name s = "".
Proof.
  assert (H1 : exists data, parse_for_data mixed_parser = Ok data
                            /\ nameless_entry ∈ data).
  { eexists. split; [reflexivity|].
    apply list_elem_of_In. vm_compute. auto. }
  split; [exact H1|]. destruct H1 as (data & H1 & H2).
  destruct (entry_function_field mixed_parser data nameless_entry H1 H2)
    as (_ & _ & H & _).
  destruct (H eq_refl) as (Hm & [Hintro|Hs]); [|by split].
  exfalso. apply list_elem_of_In in Hintro. vm_compute in Hintro.
  exact Hintro.
Defined.

(** ** Sorting and [unique] *)

Section Sorting.

Variable i : nat.

Lemma leb_le s1 s2 : String.leb s1 s2 = true <-> String.le s1 s2.
Proof. unfold String.le. by rewrite Is_true_true. Qed.

Lemma key_le_refl r : key_le i r r.
Proof. unfold key_le. done. Qed.

Lemma key_le_trans r1 r2 r3 : key_le i r1 r2 -> key_le i r2 r3 -> key_le i r1 r3.
Proof. unfold key_le. intros. by etrans. Qed.

Lemma key_le_antisym r1 r2 :
  key_le i r1 r2 -> key_le i r2 r1 -> getkey i r1 = getkey i r2.
Proof. unfold key_le. intros. by apply (anti_symm String.le). Qed.

Lemma key_le_total r1 r2 : key_le i r1 r2 \/ key_le i r2 r1.
Proof. unfold key_le. apply (total String.le). Qed.

Lemma insert_row_perm r l : insert_row i r l ≡ₚ r :: l.
Proof.
  induction l as [|r' l IH]; simpl; [done|].
  destruct (String.leb _ _); [done|]. rewrite IH. apply Permutation_swap.
Qed.

Lemma sorted_rows_perm l : sorted_rows i l ≡ₚ l.
Proof.
  induction l as [|r l IH]; simpl; [done|].
  by rewrite insert_row_perm, IH.
Qed.

Lemma insert_row_sorted r l :
  StronglySorted (key_le i) l -> StronglySorted (key_le i) (insert_row i r l).
Proof.
  induction 1 as [|r' l Hl IH Hall]; simpl.
  - repeat constructor.
  - destruct (String.leb (getkey i r) (getkey i r')) eqn:Hle.
    + apply leb_le in Hle. constructor; [by constructor|].
      constructor; [done|]. eapply Forall_impl; [exact Hall|].
      intros r'' ?. by apply key_le_trans with r'.
    + constructor; [done|]. rewrite insert_row_perm. constructor; [|done].
      destruct (key_le_total r r') as [H|H]; [|done].
      apply leb_le in H. unfold getkey in *. congruence.
Qed.

Lemma sorted_rows_sorted l : StronglySorted (key_le i) (sorted_rows i l).
Proof.
  induction l as [|r l IH]; simpl; [constructor|by apply insert_row_sorted].
Qed.

(** Sorting rows that are sorted changes nothing. *)
Lemma sorted_rows_id l : StronglySorted (key_le i) l -> sorted_rows i l = l.
Proof.
  induction 1 as [|r l Hl IH Hall]; simpl; [done|]. rewrite IH.
  destruct l as [|r' l]; simpl; [done|].
  apply Forall_cons in Hall as [Hle _]. apply leb_le in Hle. by rewrite Hle.
Qed.

Lemma sorted_rows_idemp l : sorted_rows i (sorted_rows i l) = sorted_rows i l.
Proof. apply sorted_rows_id, sorted_rows_sorted. Qed.

Lemma key_lt_le_sorted l :
  StronglySorted (key_lt i) l -> StronglySorted (key_le i) l.
Proof.
  induction 1 as [|r l Hl IH Hall]; constructor; [done|].
  eapply Forall_impl; [exact Hall|]. by intros r' [? _].
Qed.

Lemma key_lt_NoDup l :
  StronglySorted (key_lt i) l -> NoDup (getkey i <$> l).
Proof.
  induction 1 as [|r l Hl IH Hall]; simpl; constructor; [|done].
  intros (r' & Heq & Hr')%list_elem_of_fmap.
  rewrite Forall_forall in Hall. by destruct (Hall r' Hr').
Qed.

(** The rows kept by the loop of [unique] are rows of its input, and their
    keys increase strictly. *)
Lemma iterunique_sorted prev b rest :
  StronglySorted (key_le i) (prev :: rest) ->
  StronglySorted (key_lt i) (iterunique i prev b rest)
  /\ Forall (fun r => r ∈ prev :: rest) (iterunique i prev b rest).
Proof.
  revert prev b. induction rest as [|curr rest IH]; intros prev b Hs; simpl.
  - destruct b; split; repeat constructor.
  - apply StronglySorted_cons in Hs as [Hall Hs].
    destruct (IH curr (negb (String.eqb (getkey i curr) (getkey i prev))) Hs)
      as [Hsorted Hsub].
    assert (Hsub' : Forall (fun r => r ∈ prev :: curr :: rest)
                      (iterunique i curr
                         (negb (String.eqb (getkey i curr) (getkey i prev))) rest)).
    { eapply Forall_impl; [exact Hsub|]. intros r ?. by right. }
    destruct (b && negb (String.eqb (getkey i curr) (getkey i prev))) eqn:Hb;
      simpl; [|done].
    apply andb_true_iff in Hb as [_ Hne]. apply negb_true_iff in Hne.
    apply String.eqb_neq in Hne.
    split; [|constructor; [left|done]].
    constructor; [done|].
    rewrite Forall_forall in Hsub |- *. intros r Hr. specialize (Hsub r Hr).
    rewrite Forall_forall in Hall. split; [by apply Hall|].
    intros Heq. apply Hne.
    assert (Hpc : key_le i prev curr) by (apply Hall; left).
    assert (Hcr : key_le i curr r).
    { apply elem_of_cons in Hsub as [->|Hin]; [apply key_le_refl|].
      apply StronglySorted_cons in Hs as [Hall' _].
      rewrite Forall_forall in Hall'. by apply Hall'. }
    symmetry. apply key_le_antisym; [done|].
    unfold key_le. rewrite Heq. exact Hcr.
Qed.

(** On rows whose keys increase strictly the loop keeps every row. *)
Lemma iterunique_id prev b rest :
  StronglySorted (key_lt i) (prev :: rest) ->
  iterunique i prev b rest = (if b then [prev] else []) ++ rest.
Proof.
  revert prev b. induction rest as [|curr rest IH]; intros prev b Hs; simpl.
  - by destruct b.
  - apply StronglySorted_cons in Hs as [Hall Hs].
    apply Forall_cons in Hall as [[_ Hne] _].
    rewrite (IH curr _ Hs).
    assert (String.eqb (getkey i curr) (getkey i prev) = false) as ->.
    { apply String.eqb_neq. congruence. }
    rewrite andb_true_r. by destruct b.
Qed.

Lemma unique_rows_sorted l :
  StronglySorted (key_le i) l ->
  StronglySorted (key_lt i) (unique_rows i l)
  /\ Forall (fun r => r ∈ l) (unique_rows i l).
Proof.
  destruct l as [|prev rest]; simpl.
  - split; constructor.
  - apply iterunique_sorted.
Qed.

Lemma unique_rows_id l :
  StronglySorted (key_lt i) l -> unique_rows i l = l.
Proof.
  destruct l as [|prev rest]; simpl; [done|]. apply iterunique_id.
Qed.

Lemma forallb_sorted_rows (f : row -> bool) l :
  forallb f (sorted_rows i l) = forallb f l.
Proof.
  apply eq_true_iff_eq. rewrite !forallb_forall.
  split; intros H r Hr; apply H; revert Hr; rewrite <- !list_elem_of_In;
    by rewrite sorted_rows_perm.
Qed.

Lemma forallb_subset (f : row -> bool) (l1 l2 : list row) :
  Forall (fun r => r ∈ l2) l1 -> forallb f l2 = true -> forallb f l1 = true.
Proof.
  rewrite !forallb_forall, Forall_forall. intros Hsub H r Hr.
  apply H, list_elem_of_In, Hsub. by apply list_elem_of_In.
Qed.

End Sorting.

(** ** Tables *)

Lemma sort_Ok key t t' :
  sort key t = Ok t' <->
  exists i, asindex (hdr t) key = Ok i
    /\ forallb (fun r => i <? length r) (rows t) = true
    /\ t' = {| hdr := hdr t; rows := sorted_rows i (rows t) |}.
Proof.
  unfold sort. split.
  - intros (i & Hi & H)%bind_Ok. exists i. split; [done|].
    destruct (forallb _ _); [|done]. by injection H as <-.
  - intros (i & -> & Hall & ->). simpl. by rewrite Hall.
Qed.

Lemma unique_Ok key t t' :
  unique key t = Ok t' <->
  exists i, asindex (hdr t) key = Ok i
    /\ forallb (fun r => i <? length r) (rows t) = true
    /\ t' = {| hdr := hdr t; rows := unique_rows i (sorted_rows i (rows t)) |}.
Proof.
  unfold unique. split.
  - intros (ts & (i & Hi & Hall & ->)%sort_Ok & H)%bind_Ok. simpl in H.
    rewrite Hi in H. simpl in H. injection H as <-. by exists i.
  - intros (i & Hi & Hall & ->).
    assert (sort key t = Ok {| hdr := hdr t; rows := sorted_rows i (rows t) |})
      as -> by (apply sort_Ok; by exists i).
    simpl. by rewrite Hi.
Qed.

(** What the step [.sort(key='name').unique(key='name')] returns. *)
Lemma dedup_by_name_Ok t t' :
  dedup_by_name t = Ok t' <->
  exists i, asindex (hdr t) "name" = Ok i
    /\ forallb (fun r => i <? length r) (rows t) = true
    /\ t' = {| hdr := hdr t; rows := unique_rows i (sorted_rows i (rows t)) |}.
Proof.
  unfold dedup_by_name. split.
  - intros (ts & (i & Hi & Hall & ->)%sort_Ok & H)%bind_Ok.
    apply unique_Ok in H as (i' & Hi' & _ & ->). simpl in *.
    rewrite Hi in Hi'. injection Hi' as <-.
    exists i. by rewrite sorted_rows_idemp.
  - intros (i & Hi & Hall & ->).
    assert (sort "name" t = Ok {| hdr := hdr t; rows := sorted_rows i (rows t) |})
      as -> by (apply sort_Ok; by exists i).
    simpl. apply unique_Ok. exists i. simpl.
    by rewrite forallb_sorted_rows, sorted_rows_idemp.
Qed.

(** The step returns whenever the header has the field and every row
    reaches it. *)
Lemma dedup_by_name_total t i :
  asindex (hdr t) "name" = Ok i ->
  Forall (fun r => i < length r) (rows t) ->
  exists t', dedup_by_name t = Ok t'.
Proof.
  intros Hi Hall. eexists. apply dedup_by_name_Ok. exists i.
  split; [done|]. split; [|done].
  apply forallb_forall. intros r Hr%list_elem_of_In.
  rewrite Forall_forall in Hall. apply Nat.ltb_lt. by apply Hall.
Qed.

(** The names of a deduplicated table increase strictly. *)
Lemma dedup_by_name_sorted t t' i :
  dedup_by_name t = Ok t' ->
  asindex (hdr t) "name" = Ok i ->
  StronglySorted (key_lt i) (rows t') /\ Forall (fun r => r ∈ rows t) (rows t').
Proof.
  intros (i' & Hi' & _ & ->)%dedup_by_name_Ok Hi. rewrite Hi in Hi'.
  injection Hi' as <-. simpl.
  destruct (unique_rows_sorted i (sorted_rows i (rows t))
              (sorted_rows_sorted i (rows t))) as [Hs Hsub].
  split; [done|]. eapply Forall_impl; [exact Hsub|].
  intros r Hr. simpl in Hr. by rewrite sorted_rows_perm in Hr.
Qed.

(** ** The rows [unique] keeps *)

Section UniqueSpec.

Variable i : nat.

Lemma count_key_cons k r l :
  count_key i k (r :: l)
  = (if decide (getkey i r = k) then 1 else 0) + count_key i k l.
Proof.
  unfold count_key. rewrite filter_cons. by destruct (decide _).
Qed.

Lemma count_key_zero k l :
  count_key i k l = 0 <-> forall r, r ∈ l -> getkey i r <> k.
Proof.
  induction l as [|r l IH].
  - split; [by intros _ r ?%elem_of_nil|done].
  - rewrite count_key_cons. destruct (decide (getkey i r = k)) as [Heq|Hne].
    + split; [discriminate|]. intros H. destruct (H r); [left|done].
    + simpl. rewrite IH. split.
      * intros H r' [->|Hr']%elem_of_cons; auto.
      * intros H r' Hr'. apply H. by right.
Qed.

Lemma count_key_perm k l1 l2 : l1 ≡ₚ l2 -> count_key i k l1 = count_key i k l2.
Proof. intros H. unfold count_key. by rewrite H. Qed.

(** Below a row whose key is smaller than the key of the next row, no row
    has its key. *)
Lemma sorted_key_absent prev curr rest :
  StronglySorted (key_le i) (prev :: curr :: rest) ->
  getkey i curr <> getkey i prev ->
  forall r, r ∈ curr :: rest -> getkey i r <> getkey i prev.
Proof.
  intros [Hall Hs]%StronglySorted_cons Hne r Hr Heq.
  apply StronglySorted_cons in Hs as [Hall' _].
  rewrite Forall_forall in Hall, Hall'.
  assert (Hpc : key_le i prev curr) by (apply Hall; left).
  assert (Hcr : key_le i curr r).
  { apply elem_of_cons in Hr as [->|Hr]; [apply key_le_refl|by apply Hall']. }
  apply Hne, key_le_antisym; [|done]. unfold key_le. by rewrite <- Heq.
Qed.

Lemma iterunique_elem prev b rest r :
  StronglySorted (key_le i) (prev :: rest) ->
  r ∈ iterunique i prev b rest <->
  (r = prev /\ b = true /\ count_key i (getkey i prev) rest = 0)
  \/ (r ∈ rest /\ getkey i r <> getkey i prev
      /\ count_key i (getkey i r) rest = 1).
Proof.
  revert prev b. induction rest as [|curr rest IH]; intros prev b Hs.
  - simpl. destruct b; split.
    + intros ->%list_elem_of_singleton. left. by repeat split.
    + intros [(-> & _)|(Hr & _)]; [by apply list_elem_of_singleton|].
      by apply elem_of_nil in Hr.
    + by intros ?%elem_of_nil.
    + intros [(_ & ? & _)|(Hr & _)]; [done|]. by apply elem_of_nil in Hr.
  - pose proof Hs as [_ Hs']%StronglySorted_cons.
    cbn [iterunique]. rewrite elem_of_app, (IH curr _ Hs'). clear IH.
    rewrite !count_key_cons.
    destruct (String.eqb_spec (getkey i curr) (getkey i prev)) as [Heq|Hne];
      simpl.
    + rewrite andb_false_r, elem_of_nil.
      destruct (decide (getkey i curr = getkey i prev)) as [_|]; [|done].
      split.
      * intros [[]|[(_ & ? & _)|(Hr & Hk & Hc)]]; [done|].
        right. split; [by right|]. split; [congruence|].
        by destruct (decide (getkey i curr = getkey i r)).
      * intros [(_ & _ & ?)|(Hr & Hk & Hc)]; [done|]. right. right.
        destruct (decide (getkey i curr = getkey i r)) as [|Hcr]; [congruence|].
        apply elem_of_cons in Hr as [->|Hr]; [done|].
        split; [done|]. split; [congruence|done].
    + rewrite andb_true_r.
      pose proof (sorted_key_absent prev curr rest Hs Hne) as Habs.
      destruct (decide (getkey i curr = getkey i prev)) as [|_]; [done|].
      assert (Hzero : count_key i (getkey i prev) rest = 0).
      { apply count_key_zero. intros r' Hr'. apply Habs. by right. }
      rewrite Hzero. split.
      * intros [Hp|[(-> & _ & Hc)|(Hr & Hk & Hc)]].
        -- left. destruct b; [|by apply elem_of_nil in Hp].
           by apply list_elem_of_singleton in Hp as ->.
        -- right. split; [left|]. split; [done|].
           destruct (decide _); [|done]. by rewrite Hc.
        -- right. split; [by right|]. split; [apply Habs; by right|].
           destruct (decide (getkey i curr = getkey i r)); [congruence|done].
      * intros [(-> & -> & _)|(Hr & Hk & Hc)]; [left; left|]. right.
        destruct (decide (getkey i curr = getkey i r)) as [Heq|Hcr].
        -- left. assert (Hc0 : count_key i (getkey i r) rest = 0) by lia.
           rewrite <- Heq in Hc0. split; [|done].
           apply elem_of_cons in Hr as [->|Hr]; [done|].
           rewrite count_key_zero in Hc0. by destruct (Hc0 r Hr).
        -- right. apply elem_of_cons in Hr as [->|Hr]; [done|].
           split; [done|]. split; [congruence|done].
Qed.

(** Of sorted rows [unique] keeps the rows whose key occurs once. *)
Lemma unique_rows_elem l r :
  StronglySorted (key_le i) l ->
  r ∈ unique_rows i l <-> r ∈ l /\ count_key i (getkey i r) l = 1.
Proof.
  destruct l as [|prev rest]; simpl.
  - intros _. rewrite elem_of_nil. split; [done|by intros []].
  - intros Hs. rewrite (iterunique_elem prev true rest r Hs), count_key_cons.
    split.
    + intros [(-> & _ & Hc)|(Hr & Hk & Hc)].
      * split; [left|]. destruct (decide _); [|done]. by rewrite Hc.
      * split; [by right|].
        destruct (decide (getkey i prev = getkey i r)); [congruence|done].
    + intros [Hr Hc].
      destruct (decide (getkey i prev = getkey i r)) as [Heq|Hne].
      * left. assert (Hc0 : count_key i (getkey i r) rest = 0) by lia.
        rewrite <- Heq in Hc0. split; [|done].
        apply elem_of_cons in Hr as [->|Hr]; [done|].
        rewrite count_key_zero in Hc0. by destruct (Hc0 r Hr).
      * right. apply elem_of_cons in Hr as [->|Hr]; [done|].
        split; [done|]. split; [congruence|done].
Qed.

End UniqueSpec.

(** The rows of a deduplicated table are the rows of the table whose name
    no other row has. *)
Lemma dedup_by_name_rows t t' i r :
  dedup_by_name t = Ok t' ->
  asindex (hdr t) "name" = Ok i ->
  r ∈ rows t' <-> r ∈ rows t /\ count_key i (getkey i r) (rows t) = 1.
Proof.
  intros (i' & Hi' & _ & ->)%dedup_by_name_Ok Hi. rewrite Hi in Hi'.
  injection Hi' as <-. simpl.
  rewrite unique_rows_elem by apply sorted_rows_sorted.
  by rewrite (count_key_perm i _ _ _ (sorted_rows_perm i (rows t))),
    sorted_rows_perm.
Qed.

(** ** The deduplication in the words of the specification *)

Section FirstWins.

Variable i : nat.

Lemma first_of_each_name_sorted seen l :
  StronglySorted (key_le i) l ->
  (forall k r, seen = Some k -> r ∈ l -> String.le k (getkey i r)) ->
  StronglySorted (key_lt i) (first_of_each_name i seen l)
  /\ Forall (fun r => r ∈ l /\ seen <> Some (getkey i r))
            (first_of_each_name i seen l).
Proof.
  intros Hs. revert seen. induction Hs as [|r l Hs IH Hall]; intros seen Hseen.
  - split; constructor.
  - simpl. rewrite Forall_forall in Hall.
    destruct (decide (seen = Some (getkey i r))) as [Heq|Hne].
    + destruct (IH seen) as [IH1 IH2].
      { intros k r' Hk Hr'. apply (Hseen k r' Hk). by right. }
      split; [done|]. eapply Forall_impl; [exact IH2|].
      intros r' [? ?]. split; [by right|done].
    + destruct (IH (Some (getkey i r))) as [IH1 IH2].
      { intros k r' [= <-] Hr'. by apply Hall. }
      rewrite Forall_forall in IH2. split.
      * constructor; [done|]. rewrite Forall_forall. intros r' Hr'.
        destruct (IH2 r' Hr') as [Hin Hk]. split; [by apply Hall|congruence].
      * constructor; [split; [left|done]|]. rewrite Forall_forall.
        intros r' Hr'. destruct (IH2 r' Hr') as [Hin Hk]. split; [by right|].
        intros ->. destruct Hk. f_equal.
        apply (anti_symm String.le); [by apply Hall|].
        apply (Hseen _ r eq_refl). left.
Qed.

Lemma first_of_each_name_id seen l :
  StronglySorted (key_lt i) l ->
  (forall r, r ∈ l -> seen <> Some (getkey i r)) ->
  first_of_each_name i seen l = l.
Proof.
  intros Hs. revert seen. induction Hs as [|r l Hs IH Hall]; intros seen Hseen.
  - done.
  - simpl. destruct (decide (seen = Some (getkey i r))) as [Heq|_].
    + destruct (Hseen r); [left|done].
    + f_equal. apply IH. intros r' Hr' [= Heq].
      rewrite Forall_forall in Hall. by destruct (Hall r' Hr').
Qed.

(** Keeping the first row of each name is idempotent as well. *)
Lemma dedup_first_wins_idempotent l :
  dedup_first_wins i (dedup_first_wins i l) = dedup_first_wins i l.
Proof.
  unfold dedup_first_wins.
  destruct (first_of_each_name_sorted None (sorted_rows i l)
              (sorted_rows_sorted i l)) as [Hs _]; [done|].
  rewrite sorted_rows_id by by apply key_lt_le_sorted.
  by apply first_of_each_name_id.
Qed.

End FirstWins.

(** ** Deduplication *)

(** The example given with [unique] in the documentation of the library,
    every value written as a string: of the keys A, B, D, B, B, E, D, F
    the rows of A, E and F are selected. *)
Example unique_documented_example :
  unique "foo"
    {| hdr := ["foo"; "bar"; "baz"];
       rows := [["A"; "1"; "2"]; ["B"; "2"; "3.4"]; ["D"; "xyz"; "9.0"];
                ["B"; "3"; "7.8"]; ["B"; "2"; "42"]; ["E"; "None"; "None"];
                ["D"; "4"; "12.3"]; ["F"; "7"; "2.3"]] |}
  = Ok {| hdr := ["foo"; "bar"; "baz"];
          rows := [["A"; "1"; "2"]; ["E"; "None"; "None"];
                   ["F"; "7"; "2.3"]] |}.
Proof. reflexivity. Qed.

(** C9 as stated fails in its description of the step: the step does not
    keep the first row of each name.  In [listing] the name [os.getcwd]
    occurs twice; the first row of each name would give three rows, the
    step of the code returns two and none of them has that name. *)
Lemma dedup_drops_repeated_name :
  article "os.getcwd" "A" ∈ rows listing
  /\ dedup_first_wins 0 (rows listing)
     = [article "os" "O"; article "os.getcwd" "A"; article "os.path.join" "J"]
  /\ dedup_by_name listing
     = Ok {| hdr := header;
             rows := [article "os" "O"; article "os.path.join" "J"] |}.
Proof.
  split; [apply list_elem_of_In; simpl; auto|]. split; reflexivity.
Qed.

(** C9, amended.  The deduplication step of [unify], [.sort(key='name')]
    followed by [.unique(key='name')], returns the rows whose name no other
    row has, by increasing name, and it is idempotent: applied to a table
    it has returned, it returns that table. *)
Theorem dedup_by_name_idempotent (t t1 : table) (i : nat) :
  dedup_by_name t = Ok t1 ->
  asindex (hdr t) "name" = Ok i ->
  (forall r : row,
     r ∈ rows t1 <-> r ∈ rows t /\ count_key i (getkey i r) (rows t) = 1)
  /\ StronglySorted (key_lt i) (rows t1)
  /\ dedup_by_name t1 = Ok t1.
Proof.
  intros H Hi. split; [|split].
  - intros r. by apply dedup_by_name_rows.
  - by destruct (dedup_by_name_sorted t t1 i H Hi).
  - pose proof H as (i' & Hi' & Hall & Ht1)%dedup_by_name_Ok.
    rewrite Hi in Hi'. injection Hi' as <-.
    destruct (dedup_by_name_sorted t t1 i H Hi) as [Hs Hsub].
    apply dedup_by_name_Ok. exists i.
    assert (Hhdr : hdr t1 = hdr t) by by subst t1.
    rewrite Hhdr. split; [done|]. split.
    + by apply forallb_subset with (rows t).
    + rewrite sorted_rows_id by by apply key_lt_le_sorted.
      rewrite unique_rows_id by done. rewrite <- Hhdr. by destruct t1.
Qed.

Lemma dedup_by_name_idempotent_listing :
  (dedup_by_name listing = Ok listing_dedup
   /\ asindex (hdr listing) "name" = Ok 0)
  /\ (forall r : row,
        r ∈ rows listing_dedup <->
        r ∈ rows listing /\ count_key 0 (getkey 0 r) (rows listing) = 1)
  /\ StronglySorted (key_lt 0) (rows listing_dedup)
  /\ dedup_by_name listing_dedup = Ok listing_dedup.
Proof.
  assert (H1 : dedup_by_name listing = Ok listing_dedup) by reflexivity.
  assert (H2 : asindex (hdr listing) "name" = Ok 0) by reflexivity.
  split; [auto|].
  exact (dedup_by_name_idempotent listing listing_dedup 0 H1 H2).
Defined.

(** ** The dicts of [lookup] *)

Lemma dict_get_app k d1 d2 :
  dict_get k (d1 ++ d2)
  = match dict_get k d1 with
    | Some v => Some v
    | None => dict_get k d2
    end.
Proof.
  induction d1 as [|[k' v] d1 IH]; simpl; [done|].
  by destruct (String.eqb k' k).
Qed.

Lemma dict_append_fresh k v d :
  dict_get k d = None -> dict_append k v d = d ++ [(k, [v])].
Proof.
  induction d as [|[k' l] d IH]; simpl; [done|].
  destruct (String.eqb k' k); [done|]. intros H. by rewrite IH.
Qed.

Lemma dict_get_dict_of i n k l :
  dict_get k (dict_of i n l) = (fun r => [take n r]) <$> find_row i k l.
Proof.
  unfold dict_of, find_row. induction l as [|r l IH]; simpl; [done|].
  by destruct (String.eqb (getkey i r) k).
Qed.

Lemma find_row_None i k l :
  (forall r, r ∈ l -> getkey i r <> k) -> find_row i k l = None.
Proof.
  unfold find_row. induction l as [|r l IH]; simpl; [done|]. intros H.
  destruct (String.eqb_spec (getkey i r) k) as [Heq|_].
  - destruct (H r); [left|done].
  - apply IH. intros r' Hr'. apply H. by right.
Qed.

Lemma find_row_Some i k l r :
  find_row i k l = Some r -> r ∈ l /\ getkey i r = k.
Proof.
  unfold find_row. intros [Hin Heq]%find_some.
  split; [by apply list_elem_of_In|by apply String.eqb_eq].
Qed.

Lemma NoDup_fmap_eq {A B : Type} (f : A -> B) (l : list A) (x y : A) :
  NoDup (f <$> l) -> x ∈ l -> y ∈ l -> f x = f y -> x = y.
Proof.
  induction l as [|z l IH]; simpl.
  - by intros _ ?%elem_of_nil.
  - intros [Hz Hl]%NoDup_cons [->|Hx]%elem_of_cons [->|Hy]%elem_of_cons Heq;
      [done| | |by apply IH].
    + destruct Hz. rewrite Heq. by apply list_elem_of_fmap_2.
    + destruct Hz. rewrite <- Heq. by apply list_elem_of_fmap_2.
Qed.


Lemma lookup_fold i n l d0 :
  NoDup (getkey i <$> l) ->
  (forall r, r ∈ l -> dict_get (getkey i r) d0 = None) ->
  fold_left (fun d r => dict_append (getkey i r) (take n r) d) l d0
  = d0 ++ dict_of i n l.
Proof.
  revert d0. induction l as [|r l IH]; intros d0 Hnd Hfresh; simpl.
  - by rewrite app_nil_r.
  - apply NoDup_cons in Hnd as [Hr Hnd].
    rewrite dict_append_fresh by (apply Hfresh; left).
    rewrite IH; [by rewrite <- app_assoc|done|].
    intros r' Hr'. rewrite dict_get_app, Hfresh by by right. simpl.
    destruct (String.eqb_spec (getkey i r) (getkey i r')) as [Heq|]; [|done].
    destruct Hr. rewrite Heq. by apply list_elem_of_fmap_2.
Qed.

Lemma lookup_Ok key t i :
  asindex (hdr t) key = Ok i ->
  Forall (fun r => length (hdr t) <= length r) (rows t) ->
  NoDup (getkey i <$> rows t) ->
  lookup key t = Ok (dict_of i (length (hdr t)) (rows t)).
Proof.
  intros Hi Hall Hnd. unfold lookup. rewrite Hi. simpl.
  assert (forallb (fun r => length (hdr t) <=? length r) (rows t) = true) as ->.
  { apply forallb_forall. intros r Hr%list_elem_of_In.
    rewrite Forall_forall in Hall. apply Nat.leb_le. by apply Hall. }
  by rewrite lookup_fold.
Qed.

(** ** The loop of [unify] *)

Lemma item_singleton {A : Type} (x : A) : item [x] 0 = Ok x.
Proof. reflexivity. Qed.

Lemma item_take_abstract (r : row) :
  13 <= length r -> item (take 13 r) 11 = Ok (nth 11 r "").
Proof.
  intros H. unfold item. rewrite lookup_take_lt by lia.
  rewrite nth_lookup. destruct (lookup_lt_is_Some_2 r 11) as [x ->]; [lia|done].
Qed.

Lemma unify_loop older newer acc differ nf :
  Forall (fun r => 13 <= length r) older ->
  Forall (fun r => 13 <= length r) newer ->
  foldM (unify_step (dict_of 0 13 older)) (acc, differ, nf) (dict_of 0 13 newer)
  = Ok (acc ++ (take 13 <$> List.filter (differs older) newer),
        differ + length (List.filter (differs older) newer),
        nf + length (List.filter (fun r => negb (differs older r)) newer)).
Proof.
  intros Holder Hnewer. revert acc differ nf.
  induction Hnewer as [|r3 newer Hr3 _ IH]; intros acc differ nf; simpl.
  - by rewrite app_nil_r, !Nat.add_0_r.
  - rewrite dict_get_dict_of.
    assert (Hd : differs older r3
                 = match find_row 0 (getkey 0 r3) older with
                   | Some r2 => negb (String.eqb (nth 11 r3 "") (nth 11 r2 ""))
                   | None => false
                   end) by done.
    rewrite !Hd. clear Hd.
    destruct (find_row 0 (getkey 0 r3) older) as [r2|] eqn:Hf; simpl.
    + apply find_row_Some in Hf as [Hr2 _].
      rewrite Forall_forall in Holder. specialize (Holder r2 Hr2).
      rewrite !item_take_abstract by done. simpl.
      destruct (String.eqb (nth 11 r3 "") (nth 11 r2 "")); simpl.
      * rewrite IH. do 2 f_equal. lia.
      * rewrite IH, <- app_assoc. simpl. do 2 f_equal. f_equal. lia.
    + rewrite IH. do 2 f_equal. lia.
Qed.

Lemma dedup_table_Ok fs path t :
  dedup_table fs path = Ok t <->
  exists lines, fromtsv fs path = Ok lines
    /\ dedup_by_name (setheader header lines) = Ok t.
Proof.
  unfold dedup_table. split.
  - by intros (lines & H & Ht)%bind_Ok; exists lines.
  - by intros (lines & -> & Ht).
Qed.

Lemma fromtsv_Ok fs path lines :
  fromtsv fs path = Ok lines ->
  exists written, fs !! path = Some written
    /\ Csv.reader (file_text written) = Ok lines.
Proof.
  unfold fromtsv. destruct (fs !! path) as [written|]; [|done].
  intros H. by exists written.
Qed.

(** A table read from a file has the header of [unify]; its names increase
    strictly and its rows are rows read from the file below the first. *)
Lemma dedup_table_rows fs path t lines :
  fromtsv fs path = Ok lines ->
  dedup_table fs path = Ok t ->
  hdr t = header
  /\ StronglySorted (key_lt 0) (rows t)
  /\ Forall (fun r => r ∈ tail lines) (rows t).
Proof.
  intros Hl (lines' & Hl' & Ht)%dedup_table_Ok.
  rewrite Hl in Hl'. injection Hl' as <-.
  destruct (dedup_by_name_sorted _ _ 0 Ht eq_refl) as [Hs Hsub].
  apply dedup_by_name_Ok in Ht as (i & _ & _ & ->). done.
Qed.


Lemma dedup_table_total fs path lines :
  fromtsv fs path = Ok lines ->
  Forall (fun r => 13 <= length r) (tail lines) ->
  exists t, dedup_table fs path = Ok t.
Proof.
  intros Hl Hall.
  destruct (dedup_by_name_total (setheader header lines) 0 eq_refl) as [t Ht].
  - simpl. eapply Forall_impl; [exact Hall|].
    intros r Hr. simpl in Hr. lia.
  - exists t. apply dedup_table_Ok. by exists lines.
Qed.

(** What [unify] returns on two tables whose rows have the 13 fields. *)
Lemma unify_Ok fs t2 t3 :
  dedup_table fs "output_py2.txt" = Ok t2 ->
  dedup_table fs "output.txt" = Ok t3 ->
  Forall (fun r => 13 <= length r) (rows t2) ->
  Forall (fun r => 13 <= length r) (rows t3) ->
  unify fs
  = Ok (<["output_py2.txt" :=
            take 13 <$> List.filter (differs (rows t2)) (rows t3)]> fs,
        (length (List.filter (differs (rows t2)) (rows t3)),
         length (List.filter (fun r => negb (differs (rows t2) r)) (rows t3)))).
Proof.
  intros H2 H3 Hl2 Hl3.
  pose proof H2 as (lines2 & Hf2 & _)%dedup_table_Ok.
  pose proof H3 as (lines3 & Hf3 & _)%dedup_table_Ok.
  destruct (dedup_table_rows _ _ _ _ Hf2 H2) as (Hh2 & Hs2 & _).
  destruct (dedup_table_rows _ _ _ _ Hf3 H3) as (Hh3 & Hs3 & _).
  assert (Hd2 : load_table fs "output_py2.txt" = Ok (dict_of 0 13 (rows t2))).
  { unfold load_table. rewrite H2. simpl.
    rewrite (lookup_Ok "name" t2 0); rewrite ?Hh2; try done.
    by apply key_lt_NoDup. }
  assert (Hd3 : load_table fs "output.txt" = Ok (dict_of 0 13 (rows t3))).
  { unfold load_table. rewrite H3. simpl.
    rewrite (lookup_Ok "name" t3 0); rewrite ?Hh3; try done.
    by apply key_lt_NoDup. }
  unfold unify. rewrite Hd2, Hd3. simpl.
  by rewrite unify_loop.
Qed.

(** What [unify] returns on two files whose rows, as read below the first
    one, have 13 fields or more. *)
Lemma unify_read fs older newer :
  fromtsv fs "output_py2.txt" = Ok older ->
  fromtsv fs "output.txt" = Ok newer ->
  Forall (fun r => 13 <= length r) (tail older) ->
  Forall (fun r => 13 <= length r) (tail newer) ->
  exists t2 t3,
    dedup_table fs "output_py2.txt" = Ok t2
    /\ dedup_table fs "output.txt" = Ok t3
    /\ unify fs
       = Ok (<["output_py2.txt" :=
                 take 13 <$> List.filter (differs (rows t2)) (rows t3)]> fs,
             (length (List.filter (differs (rows t2)) (rows t3)),
              length (List.filter (fun r => negb (differs (rows t2) r))
                        (rows t3)))).
Proof.
  intros Hf2 Hf3 Hall2 Hall3.
  destruct (dedup_table_total fs _ _ Hf2 Hall2) as [t2 H2].
  destruct (dedup_table_total fs _ _ Hf3 Hall3) as [t3 H3].
  destruct (dedup_table_rows _ _ _ _ Hf2 H2) as (_ & _ & Hsub2).
  destruct (dedup_table_rows _ _ _ _ Hf3 H3) as (_ & _ & Hsub3).
  exists t2, t3. split; [done|]. split; [done|].
  apply unify_Ok; [done|done| |].
  - rewrite Forall_forall in Hsub2, Hall2 |- *. intros r Hr.
    by apply Hall2, Hsub2.
  - rewrite Forall_forall in Hsub3, Hall3 |- *. intros r Hr.
    by apply Hall3, Hsub3.
Qed.


(** ** Reconciliation *)




(** The rows [unify] writes are rows of the newer table. *)
Lemma unify_writes_newer_rows fs t2 t3 fs' counts lines :
  dedup_table fs "output_py2.txt" = Ok t2 ->
  dedup_table fs "output.txt" = Ok t3 ->
  Forall (fun r => length r = 13) (rows t2) ->
  Forall (fun r => length r = 13) (rows t3) ->
  unify fs = Ok (fs', counts) ->
  fs' !! "output_py2.txt" = Some lines ->
  Forall (fun r => r ∈ rows t3) lines.
Proof.
  intros H2 H3 Hl2 Hl3 Hu Hlines.
  rewrite (unify_Ok fs t2 t3) in Hu; try done.
  - injection Hu as <- _. rewrite lookup_insert_eq in Hlines.
    injection Hlines as <-. rewrite Forall_forall.
    intros r (r3 & -> & Hr3)%list_elem_of_fmap.
    apply list_elem_of_In, filter_In in Hr3 as [Hr3 _].
    apply list_elem_of_In in Hr3. rewrite Forall_forall in Hl3.
    rewrite take_ge by (rewrite (Hl3 r3 Hr3); lia). done.
  - eapply Forall_impl; [exact Hl2|]. intros r Hr. simpl in Hr. lia.
  - eapply Forall_impl; [exact Hl3|]. intros r Hr. simpl in Hr. lia.
Qed.

(** C1 does not hold of the code.  In [both_files] the name [os.getcwd] has
    the abstract [A] in the older file and [B] in the newer one; the row
    [unify] writes to the older file for that name is the row of the newer
    file, with the abstract [B], although the function is documented as
    keeping the python2 entry. *)
Theorem unify_keeps_newer_row :
  article "os.getcwd" "A" ∈ older_file
  /\ article "os.getcwd" "B" ∈ newer_file
  /\ exists fs' : files,
      unify both_files = Ok (fs', (1, 2))
      /\ fs' !! "output_py2.txt" = Some [article "os.getcwd" "B"]
      /\ fs' !! "output.txt" = Some newer_file.
Proof.
  split; [apply list_elem_of_In; simpl; auto|].
  split; [apply list_elem_of_In; simpl; auto|].
  exists (<["output_py2.txt" := [article "os.getcwd" "B"]]> both_files).
  split; [vm_compute; reflexivity|]. split; reflexivity.
Qed.

(** * Further properties *)

(** ** [split] and [join] *)

Lemma split_nonempty sep s : Str.split sep s <> [].
Proof.
  destruct s as [|c s]; simpl; [done|].
  destruct (Ascii.eqb c sep); [done|]. by destruct (Str.split sep s).
Qed.

Lemma join_cons_cons sep a b l :
  Str.join sep (a :: b :: l) = a +:+ sep +:+ Str.join sep (b :: l).
Proof. reflexivity. Qed.

(** Joining the parts of a split with the separator gives the string
    back. *)
Lemma join_split sep s : Str.join (String sep "") (Str.split sep s) = s.
Proof.
  induction s as [|c s IH]; [done|]. simpl.
  destruct (Ascii.eqb_spec c sep) as [->|Hne].
  - destruct (Str.split sep s) as [|p ps] eqn:Hs.
    + by destruct (split_nonempty sep s).
    + rewrite join_cons_cons, IH. reflexivity.
  - destruct (Str.split sep s) as [|p [|q qs]] eqn:Hs.
    + by destruct (split_nonempty sep s).
    + simpl in *. by rewrite IH.
    + rewrite join_cons_cons, append_cons. f_equal.
      by rewrite <- join_cons_cons.
Qed.

(** ** Blanks and [strip] *)

Lemma list_ascii_of_string_app s t :
  String.list_ascii_of_string (s +:+ t)
  = String.list_ascii_of_string s ++ String.list_ascii_of_string t.
Proof.
  induction s as [|c s IH]; [done|]. rewrite append_cons. simpl. by rewrite IH.
Qed.

Lemma letters_app s t : letters (s +:+ t) = letters s ++ letters t.
Proof. unfold letters. by rewrite list_ascii_of_string_app, List.filter_app. Qed.

Lemma letters_lstrip s : letters (Str.lstrip_by Str.isspace s) = letters s.
Proof.
  unfold letters. induction s as [|c s IH]; [done|]. simpl.
  destruct (Str.isspace c) eqn:Hc; simpl; [done|]. by rewrite Hc.
Qed.

Lemma letters_rstrip s : letters (Str.rstrip_by Str.isspace s) = letters s.
Proof.
  unfold letters. induction s as [|c s IH]; [done|]. rewrite rstrip_by_cons.
  simpl. rewrite <- IH. destruct (Str.rstrip_by Str.isspace s) as [|d r].
  - destruct (Str.isspace c) eqn:Hc; simpl; by rewrite ?Hc.
  - done.
Qed.

(** Trimming removes blanks only. *)
Lemma letters_strip s : letters (Str.strip s) = letters s.
Proof. unfold Str.strip. by rewrite letters_rstrip, letters_lstrip. Qed.

Lemma strip_app_blanks s t :
  Forall (fun c => Str.isspace c = true) (String.list_ascii_of_string t) ->
  Str.strip (s +:+ t) = Str.strip s.
Proof.
  intros Ht. unfold Str.strip. induction s as [|c s IH].
  - rewrite append_nil_l. simpl.
    assert (Str.lstrip_by Str.isspace t = "") as ->; [|done].
    induction t as [|a t IHt]; [done|]. simpl in *.
    apply Forall_cons in Ht as [-> Ht]. by apply IHt.
  - rewrite append_cons. simpl. destruct (Str.isspace c); [done|].
    rewrite <- append_cons. by apply rstrip_by_app.
Qed.

Lemma lstrip_by_head f s c s' :
  Str.lstrip_by f s = String c s' -> f c = false.
Proof.
  induction s as [|a s IH]; simpl; [done|].
  destruct (f a) eqn:Ha; [done|]. by intros [= <- _].
Qed.

Lemma rstrip_by_head f c s :
  f c = false -> exists r, Str.rstrip_by f (String c s) = String c r.
Proof.
  intros Hc. rewrite rstrip_by_cons.
  destruct (Str.rstrip_by f s); rewrite ?Hc; by eexists.
Qed.

(** What [strip] returns has no blank at either end. *)
Lemma strip_trimmed s : trimmed (Str.strip s).
Proof.
  unfold trimmed, Str.strip. split.
  - intros c s' Heq.
    destruct (Str.lstrip_by Str.isspace s) as [|a u] eqn:Hl; [done|].
    pose proof (lstrip_by_head _ _ _ _ Hl) as Ha.
    destruct (rstrip_by_head Str.isspace a u Ha) as [r Hr].
    rewrite Hr in Heq. by injection Heq as <- _.
  - intros c Hc. by apply rstrip_by_endswith.
Qed.

(** ** Characters that [replace] removes or never brings in *)

Lemma occurs_app c s t : occurs c (s +:+ t) = occurs c s || occurs c t.
Proof.
  unfold occurs, Str.mem_chars. by rewrite list_ascii_of_string_app, existsb_app.
Qed.

Lemma occurs_cons c a s :
  occurs c (String a s) = Ascii.eqb c a || occurs c s.
Proof. reflexivity. Qed.

Lemma replace_from_occurs c k old new s :
  occurs c new = false -> occurs c s = false ->
  occurs c (Str.replace_from k old new s) = false.
Proof.
  intros Hnew. revert k. induction s as [|a s IH]; intros k Hs; [done|].
  rewrite occurs_cons in Hs. apply orb_false_iff in Hs as [Ha Hs].
  cbn [Str.replace_from]. destruct k as [|k]; [|by apply IH].
  destruct (String.prefix old (String a s)).
  - rewrite occurs_app, Hnew. by apply IH.
  - rewrite occurs_cons, Ha. by apply IH.
Qed.

Lemma interleave_occurs c new s :
  occurs c new = false -> occurs c s = false ->
  occurs c (Str.interleave new s) = false.
Proof.
  intros Hnew. induction s as [|a s IH]; intros Hs; [done|].
  rewrite occurs_cons in Hs. apply orb_false_iff in Hs as [Ha Hs].
  cbn [Str.interleave]. by rewrite occurs_cons, Ha, occurs_app, Hnew, IH.
Qed.

(** [replace] brings in no character that neither the string nor the
    replacement has. *)
Lemma replace_occurs c old new s :
  occurs c new = false -> occurs c s = false ->
  occurs c (Str.replace old new s) = false.
Proof.
  intros Hnew Hs. unfold Str.replace. destruct old.
  - by rewrite occurs_app, Hnew, interleave_occurs.
  - by apply replace_from_occurs.
Qed.

(** Replacing a character by a string without it removes the character. *)
Lemma replace_char_occurs c new s :
  occurs c new = false ->
  occurs c (Str.replace (String c "") new s) = false.
Proof.
  intros Hnew. unfold Str.replace.
  induction s as [|a s IH]; [done|]. cbn [Str.replace_from String.prefix].
  destruct (ascii_dec c a) as [<-|Hne].
  - assert (String.prefix "" s = true) as -> by by destruct s.
    simpl String.length. rewrite occurs_app, Hnew. exact IH.
  - rewrite occurs_cons, IH, orb_false_r. by apply Ascii.eqb_neq.
Qed.

(** ** The anchor of a method entry *)

Lemma join_parts_three (parts : list string) :
  length parts = 3 ->
  Str.join "." [nth 0 parts ""; nth 1 parts ""; nth 2 parts ""]
  = Str.join "." parts.
Proof. destruct parts as [|a [|b [|c [|e l]]]]; simpl; intros; done || lia. Qed.

Lemma join_parts_more (parts : list string) :
  3 < length parts ->
  Str.join "." [nth 0 parts ""; nth 1 parts ""; Str.join "." (drop 2 parts)]
  = Str.join "." parts.
Proof.
  destruct parts as [|a [|b [|c [|e l]]]]; simpl; intros; try lia. done.
Qed.

(** X1.  The anchor the parser rebuilds for a method entry from the three
    names is the identifier of the block itself: the URL of the entry is
    the URL of the page followed by [#] and the identifier. *)
Theorem method_url_anchor
    (self : PythonDataParser) (section dt : node) (id_tag : string)
    (d : data_element) :
  find "dt" None section = Some dt ->
  get "id" dt = Some id_tag ->
  parse_method_section self section = Ok [d] ->
  url d = create_url self ("#" +:+ id_tag)
  /\ url d = "https://docs.python.org/3.5"
             +:+ Str.replace (download_path self) "" (file_being_used self)
             +:+ "#" +:+ id_tag.
Proof.
  intros Hdt Hid Hd.
  assert (url d = create_url self ("#" +:+ id_tag)) as Hurl.
  { apply parse_method_section_Ok in Hd as (m & c & me & Hp & Hcase).
    destruct Hcase as [[_ [=]]|[Hme [= ->]]]. cbn [url].
    pose proof (parse_for_class_method_id section dt id_tag Hdt Hid) as Hp'.
    cbv zeta in Hp'. rewrite Hp in Hp'. injection Hp' as Heq.
    do 2 f_equal. change (Str.join "." [m; c; me] = id_tag).
    transitivity (Str.join "." (Str.split "." id_tag));
      [|apply (join_split "."%char)].
    destruct (Str.truthy id_tag); [|by injection Heq as _ _ ->].
    destruct (Nat.eqb_spec (length (Str.split "." id_tag)) 3) as [Hlen|Hlen].
    - injection Heq as -> -> ->. by apply join_parts_three.
    - destruct (Nat.ltb_spec 3 (length (Str.split "." id_tag))) as [Hlt|_].
      + injection Heq as -> -> ->. by apply join_parts_more.
      + by injection Heq as _ _ ->. }
  split; [done|]. by rewrite Hurl, create_url_eq.
Qed.

Lemma method_url_anchor_email :
  (find "dt" None (method_block email_id) = Some email_dt
   /\ get "id" email_dt = Some email_id
   /\ parse_method_section email_parser (method_block email_id) = Ok [email_entry])
  /\ url email_entry = create_url email_parser ("#" +:+ email_id)
  /\ url email_entry
     = "https://docs.python.org/3.5"
       +:+ Str.replace (download_path email_parser) ""
             (file_being_used email_parser)
       +:+ "#" +:+ email_id.
Proof.
  assert (H1 : find "dt" None (method_block email_id) = Some email_dt)
    by reflexivity.
  assert (H2 : get "id" email_dt = Some email_id) by reflexivity.
  assert (H3 : parse_method_section email_parser (method_block email_id)
               = Ok [email_entry]) by reflexivity.
  split; [auto|].
  exact (method_url_anchor email_parser (method_block email_id) email_dt
           email_id email_entry H1 H2 H3).
Defined.

(** ** Redirect rows *)

Lemma letters_blank s : letters (" " +:+ s) = letters s.
Proof. reflexivity. Qed.

Lemma strip_blank s : Str.strip (" " +:+ s) = Str.strip s.
Proof. reflexivity. Qed.

(** The spaced name and the dotted name of an entry with both fields are
    never the same. *)
Lemma spaced_name_differs m f :
  Str.strip (m +:+ " " +:+ f) <> Str.strip (m +:+ "." +:+ f).
Proof.
  intros Heq. apply (f_equal letters) in Heq.
  rewrite !letters_strip, !letters_app in Heq.
  apply (f_equal length) in Heq. rewrite !length_app in Heq.
  change (length (letters " ")) with 0 in Heq.
  change (length (letters ".")) with 1 in Heq. lia.
Qed.

(** X2.  The writer adds a redirect row for an entry exactly when the
    module and the function of the entry are both non-empty. *)
Theorem redirect_iff_module_and_function (d : data_element) :
  (exists r : row, r ∈ write_element d /\ row_kind r = "R")
  <-> module d <> "" /\ function d <> "".
Proof.
  rewrite write_element_eq, create_names_from_data_eq. simpl fst. simpl snd.
  destruct (module d) as [|a m] eqn:Hm, (function d) as [|b f] eqn:Hf;
    cbn [Str.truthy andb orb].
  - split; [intros (r & ?%elem_of_nil & _); done|by intros []].
  - rewrite !append_nil_l, strip_blank, String.eqb_refl.
    split; [|by intros []].
    intros (r & ->%list_elem_of_singleton & Hk). discriminate Hk.
  - rewrite append_nil_l, !append_empty_r.
    rewrite (strip_app_blanks (String a m) " ") by (repeat constructor).
    rewrite String.eqb_refl. split; [|by intros []].
    intros (r & ->%list_elem_of_singleton & Hk). discriminate Hk.
  - split; [done|]. intros _.
    destruct (String.eqb_spec (Str.strip (String a m +:+ " " +:+ String b f))
                               (Str.strip (String a m +:+ "." +:+ String b f)))
      as [Heq|_].
    + by apply spaced_name_differs in Heq.
    + eexists. split; [apply list_elem_of_In; right; left; reflexivity|done].
Qed.

(** X3.  The name of every row the writer emits has no blank at either
    end, and so has the target of a redirect row. *)
Theorem row_names_trimmed (d : data_element) (r : row) :
  r ∈ write_element d ->
  trimmed (row_name r) /\ (row_kind r = "R" -> trimmed (nth 2 r "")).
Proof.
  rewrite write_element_eq, create_names_from_data_eq. simpl fst. simpl snd.
  destruct (_ || _); [|by intros ?%elem_of_nil].
  intros [->|Hr]%elem_of_cons.
  - split; [apply strip_trimmed|discriminate].
  - destruct (String.eqb _ _); [by apply elem_of_nil in Hr|].
    apply list_elem_of_singleton in Hr as ->.
    split; [apply strip_trimmed|]. intros _. apply strip_trimmed.
Qed.

Lemma row_names_trimmed_blank :
  blank_redirect_row ∈ write_element blank_entry
  /\ trimmed (row_name blank_redirect_row)
  /\ trimmed (nth 2 blank_redirect_row "").
Proof.
  assert (H : blank_redirect_row ∈ write_element blank_entry)
    by (apply list_elem_of_In; vm_compute; auto).
  split; [exact H|].
  destruct (row_names_trimmed blank_entry blank_redirect_row H) as [H1 H2].
  split; [exact H1|]. exact (H2 eq_refl).
Defined.

(** ** Line feeds and pilcrows *)

Lemma fix_up_no_line_feed s : occurs LF_char (fix_up s) = false.
Proof.
  unfold fix_up, escape_newlines. apply replace_occurs; [done|].
  by apply (replace_char_occurs LF_char " ").
Qed.

Lemma signature_no_line_feed section :
  occurs LF_char (parse_for_method_signature section) = false.
Proof.
  unfold parse_for_method_signature. destruct (find "dt" None section); [|done].
  rewrite format1_pre, !occurs_app. unfold escape_newlines.
  rewrite replace_occurs; [done..|].
  by apply (replace_char_occurs LF_char "").
Qed.

Lemma signature_no_pilcrow section :
  occurs pilcrow_char (parse_for_method_signature section) = false.
Proof.
  unfold parse_for_method_signature. destruct (find "dt" None section); [|done].
  rewrite format1_pre, !occurs_app. unfold escape_newlines.
  rewrite replace_occurs; [done..|].
  apply replace_occurs; [done|].
  by apply (replace_char_occurs pilcrow_char "").
Qed.

Lemma first_paragraph_no_line_feed section :
  occurs LF_char (parse_for_first_paragraph section) = false.
Proof.
  unfold parse_for_first_paragraph. destruct (List.filter _ _); [done|].
  apply fix_up_no_line_feed.
Qed.

Lemma intro_text_no_line_feed file soup path :
  occurs LF_char (intro_text (PythonDataParser_init file soup path)) = false.
Proof.
  unfold PythonDataParser_init. destruct (fold_left _ _ _) as [fs ms].
  cbn [intro_text]. generalize (take 2 (find_all "p" None soup)).
  intros l. assert (H : occurs LF_char "" = false) by done. revert H.
  generalize "". induction l as [|p l IH]; intros acc Hacc; simpl; [done|].
  apply IH. by rewrite occurs_app, Hacc, fix_up_no_line_feed.
Qed.

(** X4.  Every entry extracted from a document has a summary and a
    signature without line feed, and a signature without pilcrow; hence the
    abstract of every row written for it stays on one line. *)
Theorem abstract_single_line
    (file path : string) (soup_data : node)
    (data : list data_element) (d : data_element) :
  parse_for_data (PythonDataParser_init file soup_data path) = Ok data ->
  d ∈ data ->
  occurs LF_char (first_paragraph d) = false
  /\ occurs LF_char (method_signature d) = false
  /\ occurs pilcrow_char (method_signature d) = false
  /\ forall r : row, r ∈ write_element d -> occurs LF_char (row_abstract r) = false.
Proof.
  intros Hdata Hd.
  assert (H : occurs LF_char (first_paragraph d) = false
              /\ occurs LF_char (method_signature d) = false
              /\ occurs pilcrow_char (method_signature d) = false).
  { apply parse_for_data_Ok in Hdata as (fs & ms & Hfs & Hms & ->).
    apply elem_of_app in Hd as [Hd|Hd]; [|apply elem_of_app in Hd as [Hd|Hd]].
    - unfold parse_intro in Hd. destruct (_ && _); [|by apply elem_of_nil in Hd].
      apply list_elem_of_singleton in Hd as ->. cbn [first_paragraph method_signature].
      split; [apply intro_text_no_line_feed|done].
    - destruct (elem_of_concat_Forall2 _ _ _ _ Hfs Hd) as (s & y & _ & Hy & Hdy).
      apply parse_function_section_Ok in Hy as [(_ & _ & ->)|(anchor & _ & _ & ->)];
        [by apply elem_of_nil in Hdy|].
      apply list_elem_of_singleton in Hdy as ->.
      cbn [first_paragraph method_signature].
      auto using first_paragraph_no_line_feed, signature_no_line_feed,
        signature_no_pilcrow.
    - destruct (elem_of_concat_Forall2 _ _ _ _ Hms Hd) as (s & y & _ & Hy & Hdy).
      apply parse_method_section_Ok in Hy as (m & c & me & _ & [[_ ->]|[_ ->]]);
        [by apply elem_of_nil in Hdy|].
      apply list_elem_of_singleton in Hdy as ->.
      cbn [first_paragraph method_signature].
      auto using first_paragraph_no_line_feed, signature_no_line_feed,
        signature_no_pilcrow. }
  destruct H as (H1 & H2 & H3). repeat split; try done.
  intros r. rewrite write_element_eq. destruct (_ || _); [|by intros ?%elem_of_nil].
  intros [->|Hr]%elem_of_cons.
  - unfold row_abstract. cbn [nth]. rewrite !occurs_app, H1, H2.
    by destruct (_ && _).
  - destruct (String.eqb _ _); [by apply elem_of_nil in Hr|].
    by apply list_elem_of_singleton in Hr as ->.
Qed.

Lemma abstract_single_line_multiline :
  (parse_for_data (PythonDataParser_init py3_os_html (page [multiline_block]) py3_path)
   = Ok [multiline_entry]
   /\ multiline_entry ∈ [multiline_entry])
  /\ occurs LF_char (first_paragraph multiline_entry) = false
  /\ occurs LF_char (method_signature multiline_entry) = false
  /\ occurs pilcrow_char (method_signature multiline_entry) = false
  /\ forall r : row, r ∈ write_element multiline_entry ->
                     occurs LF_char (row_abstract r) = false.
Proof.
  assert (H1 : parse_for_data
                 (PythonDataParser_init py3_os_html (page [multiline_block]) py3_path)
               = Ok [multiline_entry]) by reflexivity.
  assert (H2 : multiline_entry ∈ [multiline_entry])
    by (apply list_elem_of_In; simpl; auto).
  split; [auto|].
  exact (abstract_single_line py3_os_html py3_path (page [multiline_block])
           [multiline_entry] multiline_entry H1 H2).
Defined.

(** ** Reading back what was written *)

Lemma append_assoc s t u : (s +:+ t) +:+ u = s +:+ (t +:+ u).
Proof.
  induction s as [|c s IH]; [by rewrite !append_nil_l|].
  by rewrite !append_cons, IH.
Qed.

Lemma length_append s t :
  String.length (s +:+ t) = String.length s + String.length t.
Proof.
  induction s as [|c s IH]; [by rewrite append_nil_l|].
  rewrite append_cons. simpl. by rewrite IH.
Qed.

Lemma tsv_line_eq r : tsv_line r = Str.join Str.TAB r +:+ Str.LF.
Proof. reflexivity. Qed.

Lemma file_text_cons r lines :
  file_text (r :: lines)
  = Str.join Str.TAB r +:+ String Csv.LF (file_text lines).
Proof.
  change (file_text (r :: lines)) with (tsv_line r +:+ file_text lines).
  rewrite tsv_line_eq, append_assoc. unfold Str.LF.
  by rewrite append_cons, append_nil_l.
Qed.

Lemma plain_char_spec c :
  plain_char c = true ->
  Ascii.eqb c Csv.delimiter = false /\ Csv.is_newline c = false.
Proof.
  unfold plain_char. intros H%negb_true_iff.
  apply orb_false_iff in H as [H _]. by apply orb_false_iff in H.
Qed.

Lemma plain_field_spec f :
  plain_field f = true ->
  forallb plain_char (String.list_ascii_of_string f) = true
  /\ (forall c f', f = String c f' -> Ascii.eqb c Csv.quotechar = false)
  /\ (N.of_nat (String.length f) <= Csv.field_limit)%N.
Proof.
  unfold plain_field. intros [[H1 H2]%andb_true_iff H3]%andb_true_iff.
  split; [done|]. split.
  - intros c f' ->. by apply negb_true_iff in H2.
  - by apply N.leb_le.
Qed.

Section Reader.

Import Csv.

Lemma parse_add_char_Ok s fld fs c :
  (N.of_nat (String.length fld) < field_limit)%N ->
  parse_add_char {| state_of := s; field := fld; fields := fs |} c
  = Ok {| state_of := s; field := fld +:+ String c ""; fields := fs |}.
Proof.
  intros H. unfold parse_add_char. cbn [field state_of fields].
  by apply N.leb_gt in H as ->.
Qed.

(** The lines of a text whose first line has no line break inside. *)
Lemma readlines_line l rest :
  forallb (fun c => negb (is_newline c)) (String.list_ascii_of_string l) = true ->
  readlines (l +:+ String LF rest) = (l +:+ String LF "") :: readlines rest.
Proof.
  induction l as [|c l IH]; intros H.
  - rewrite !append_nil_l. cbn [readlines].
    by rewrite (proj2 (Ascii.eqb_eq LF LF) eq_refl).
  - cbn [String.list_ascii_of_string forallb] in H.
    apply andb_true_iff in H as [Hc Hl]. apply negb_true_iff in Hc.
    unfold is_newline in Hc. apply orb_false_iff in Hc as [Hc1 Hc2].
    rewrite !append_cons. cbn [readlines]. rewrite Hc1, Hc2.
    by rewrite (IH Hl).
Qed.

(** An unquoted field takes the plain characters that follow. *)
Lemma process_line_in_field f fld fs rest :
  forallb plain_char (String.list_ascii_of_string f) = true ->
  (N.of_nat (String.length fld + String.length f) <= field_limit)%N ->
  process_line {| state_of := IN_FIELD; field := fld; fields := fs |} (f +:+ rest)
  = process_line {| state_of := IN_FIELD; field := fld +:+ f; fields := fs |} rest.
Proof.
  revert fld. induction f as [|c f IH]; intros fld H Hlen.
  - by rewrite append_nil_l, append_empty_r.
  - cbn [String.list_ascii_of_string forallb] in H.
    apply andb_true_iff in H as [Hc Hf].
    apply plain_char_spec in Hc as [Hd Hn].
    rewrite append_cons. cbn [process_line].
    assert (parse_process_char
              {| state_of := IN_FIELD; field := fld; fields := fs |} (Some c)
            = Ok {| state_of := IN_FIELD; field := fld +:+ String c "";
                    fields := fs |}) as ->.
    { unfold parse_process_char. cbn [state_of]. rewrite Hn, Hd.
      apply parse_add_char_Ok. simpl in Hlen. lia. }
    change (Ok ?p ≫= ?k) with (k p). cbv beta.
    rewrite IH; [|done|].
    + by rewrite append_assoc, append_cons, append_nil_l.
    + rewrite length_append. simpl in *. lia.
Qed.

(** At the start of a record or of a field, a plain field that is not
    empty is read as an unquoted field. *)
Lemma process_line_start s c f fs rest :
  s = START_RECORD \/ s = START_FIELD ->
  plain_field (String c f) = true ->
  process_line {| state_of := s; field := ""; fields := fs |}
    (String c f +:+ rest)
  = process_line {| state_of := IN_FIELD; field := String c f; fields := fs |}
      rest.
Proof.
  intros Hs (Hall & Hq & Hlen)%plain_field_spec.
  specialize (Hq c f eq_refl).
  cbn [String.list_ascii_of_string forallb] in Hall.
  apply andb_true_iff in Hall as [Hc Hf].
  apply plain_char_spec in Hc as [Hd Hn].
  rewrite append_cons. cbn [process_line].
  assert (parse_process_char
            {| state_of := s; field := ""; fields := fs |} (Some c)
          = Ok {| state_of := IN_FIELD; field := String c ""; fields := fs |})
    as ->.
  { assert (Hadd : parse_add_char
                     {| state_of := START_FIELD; field := ""; fields := fs |} c
                   = Ok {| state_of := START_FIELD; field := String c "";
                           fields := fs |})
      by (by apply parse_add_char_Ok).
    destruct Hs as [-> | ->]; unfold parse_process_char; cbn [state_of].
    - rewrite Hn. unfold start_field, set_state. cbn [state_of field fields].
      by rewrite Hn, Hq, Hd, Hadd.
    - unfold start_field. by rewrite Hn, Hq, Hd, Hadd. }
  change (Ok ?p ≫= ?k) with (k p). cbv beta.
  rewrite process_line_in_field; [done|done|]. simpl in *. lia.
Qed.

Lemma delimiter_facts :
  is_newline delimiter = false
  /\ Ascii.eqb delimiter quotechar = false
  /\ Ascii.eqb delimiter delimiter = true
  /\ is_newline LF = true.
Proof. vm_compute. repeat split. Qed.

(** A plain field followed by a tab: the field is saved and the next one
    starts. *)
Lemma process_line_field_tab s f fs rest :
  s = START_RECORD \/ s = START_FIELD ->
  plain_field f = true ->
  process_line {| state_of := s; field := ""; fields := fs |}
    (f +:+ String delimiter rest)
  = process_line {| state_of := START_FIELD; field := ""; fields := fs ++ [f] |}
      rest.
Proof.
  destruct delimiter_facts as (Hn & Hq & Hd & _).
  intros Hs Hf. destruct f as [|c f].
  - rewrite append_nil_l. cbn [process_line].
    assert (parse_process_char
              {| state_of := s; field := ""; fields := fs |} (Some delimiter)
            = Ok {| state_of := START_FIELD; field := ""; fields := fs ++ [""] |})
      as ->; [|done].
    destruct Hs as [-> | ->]; unfold parse_process_char; cbn [state_of].
    + rewrite Hn. unfold start_field. by rewrite Hn, Hq, Hd.
    + unfold start_field. by rewrite Hn, Hq, Hd.
  - rewrite process_line_start by done. cbn [process_line].
    unfold parse_process_char. cbn [state_of]. by rewrite Hn, Hd.
Qed.

(** A plain field followed by the line feed that ends the line: the field
    is saved and the record is complete. *)
Lemma process_line_field_lf f fs :
  plain_field f = true ->
  process_line {| state_of := START_FIELD; field := ""; fields := fs |}
    (f +:+ String LF "")
  = Ok {| state_of := START_RECORD; field := ""; fields := fs ++ [f] |}.
Proof.
  destruct delimiter_facts as (_ & _ & _ & Hn).
  intros Hf. destruct f as [|c f].
  - rewrite append_nil_l. cbn [process_line].
    unfold parse_process_char at 2. cbn [state_of]. unfold start_field.
    by rewrite Hn.
  - rewrite process_line_start by auto. cbn [process_line].
    unfold parse_process_char at 2. cbn [state_of]. by rewrite Hn.
Qed.

Lemma process_line_fields r fs :
  r <> [] ->
  Forall (fun f => plain_field f = true) r ->
  process_line {| state_of := START_FIELD; field := ""; fields := fs |}
    (Str.join Str.TAB r +:+ String LF "")
  = Ok {| state_of := START_RECORD; field := ""; fields := fs ++ r |}.
Proof.
  intros Hne Hall. revert fs.
  induction Hall as [|f r Hf Hall IH]; intros fs; [done|].
  destruct r as [|f' r].
  - by apply process_line_field_lf.
  - rewrite join_cons_cons, !append_assoc.
    change (Str.TAB +:+ ?s) with (String delimiter s).
    rewrite process_line_field_tab by auto.
    rewrite IH by done. by rewrite <- app_assoc.
Qed.

(** A line of plain fields is read as the record of its fields. *)
Lemma process_line_row r :
  plain_row r ->
  process_line parse_reset (Str.join Str.TAB r +:+ String LF "")
  = Ok {| state_of := START_RECORD; field := ""; fields := r |}.
Proof.
  intros [Hlen Hall]. destruct r as [|f [|f' r]]; simpl in Hlen; try lia.
  apply Forall_cons in Hall as [Hf Hall].
  rewrite join_cons_cons, !append_assoc.
  change (Str.TAB +:+ ?s) with (String delimiter s).
  unfold parse_reset. rewrite process_line_field_tab by auto.
  by rewrite process_line_fields.
Qed.

Lemma join_no_newline r :
  Forall (fun f => plain_field f = true) r ->
  forallb (fun c => negb (is_newline c))
    (String.list_ascii_of_string (Str.join Str.TAB r)) = true.
Proof.
  assert (Hfield : forall f, plain_field f = true ->
            forallb (fun c => negb (is_newline c))
              (String.list_ascii_of_string f) = true).
  { intros f (Hall & _)%plain_field_spec. apply forallb_forall.
    intros c Hc. rewrite forallb_forall in Hall.
    by destruct (plain_char_spec c (Hall c Hc)) as [_ ->]. }
  induction 1 as [|f r Hf Hall IH]; [done|]. destruct r as [|f' r].
  - by apply Hfield.
  - rewrite join_cons_cons, !list_ascii_of_string_app, !forallb_app.
    rewrite (Hfield f Hf), IH. done.
Qed.

(** The reader gives back the lines written, when they are plain. *)
Lemma reader_file_text lines :
  Forall plain_row lines -> reader (file_text lines) = Ok lines.
Proof.
  unfold reader. induction 1 as [|r lines Hr Hall IH]; [done|].
  rewrite file_text_cons, readlines_line by (apply join_no_newline, Hr).
  cbn [records]. rewrite (process_line_row r Hr).
  change (Ok ?p ≫= ?k) with (k p). cbv beta. cbn [state_of fields].
  by rewrite IH.
Qed.

End Reader.

Lemma fromtsv_written fs path lines :
  fs !! path = Some lines -> Forall plain_row lines ->
  fromtsv fs path = Ok lines.
Proof. intros H Hall. unfold fromtsv. rewrite H. by apply reader_file_text. Qed.

(** ** The reader on texts that are not plain *)

(** A field that opens with a double quote runs to the closing quote,
    across tabs and line breaks; a doubled quote in it is one quote. *)
Example reader_quoted :
  Csv.reader (String Csv.quotechar "a" +:+ Str.TAB +:+ "b" +:+ Str.LF +:+ "c"
              +:+ String Csv.quotechar (String Csv.quotechar "d")
              +:+ String Csv.quotechar "" +:+ Str.TAB +:+ "e" +:+ Str.LF)
  = Ok [["a" +:+ Str.TAB +:+ "b" +:+ Str.LF +:+ "c"
         +:+ String Csv.quotechar "d"; "e"]].
Proof. reflexivity. Qed.

(** A carriage return ends a row, a blank line is a row without fields,
    and the last row needs no line break. *)
Example reader_line_breaks :
  Csv.reader ("a" +:+ String Csv.CR "b" +:+ Str.LF +:+ Str.LF +:+ "c"
              +:+ Str.TAB +:+ "d")
  = Ok [["a"]; ["b"]; []; ["c"; "d"]].
Proof. reflexivity. Qed.

(** A tab inside a field written raw gives one field more. *)
Example reader_tab_in_field :
  Csv.reader (file_text [["os.getpid"; "Return" +:+ Str.TAB +:+ "a string."]])
  = Ok [["os.getpid"; "Return"; "a string."]].
Proof. reflexivity. Qed.

(** ** More on [unify] *)

Lemma lookup_inv key t d :
  lookup key t = Ok d ->
  Forall (fun r => length (hdr t) <= length r) (rows t).
Proof.
  unfold lookup. intros (i & _ & H)%bind_Ok.
  destruct (forallb _ _) eqn:Hall; [|done].
  rewrite forallb_forall in Hall. apply Forall_forall.
  intros r Hr%list_elem_of_In. by apply Nat.leb_le, Hall.
Qed.

Lemma load_table_inv fs path d :
  load_table fs path = Ok d ->
  exists t, dedup_table fs path = Ok t
            /\ Forall (fun r => 13 <= length r) (rows t).
Proof.
  unfold load_table. intros (t & Ht & Hl)%bind_Ok. exists t. split; [done|].
  apply lookup_inv in Hl.
  pose proof Ht as (lines & Hf & _)%dedup_table_Ok.
  destruct (dedup_table_rows _ _ _ _ Hf Ht) as (Hh & _). by rewrite Hh in Hl.
Qed.

(** When [unify] returns, both tables were read and their rows have at
    least the 13 fields. *)
Lemma unify_inv fs fs' counts :
  unify fs = Ok (fs', counts) ->
  exists t2 t3,
    dedup_table fs "output_py2.txt" = Ok t2
    /\ dedup_table fs "output.txt" = Ok t3
    /\ Forall (fun r => 13 <= length r) (rows t2)
    /\ Forall (fun r => 13 <= length r) (rows t3).
Proof.
  unfold unify. intros (d2 & H2 & H)%bind_Ok.
  apply bind_Ok in H as (d3 & H3 & _).
  apply load_table_inv in H2 as (t2 & ? & ?), H3 as (t3 & ? & ?).
  by exists t2, t3.
Qed.

Lemma key_take i n r : i < n -> getkey i (take n r) = getkey i r.
Proof.
  intros H. unfold getkey. rewrite !nth_lookup. by rewrite lookup_take_lt.
Qed.


Lemma filter_length_split {A : Type} (p : A -> bool) (l : list A) :
  length (List.filter p l) + length (List.filter (fun x => negb (p x)) l)
  = length l.
Proof.
  induction l as [|x l IH]; simpl; [done|]. destruct (p x); simpl; lia.
Qed.



(** X6.  The two numbers [unify] prints: the first is the number of rows
    it writes, and together they count the rows of the deduplicated newer
    table. *)
Theorem unify_counts (fs fs' : files) (differ nf : nat) :
  unify fs = Ok (fs', (differ, nf)) ->
  exists (t3 : table) (lines : list row),
    dedup_table fs "output.txt" = Ok t3
    /\ fs' !! "output_py2.txt" = Some lines
    /\ differ = length lines
    /\ differ + nf = length (rows t3).
Proof.
  intros Hu. pose proof Hu as (t2 & t3 & H2 & H3 & Hl2 & Hl3)%unify_inv.
  rewrite (unify_Ok fs t2 t3 H2 H3 Hl2 Hl3) in Hu. injection Hu as <- <- <-.
  exists t3. eexists. split; [done|]. split; [apply lookup_insert_eq|].
  split; [by rewrite length_fmap|]. apply filter_length_split.
Qed.

Lemma unify_counts_both_files :
  unify both_files = Ok (both_files_unified, (1, 2))
  /\ exists (t3 : table) (lines : list row),
      dedup_table both_files "output.txt" = Ok t3
      /\ both_files_unified !! "output_py2.txt" = Some lines
      /\ 1 = length lines
      /\ 1 + 2 = length (rows t3).
Proof.
  assert (H : unify both_files = Ok (both_files_unified, (1, 2)))
    by (vm_compute; reflexivity).
  split; [exact H|].
  exact (unify_counts both_files both_files_unified 1 2 H).
Defined.

Lemma load_table_tail fs1 fs2 path l1 l2 :
  fromtsv fs1 path = Ok l1 -> fromtsv fs2 path = Ok l2 -> tail l1 = tail l2 ->
  load_table fs1 path = load_table fs2 path.
Proof.
  intros H1 H2 Ht. unfold load_table, dedup_table.
  rewrite H1, H2. simpl. unfold setheader. by rewrite Ht.
Qed.

(** X7.  The first row the reader finds in each output file takes no part
    in [unify]: two file systems whose output files are read to rows that
    agree below the first row (each file having a first row) give the same
    older file and the same counts, or the same exception. *)
Theorem unify_ignores_first_rows
    (fs1 fs2 : files) (older1 older2 newer1 newer2 : list row) :
  fromtsv fs1 "output_py2.txt" = Ok older1 ->
  fromtsv fs2 "output_py2.txt" = Ok older2 ->
  fromtsv fs1 "output.txt" = Ok newer1 ->
  fromtsv fs2 "output.txt" = Ok newer2 ->
  older1 <> [] /\ older2 <> [] /\ newer1 <> [] /\ newer2 <> [] ->
  tail older1 = tail older2 ->
  tail newer1 = tail newer2 ->
  revised_of (unify fs1) = revised_of (unify fs2).
Proof.
  intros Ho1 Ho2 Hn1 Hn2 _ Ho Hn. unfold unify.
  rewrite (load_table_tail fs1 fs2 _ _ _ Ho1 Ho2 Ho).
  rewrite (load_table_tail fs1 fs2 _ _ _ Hn1 Hn2 Hn).
  destruct (load_table fs2 "output_py2.txt") as [d2|e]; [|done].
  destruct (load_table fs2 "output.txt") as [d3|e]; [|done]. simpl.
  destruct (foldM _ _ _) as [[[new_table2 differ] nf]|e]; [|done]. simpl.
  by rewrite !lookup_insert_eq.
Qed.

Lemma unify_ignores_first_rows_both_files :
  (fromtsv both_files "output_py2.txt" = Ok older_file
   /\ fromtsv both_files_retitled "output_py2.txt"
      = Ok (article "sys" "Sys." :: tail older_file)
   /\ fromtsv both_files "output.txt" = Ok newer_file
   /\ fromtsv both_files_retitled "output.txt"
      = Ok (article "sys.argv" "Argv." :: tail newer_file))
  /\ revised_of (unify both_files) = revised_of (unify both_files_retitled).
Proof.
  assert (H1 : fromtsv both_files "output_py2.txt" = Ok older_file)
    by (vm_compute; reflexivity).
  assert (H2 : fromtsv both_files_retitled "output_py2.txt"
               = Ok (article "sys" "Sys." :: tail older_file))
    by (vm_compute; reflexivity).
  assert (H3 : fromtsv both_files "output.txt" = Ok newer_file)
    by (vm_compute; reflexivity).
  assert (H4 : fromtsv both_files_retitled "output.txt"
               = Ok (article "sys.argv" "Argv." :: tail newer_file))
    by (vm_compute; reflexivity).
  split; [auto|].
  refine (unify_ignores_first_rows both_files both_files_retitled _ _ _ _
            H1 H2 H3 H4 _ eq_refl eq_refl).
  repeat split; discriminate.
Defined.

(** X8.  Without the older output file [unify] raises
    [FileNotFoundError]; without the newer one it does not return. *)
Theorem unify_missing_file (fs : files) :
  fs !! "output_py2.txt" = None \/ fs !! "output.txt" = None ->
  (fs !! "output_py2.txt" = None -> unify fs = Raise FileNotFoundError)
  /\ forall out, unify fs <> Ok out.
Proof.
  intros Hmiss.
  assert (H2 : fs !! "output_py2.txt" = None -> unify fs = Raise FileNotFoundError).
  { intros H. unfold unify, load_table, dedup_table, fromtsv. by rewrite H. }
  split; [done|]. intros [fs' counts] Hu. destruct Hmiss as [H|H].
  - by rewrite (H2 H) in Hu.
  - apply unify_inv in Hu as (_ & t3 & _ & (lines & Hl & _)%dedup_table_Ok & _).
    unfold fromtsv in Hl. by rewrite H in Hl.
Qed.

Lemma unify_missing_file_newer_only :
  (newer_only !! "output_py2.txt" = None \/ newer_only !! "output.txt" = None)
  /\ unify newer_only = Raise FileNotFoundError
  /\ forall out, unify newer_only <> Ok out.
Proof.
  assert (H : newer_only !! "output_py2.txt" = None) by reflexivity.
  split; [by left|].
  destruct (unify_missing_file newer_only (or_introl H)) as [H1 H2].
  split; [exact (H1 H)|exact H2].
Defined.

Lemma dedup_table_ext fs1 fs2 path :
  fs1 !! path = fs2 !! path -> dedup_table fs1 path = dedup_table fs2 path.
Proof. intros H. unfold dedup_table, fromtsv. by rewrite H. Qed.

Lemma abstract_take (r : row) : nth 11 (take 13 r) "" = nth 11 r "".
Proof. rewrite !nth_lookup. by rewrite lookup_take_lt by lia. Qed.

Lemma filter_none {A : Type} (p : A -> bool) (l : list A) :
  (forall x, x ∈ l -> p x = false) -> List.filter p l = [].
Proof.
  induction l as [|x l IH]; intros H; simpl; [done|].
  rewrite (H x) by left. apply IH. intros y Hy. apply H. by right.
Qed.

Lemma elem_of_tail {A : Type} (x : A) (l : list A) : x ∈ tail l -> x ∈ l.
Proof. destruct l; simpl; [done|]. by right. Qed.

(** X9.  [unify] is not idempotent.  When a run has written rows (its
    first count is not 0) and the rows read from the newer file below the
    first one hold plain fields only, so that the rows written are read
    back as they were written, a second run on the file system the first
    run has returned returns with an empty older file and a first count of
    0: the rows written by the first run are rows of the newer table, and
    the second run finds no abstract that differs. *)
Theorem unify_twice
    (fs fs1 : files) (differ nf : nat) (newer : list row) :
  unify fs = Ok (fs1, (differ, nf)) ->
  0 < differ ->
  fromtsv fs "output.txt" = Ok newer ->
  Forall (Forall (fun f => plain_field f = true)) (tail newer) ->
  exists nf' : nat,
    unify fs1 = Ok (<["output_py2.txt" := []]> fs1, (0, nf')).
Proof.
  intros Hu _ Hnew Hplain.
  pose proof Hu as (t2 & t3 & H2 & H3 & Hl2 & Hl3)%unify_inv.
  rewrite (unify_Ok fs t2 t3 H2 H3 Hl2 Hl3) in Hu. injection Hu as <- _.
  set (revised := take 13 <$> List.filter (differs (rows t2)) (rows t3)).
  set (fs1 := <["output_py2.txt" := revised]> fs).
  destruct (dedup_table_rows _ _ _ _ Hnew H3) as (_ & Hs3 & Hsub3).
  assert (Hrows : Forall plain_row revised).
  { rewrite Forall_forall. intros r (r3 & -> & Hr3)%list_elem_of_fmap.
    apply list_elem_of_In, filter_In in Hr3 as [Hr3 _].
    apply list_elem_of_In in Hr3.
    rewrite Forall_forall in Hl3, Hsub3, Hplain. split.
    - rewrite length_take. specialize (Hl3 r3 Hr3). simpl in Hl3. lia.
    - apply Forall_take. by apply Hplain, Hsub3. }
  assert (Hrev : fromtsv fs1 "output_py2.txt" = Ok revised).
  { apply fromtsv_written; [apply lookup_insert_eq|done]. }
  assert (Hnew' : fromtsv fs1 "output.txt" = Ok newer).
  { rewrite <- Hnew. unfold fromtsv, fs1. by rewrite lookup_insert_ne. }
  assert (Hlen : Forall (fun r => 13 <= length r) revised).
  { rewrite Forall_forall. intros r (r3 & -> & Hr3)%list_elem_of_fmap.
    apply list_elem_of_In, filter_In in Hr3 as [Hr3 _].
    apply list_elem_of_In in Hr3. rewrite Forall_forall in Hl3.
    rewrite length_take. specialize (Hl3 r3 Hr3). simpl in Hl3. lia. }
  destruct (dedup_table_total fs1 "output_py2.txt" revised Hrev) as [t2' H2'].
  { by apply Forall_tail. }
  destruct (dedup_table_rows _ _ _ _ Hrev H2') as (_ & _ & Hsub).
  assert (H3' : dedup_table fs1 "output.txt" = Ok t3).
  { rewrite <- H3. apply dedup_table_ext. by apply lookup_insert_ne. }
  assert (Hl2' : Forall (fun r => 13 <= length r) (rows t2')).
  { rewrite Forall_forall in Hsub, Hlen |- *. intros r Hr.
    by apply Hlen, elem_of_tail, Hsub. }
  rewrite (unify_Ok fs1 t2' t3 H2' H3' Hl2' Hl3).
  apply key_lt_NoDup in Hs3.
  rewrite filter_none; [by eexists|].
  intros r3 Hr3. unfold differs.
  destruct (find_row 0 (getkey 0 r3) (rows t2')) as [r2|] eqn:Hf; [|done].
  apply find_row_Some in Hf as [Hr2 Hk].
  rewrite Forall_forall in Hsub. apply Hsub, elem_of_tail in Hr2.
  apply list_elem_of_fmap in Hr2 as (r3' & -> & Hr3').
  apply list_elem_of_In, filter_In in Hr3' as [Hr3' _].
  apply list_elem_of_In in Hr3'. rewrite key_take in Hk by lia.
  assert (r3' = r3) as -> by by apply (NoDup_fmap_eq (getkey 0) (rows t3)).
  by rewrite abstract_take, String.eqb_refl.
Qed.

Lemma unify_twice_both_files :
  (unify both_files = Ok (both_files_unified, (1, 2))
   /\ 0 < 1
   /\ fromtsv both_files "output.txt" = Ok newer_file
   /\ Forall (Forall (fun f => plain_field f = true)) (tail newer_file))
  /\ exists nf' : nat,
      unify both_files_unified
      = Ok (<["output_py2.txt" := []]> both_files_unified, (0, nf')).
Proof.
  assert (H : unify both_files = Ok (both_files_unified, (1, 2)))
    by (vm_compute; reflexivity).
  assert (Hn : fromtsv both_files "output.txt" = Ok newer_file)
    by (vm_compute; reflexivity).
  assert (Hp : Forall (Forall (fun f => plain_field f = true)) (tail newer_file))
    by (repeat constructor).
  assert (Hd : 0 < 1) by lia.
  split; [auto|].
  exact (unify_twice both_files both_files_unified 1 2 newer_file H Hd Hn Hp).
Defined.

(** ** Reading back the output of [create_file] *)

Lemma write_element_length d r : r ∈ write_element d -> length r = 13.
Proof.
  rewrite write_element_eq. destruct (_ || _); [|by intros ?%elem_of_nil].
  intros [->|Hr]%elem_of_cons; [done|].
  destruct (String.eqb _ _); [by apply elem_of_nil in Hr|].
  by apply list_elem_of_singleton in Hr as ->.
Qed.

Lemma written_rows_length (data : list data_element) :
  Forall (fun r => length r = 13) (flat_map write_element data).
Proof.
  rewrite Forall_forall. intros r (d & _ & Hr)%list_elem_of_In%in_flat_map.
  by apply (write_element_length d), list_elem_of_In.
Qed.

Lemma plain_rows_forallb (l : list row) :
  forallb (fun r => (1 <? length r) && forallb plain_field r) l = true ->
  Forall plain_row l.
Proof.
  rewrite forallb_forall, Forall_forall. intros H r Hr%list_elem_of_In.
  apply H, andb_true_iff in Hr as [Hlen Hall]. split.
  - by apply Nat.ltb_lt.
  - rewrite forallb_forall in Hall. apply Forall_forall.
    intros f Hf%list_elem_of_In. by apply Hall.
Qed.

(** X10.  What is read back from the output file after [create_file]: if
    the lines the file held are plain and every field written for the
    entries is plain (no tab, line break or NUL in it, no double quote at
    its start, within the field limit of the reader), the reader finds the
    lines the file held followed by the lines written, field for field,
    and each row it finds after those the file held has 13 fields; no
    other file changes. *)
Theorem create_file_read_back (self : PythonDataOutput) (fs : files) :
  Forall plain_row (default [] (fs !! output self)) ->
  Forall (Forall (fun f => plain_field f = true))
    (flat_map write_element (data self)) ->
  (exists lines : list row,
     fromtsv (create_file self fs) (output self) = Ok lines
     /\ lines = default [] (fs !! output self)
                ++ flat_map write_element (data self)
     /\ Forall (fun r => length r = 13)
          (drop (length (default [] (fs !! output self))) lines))
  /\ forall path, path <> output self -> create_file self fs !! path = fs !! path.
Proof.
  intros Hold Hnew. pose proof (written_rows_length (data self)) as Hlen.
  split; [|by intros; apply create_file_other].
  eexists. split; [|split; [reflexivity|by rewrite drop_app_length]].
  apply fromtsv_written; [apply create_file_lookup|].
  apply Forall_app. split; [done|].
  rewrite Forall_forall in Hnew, Hlen |- *. intros r Hr. split.
  - rewrite (Hlen r Hr). lia.
  - by apply Hnew.
Qed.

Lemma create_file_read_back_getcwd :
  (Forall plain_row (default [] (getcwd_files !! output getcwd_output))
   /\ Forall (Forall (fun f => plain_field f = true))
        (flat_map write_element (data getcwd_output)))
  /\ (exists lines : list row,
        fromtsv (create_file getcwd_output getcwd_files) (output getcwd_output)
        = Ok lines
        /\ lines = default [] (getcwd_files !! output getcwd_output)
                   ++ flat_map write_element (data getcwd_output)
        /\ Forall (fun r => length r = 13)
             (drop (length (default [] (getcwd_files !! output getcwd_output)))
                lines))
  /\ forall path, path <> output getcwd_output ->
       create_file getcwd_output getcwd_files !! path = getcwd_files !! path.
Proof.
  assert (H1 : Forall plain_row
                 (default [] (getcwd_files !! output getcwd_output)))
    by (apply plain_rows_forallb; vm_compute; reflexivity).
  assert (H2 : Forall (Forall (fun f => plain_field f = true))
                 (flat_map write_element (data getcwd_output)))
    by (repeat constructor).
  split; [auto|].
  exact (create_file_read_back getcwd_output getcwd_files H1 H2).
Defined.

(** ** The main program *)

Lemma output_of_cases version :
  output_of version = "output_py2.txt" \/ output_of version = "output.txt".
Proof. unfold output_of. simpl. destruct (String.eqb _ _); auto. Qed.

Lemma process_file_Ok version path file soup fs fs' :
  process_file version path file soup fs = Ok fs' <->
  exists data,
    parse_for_data (PythonDataParser_init file soup path) = Ok data
    /\ fs' = create_file (PythonDataOutput_init data version) fs.
Proof.
  unfold process_file. split.
  - intros (data & Hd & [= <-])%bind_Ok. by exists data.
  - intros (data & -> & ->). done.
Qed.

(** What a loop over the files of a version does when it returns: each
    file was parsed, only the output file of the version changed, and it
    exists if there was a file. *)
Lemma process_files_Ok version path docs fs fs' :
  process_files version path docs fs = Ok fs' ->
  (forall p, p <> output_of version -> fs' !! p = fs !! p)
  /\ (docs <> [] \/ is_Some (fs !! output_of version) ->
      is_Some (fs' !! output_of version))
  /\ (docs = [] -> fs' = fs)
  /\ Forall (parses path) docs.
Proof.
  unfold process_files. revert fs.
  induction docs as [|[file soup] docs IH]; intros fs Hf.
  - injection Hf as <-. repeat split; try done. by intros [|].
  - cbn [foldM] in Hf. apply bind_Ok in Hf as (fs0 & H0 & Hf).
    apply process_file_Ok in H0 as (data & Hd & ->).
    destruct (IH _ Hf) as (Hframe & Hsome & _ & Hall).
    split; [|split; [|split]].
    + intros p Hp. rewrite (Hframe p Hp). by apply create_file_other.
    + intros _. apply Hsome. right. unfold output_of.
      change (output (PythonDataOutput_init [] version))
        with (output (PythonDataOutput_init data version)).
      rewrite create_file_lookup. by eexists.
    + done.
    + constructor; [by exists data|done].
Qed.

Lemma process_files_total version path docs fs :
  Forall (parses path) docs ->
  exists fs', process_files version path docs fs = Ok fs'.
Proof.
  unfold process_files. intros Hall. revert fs.
  induction Hall as [|[file soup] docs [data Hd] _ IH]; intros fs.
  - by eexists.
  - cbn [foldM].
    assert (process_file version path file soup fs
            = Ok (create_file (PythonDataOutput_init data version) fs)) as ->
      by (apply process_file_Ok; by exists data).
    simpl. apply IH.
Qed.

Lemma main_eq walk fs :
  main walk fs
  = fs1 ← process_files "python3" py3_path (walk py3_path) (pre_parse fs);
    fs2 ← process_files "python2" py2_path (walk py2_path) fs1;
    unify fs2.
Proof.
  unfold main, process_files. simpl.
  destruct (foldM _ (pre_parse fs) (walk _)) as [fs1|e]; [|done]. simpl.
  by destruct (foldM _ fs1 (walk _)) as [fs2|e].
Qed.

Lemma pre_parse_lookup fs :
  pre_parse fs !! "output_py2.txt" = None
  /\ pre_parse fs !! "output.txt" = None
  /\ forall p, p <> "output_py2.txt" -> p <> "output.txt" ->
       pre_parse fs !! p = fs !! p.
Proof.
  unfold pre_parse. split; [apply lookup_delete_eq|]. split.
  - rewrite lookup_delete_ne by done. apply lookup_delete_eq.
  - intros p H1 H2. by rewrite !lookup_delete_ne.
Qed.

Lemma bind_Ok_l {A B : Type} (a : A) (k : A -> result B) : Ok a ≫= k = k a.
Proof. reflexivity. Qed.

(** The lines of the output file of a version after the loop over its
    files: the lines it held, then the rows of each document in turn. *)
Lemma process_files_lines version path docs fs fs' :
  process_files version path docs fs = Ok fs' ->
  default [] (fs' !! output_of version)
  = default [] (fs !! output_of version) ++ flat_map (document_rows path) docs.
Proof.
  unfold process_files. revert fs.
  induction docs as [|[file soup] docs IH]; intros fs Hf.
  - injection Hf as <-. by rewrite app_nil_r.
  - cbn [foldM] in Hf. apply bind_Ok in Hf as (fs0 & H0 & Hf).
    apply process_file_Ok in H0 as (data & Hd & ->).
    rewrite (IH _ Hf). cbn [flat_map]. unfold document_rows at 2.
    cbn [fst snd]. rewrite Hd, app_assoc. f_equal. unfold output_of.
    change (output (PythonDataOutput_init [] version))
      with (output (PythonDataOutput_init data version)).
    by rewrite create_file_lookup.
Qed.

Lemma document_rows_length path docs :
  Forall (fun r => 13 <= length r) (flat_map (document_rows path) docs).
Proof.
  rewrite Forall_forall. intros r ([file soup] & _ & Hr)%list_elem_of_In%in_flat_map.
  unfold document_rows in Hr. destruct (parse_for_data _) as [data|e]; [|done].
  pose proof (written_rows_length data) as Hlen. rewrite Forall_forall in Hlen.
  rewrite (Hlen r); [done|]. by apply list_elem_of_In.
Qed.

(** The two output files after the loops of the main program. *)
Lemma main_files walk fs fs1 fs2 :
  process_files "python3" py3_path (walk py3_path) (pre_parse fs) = Ok fs1 ->
  process_files "python2" py2_path (walk py2_path) fs1 = Ok fs2 ->
  default [] (fs2 !! "output.txt")
  = flat_map (document_rows py3_path) (walk py3_path)
  /\ default [] (fs2 !! "output_py2.txt")
     = flat_map (document_rows py2_path) (walk py2_path)
  /\ (walk py3_path <> [] -> is_Some (fs2 !! "output.txt"))
  /\ (walk py2_path <> [] -> is_Some (fs2 !! "output_py2.txt"))
  /\ (walk py3_path = [] -> fs2 !! "output.txt" = None)
  /\ (walk py2_path = [] -> fs2 !! "output_py2.txt" = None)
  /\ forall p, p <> "output_py2.txt" -> p <> "output.txt" -> fs2 !! p = fs !! p.
Proof.
  intros H1 H2. destruct (pre_parse_lookup fs) as (Hp2 & Hp3 & Hpo).
  destruct (process_files_Ok _ _ _ _ _ H1) as (Hfr1 & Hs1 & He1 & _).
  destruct (process_files_Ok _ _ _ _ _ H2) as (Hfr2 & Hs2 & He2 & _).
  pose proof (process_files_lines _ _ _ _ _ H1) as Hl1.
  pose proof (process_files_lines _ _ _ _ _ H2) as Hl2.
  change (output_of "python3") with "output.txt" in *.
  change (output_of "python2") with "output_py2.txt" in *.
  rewrite Hp3 in Hl1. rewrite (Hfr1 "output_py2.txt"), Hp2 in Hl2 by done.
  simpl in Hl1, Hl2.
  split; [by rewrite (Hfr2 "output.txt")|]. split; [done|].
  split; [|split; [|split; [|split]]].
  - intros Hne. rewrite (Hfr2 "output.txt") by done. apply Hs1. by left.
  - intros Hne. apply Hs2. by left.
  - intros Hnil. rewrite (Hfr2 "output.txt") by done. by rewrite (He1 Hnil).
  - intros Hnil. rewrite (He2 Hnil). by rewrite (Hfr1 "output_py2.txt").
  - intros p Hn2 Hn3. rewrite (Hfr2 p Hn2), (Hfr1 p Hn3). by apply Hpo.
Qed.

(** X11.  The main program returns only if each version has at least one
    document and every document of both versions is parsed without
    exception: one document that raises, or a version without document,
    and the run gives no result.  When moreover lines are written for
    each version and every line written is plain, so that [unify] reads
    the lines back as they were written, these conditions are enough for
    the run to return. *)
Theorem main_returns
    (walk : string -> list (string * node)) (fs : files) :
  ((exists out, main walk fs = Ok out) -> documents_ok walk)
  /\ (plain_documents walk -> documents_ok walk ->
      exists out, main walk fs = Ok out).
Proof.
  rewrite main_eq. split.
  - intros ([fs' counts] & H).
    apply bind_Ok in H as (fs1 & H1 & H). apply bind_Ok in H as (fs2 & H2 & Hu).
    destruct (process_files_Ok _ _ _ _ _ H1) as (_ & _ & _ & Hall1).
    destruct (process_files_Ok _ _ _ _ _ H2) as (_ & _ & _ & Hall2).
    destruct (main_files walk fs fs1 fs2 H1 H2)
      as (_ & _ & _ & _ & Hn3 & Hn2 & _).
    apply unify_inv in Hu
      as (t2 & t3 & (l2 & Hl2 & _)%dedup_table_Ok
          & (l3 & Hl3 & _)%dedup_table_Ok & _).
    apply fromtsv_Ok in Hl2 as (w2 & Hw2 & _), Hl3 as (w3 & Hw3 & _).
    repeat split; try done.
    + intros Hnil. rewrite (Hn3 Hnil) in Hw3. done.
    + intros Hnil. rewrite (Hn2 Hnil) in Hw2. done.
  - intros [[_ Hplain3] [_ Hplain2]] [[Hne3 Hall3] [Hne2 Hall2]].
    destruct (process_files_total "python3" py3_path _ (pre_parse fs) Hall3)
      as [fs1 H1].
    destruct (process_files_total "python2" py2_path _ fs1 Hall2) as [fs2 H2].
    rewrite H1, bind_Ok_l, H2, bind_Ok_l.
    destruct (main_files walk fs fs1 fs2 H1 H2)
      as (Hl3 & Hl2 & Hs3 & Hs2 & _).
    destruct (Hs3 Hne3) as [l3 Hf3]. destruct (Hs2 Hne2) as [l2 Hf2].
    rewrite Hf3 in Hl3. rewrite Hf2 in Hl2. simpl in Hl3, Hl2. subst l3 l2.
    destruct (unify_read fs2 _ _
                (fromtsv_written _ _ _ Hf2 Hplain2)
                (fromtsv_written _ _ _ Hf3 Hplain3))
      as (t2 & t3 & _ & _ & Hu).
    + apply Forall_tail, document_rows_length.
    + apply Forall_tail, document_rows_length.
    + rewrite Hu. by eexists.
Qed.

Lemma main_returns_one_page_each :
  (plain_documents one_page_each /\ documents_ok one_page_each)
  /\ (exists out, main one_page_each stale_files = Ok out)
  /\ ~ (exists out, main python3_only stale_files = Ok out)
  /\ ~ (exists out, main one_bad_page stale_files = Ok out).
Proof.
  assert (Hp : plain_documents one_page_each).
  { split; (split; [discriminate|]);
      apply plain_rows_forallb; vm_compute; reflexivity. }
  assert (H : documents_ok one_page_each).
  { repeat split; try discriminate.
    - repeat constructor. eexists. reflexivity.
    - repeat constructor. eexists. reflexivity. }
  split; [auto|]. split; [|split].
  - exact (proj2 (main_returns one_page_each stale_files) Hp H).
  - intros Hout.
    apply (proj1 (main_returns python3_only stale_files)) in Hout
      as [_ [Hne _]].
    by apply Hne.
  - intros Hout.
    apply (proj1 (main_returns one_bad_page stale_files)) in Hout
      as [[_ Hall] _].
    apply Forall_cons in Hall as [_ Hall].
    apply Forall_cons in Hall as [[data Hd] _]. discriminate Hd.
Defined.

(** The conditions on the documents alone are not enough: with a
    function name that holds a line feed every document is parsed, the
    name is written as it is, the reader finds lines of fewer fields, and
    [unify] raises. *)
Example main_line_feed_in_name :
  documents_ok broken_walk /\ main broken_walk ∅ = Raise IndexError.
Proof.
  split; [|vm_compute; reflexivity].
  repeat split; try discriminate.
  - repeat constructor. eexists. reflexivity.
  - repeat constructor. eexists. reflexivity.
Qed.

(** X12.  When the main program returns, the newer output file holds the
    lines written for the python3 documents in the order of the traversal
    and nothing of what it held before the run, and no file other than the
    two output files has changed. *)
Theorem main_result
    (walk : string -> list (string * node)) (fs fs' : files)
    (counts : nat * nat) :
  main walk fs = Ok (fs', counts) ->
  fs' !! "output.txt"
  = Some (flat_map (document_rows py3_path) (walk py3_path))
  /\ forall p, p <> "output_py2.txt" -> p <> "output.txt" -> fs' !! p = fs !! p.
Proof.
  rewrite main_eq. intros H. apply bind_Ok in H as (fs1 & H1 & H).
  apply bind_Ok in H as (fs2 & H2 & Hu).
  destruct (main_files walk fs fs1 fs2 H1 H2) as (Hl3 & _ & _ & _ & _ & _ & Hfr).
  pose proof Hu as (t2 & t3 & Ht2 & Ht3 & Hl2' & Hl3')%unify_inv.
  rewrite (unify_Ok fs2 t2 t3 Ht2 Ht3 Hl2' Hl3') in Hu. injection Hu as <- _.
  apply dedup_table_Ok in Ht3 as (l3 & (w3 & Hw3 & _)%fromtsv_Ok & _).
  rewrite Hw3 in Hl3. simpl in Hl3. subst w3.
  split; [by rewrite lookup_insert_ne|].
  intros p Hn2 Hn3. rewrite lookup_insert_ne by done. by apply Hfr.
Qed.

Lemma main_result_one_page_each :
  main one_page_each stale_files = Ok (one_page_each_result, (0, 1))
  /\ one_page_each_result !! "output.txt"
     = Some (flat_map (document_rows py3_path) (one_page_each py3_path))
  /\ forall p, p <> "output_py2.txt" -> p <> "output.txt" ->
       one_page_each_result !! p = stale_files !! p.
Proof.
  assert (H : main one_page_each stale_files = Ok (one_page_each_result, (0, 1)))
    by (vm_compute; reflexivity).
  split; [exact H|].
  exact (main_result one_page_each stale_files one_page_each_result (0, 1) H).
Defined.

(** ** When extraction returns *)

Lemma Forall2_left {A B : Type} (R : A -> B -> Prop) (Q : A -> Prop) l k :
  Forall2 R l k -> (forall x y, R x y -> Q x) -> Forall Q l.
Proof. induction 1; intros HQ; constructor; eauto. Qed.

(** X13.  [parse_for_data] returns only if every method block has a [dt]
    and, in every function block with a module or a function name, the
    header link, if there is one, has an [href]: a single block without
    them makes the extraction of the whole document raise. *)
Theorem parse_for_data_returns_only_if
    (self : PythonDataParser) (data : list data_element) :
  parse_for_data self = Ok data ->
  Forall (fun s => is_Some (find "dt" None s)) (method_sections self)
  /\ Forall (fun s =>
               parse_for_module_name s <> "" \/ parse_for_function_name s <> "" ->
               forall a, find "a" (Some "headerlink") s = Some a ->
                         is_Some (get "href" a))
            (function_sections self).
Proof.
  intros (fs & ms & Hfs & Hms & _)%parse_for_data_Ok. split.
  - apply (Forall2_left _ _ _ _ Hms).
    intros s y (m & c & me & Hp & _)%parse_method_section_Ok.
    unfold parse_for_class_method in Hp.
    destruct (find "dt" None s); [by eexists|done].
  - apply (Forall2_left _ _ _ _ Hfs). intros s y Hy Hname a Ha.
    apply parse_function_section_Ok in Hy
      as [(Hm & Hf & _)|(anchor & _ & Hanchor & _)].
    + by destruct Hname.
    + unfold parse_for_anchor, getitem in Hanchor. rewrite Ha in Hanchor.
      destruct (get "href" a); [by eexists|done].
Qed.

Lemma parse_for_data_returns_only_if_mixed :
  (exists data, parse_for_data mixed_parser = Ok data)
  /\ Forall (fun s => is_Some (find "dt" None s)) (method_sections mixed_parser)
  /\ Forall (fun s =>
               parse_for_module_name s <> "" \/ parse_for_function_name s <> "" ->
               forall a, find "a" (Some "headerlink") s = Some a ->
                         is_Some (get "href" a))
            (function_sections mixed_parser).
Proof.
  assert (H : exists data, parse_for_data mixed_parser = Ok data)
    by (eexists; reflexivity).
  split; [exact H|]. destruct H as [data H].
  exact (parse_for_data_returns_only_if mixed_parser data H).
Defined.

(** ** Sections inside sections *)

Lemma node_induction (P : node -> Prop) :
  (forall s, P (NavigableString s)) ->
  (forall name cls attrs cs, Forall P cs -> P (Tag name cls attrs cs)) ->
  forall n, P n.
Proof.
  intros Hs Ht. fix IH 1. intros [s|name cls attrs cs]; [apply Hs|].
  apply Ht. induction cs as [|c cs IHcs]; constructor; [apply IH|exact IHcs].
Qed.

Lemma descendants_Tag name cls attrs cs :
  descendants (Tag name cls attrs cs)
  = flat_map (fun c => c :: descendants c) cs.
Proof.
  cbn [descendants]. induction cs as [|c cs IH]; [done|].
  cbn [flat_map]. by rewrite <- IH.
Qed.

(** The nodes below a node [x] follow [x] among the nodes below any node
    that has [x] below it. *)
Lemma descendants_split n x :
  x ∈ descendants n ->
  exists l1 l2, descendants n = l1 ++ x :: descendants x ++ l2.
Proof.
  induction n as [s|name cls attrs cs IH] using node_induction.
  - by intros ?%elem_of_nil.
  - rewrite descendants_Tag. induction IH as [|c cs Hc _ IHcs].
    + by intros ?%elem_of_nil.
    + cbn [flat_map]. intros [Hx|Hx]%elem_of_app.
      * apply elem_of_cons in Hx as [->|Hx].
        -- by exists [], (flat_map (fun c => c :: descendants c) cs).
        -- destruct (Hc Hx) as (l1 & l2 & ->).
           exists (c :: l1), (l2 ++ flat_map (fun c => c :: descendants c) cs).
           cbn [app]. rewrite <- ?app_assoc. cbn [app].
           by rewrite <- ?app_assoc.
      * destruct (IHcs Hx) as (l1 & l2 & ->).
        exists ((c :: descendants c) ++ l1), l2. by rewrite <- ?app_assoc.
Qed.

Lemma descendants_trans n x y :
  x ∈ descendants n -> y ∈ descendants x -> y ∈ descendants n.
Proof.
  intros (l1 & l2 & ->)%descendants_split Hy.
  apply elem_of_app. right. right. apply elem_of_app. by left.
Qed.

Lemma elem_of_find_all name cls n x :
  x ∈ find_all name cls n <-> x ∈ descendants n /\ matches name cls x = true.
Proof. unfold find_all. by rewrite list_elem_of_In, filter_In, <- list_elem_of_In. Qed.

Lemma fold_sections (F M : node -> list node) (l : list node) (a b : list node) :
  fold_left (fun '(fs, ms) section => (fs ++ F section, ms ++ M section)) l (a, b)
  = (a ++ flat_map F l, b ++ flat_map M l).
Proof.
  revert a b. induction l as [|s l IH]; intros a b; simpl.
  - by rewrite !app_nil_r.
  - by rewrite IH, <- !app_assoc.
Qed.

(** The blocks of a document: those of each section in turn. *)
Lemma init_sections file soup path :
  function_sections (PythonDataParser_init file soup path)
  = flat_map (find_all "dl" (Some "function"))
             (find_all "div" (Some "section") soup)
  /\ method_sections (PythonDataParser_init file soup path)
     = flat_map (find_all "dl" (Some "method"))
                (find_all "div" (Some "section") soup).
Proof. unfold PythonDataParser_init. by rewrite fold_sections. Qed.

Lemma elem_of_split {A : Type} (x : A) (l : list A) :
  x ∈ l -> exists l1 l2, l = l1 ++ x :: l2.
Proof. apply list_elem_of_split. Qed.

(** X14.  A function block in a section that lies inside another section
    is collected once for each of the two sections: it occurs at least
    twice among the function blocks of the parser. *)
Theorem nested_section_collected_twice
    (file path : string) (soup_data outer inner block : node) :
  outer ∈ find_all "div" (Some "section") soup_data ->
  inner ∈ find_all "div" (Some "section") outer ->
  block ∈ find_all "dl" (Some "function") inner ->
  exists l1 l2 l3,
    function_sections (PythonDataParser_init file soup_data path)
    = l1 ++ block :: l2 ++ block :: l3.
Proof.
  intros [Ho Hmo]%elem_of_find_all Hinner Hb.
  destruct (init_sections file soup_data path) as [-> _].
  assert (Hb' : block ∈ find_all "dl" (Some "function") outer).
  { apply elem_of_find_all in Hb as [Hb Hmb].
    apply elem_of_find_all in Hinner as [Hi _].
    apply elem_of_find_all. split; [by apply descendants_trans with inner|done]. }
  destruct (descendants_split _ _ Ho) as (p1 & p2 & Hsplit).
  unfold find_all at 2. rewrite Hsplit, List.filter_app. cbn [List.filter].
  rewrite Hmo, List.filter_app. fold (find_all "div" (Some "section") outer).
  destruct (elem_of_split _ _ Hinner) as (q1 & q2 & ->).
  destruct (elem_of_split _ _ Hb) as (u1 & u2 & Hu).
  destruct (elem_of_split _ _ Hb') as (v1 & v2 & Hv).
  rewrite flat_map_app. cbn [flat_map]. rewrite Hv.
  rewrite <- !app_assoc. rewrite !flat_map_app. cbn [flat_map]. rewrite Hu.
  exists (flat_map (find_all "dl" (Some "function"))
            (List.filter (matches "div" (Some "section")) p1) ++ v1),
    (v2 ++ flat_map (find_all "dl" (Some "function")) q1 ++ u1),
    (u2 ++ flat_map (find_all "dl" (Some "function")) q2
        ++ flat_map (find_all "dl" (Some "function"))
             (List.filter (matches "div" (Some "section")) p2)).
  repeat (rewrite <- app_assoc || rewrite <- app_comm_cons). reflexivity.
Qed.

Lemma nested_section_collected_twice_nested_page :
  (outer_section ∈ find_all "div" (Some "section") nested_page
   /\ inner_section ∈ find_all "div" (Some "section") outer_section
   /\ getcwd_block ∈ find_all "dl" (Some "function") inner_section)
  /\ exists l1 l2 l3,
      function_sections (PythonDataParser_init py3_os_html nested_page py3_path)
      = l1 ++ getcwd_block :: l2 ++ getcwd_block :: l3.
Proof.
  assert (H1 : outer_section ∈ find_all "div" (Some "section") nested_page)
    by (apply list_elem_of_In; vm_compute; auto).
  assert (H2 : inner_section ∈ find_all "div" (Some "section") outer_section)
    by (apply list_elem_of_In; vm_compute; auto).
  assert (H3 : getcwd_block ∈ find_all "dl" (Some "function") inner_section)
    by (apply list_elem_of_In; vm_compute; auto).
  split; [auto|].
  exact (nested_section_collected_twice py3_os_html py3_path nested_page
           outer_section inner_section getcwd_block H1 H2 H3).
Defined.

(** ** The relative path in a URL *)

Lemma prefix_app s t : String.prefix s (s +:+ t) = true.
Proof.
  induction s as [|c s IH]; [by destruct t|]. rewrite append_cons. simpl.
  by destruct (ascii_dec c c).
Qed.

Lemma replace_from_skip old new s t :
  Str.replace_from (String.length s) old new (s +:+ t)
  = Str.replace_from 0 old new t.
Proof. induction s as [|c s IH]; [done|]. rewrite append_cons. exact IH. Qed.

(** Replacing in a string that starts with [old] replaces this first
    occurrence and goes on after it. *)
Lemma replace_prefix old new t :
  old <> "" ->
  Str.replace old new (old +:+ t) = new +:+ Str.replace old new t.
Proof.
  destruct old as [|c old]; [done|]. intros _. unfold Str.replace.
  rewrite append_cons. cbn [Str.replace_from].
  rewrite <- append_cons, prefix_app. cbn [String.length].
  by rewrite Nat.sub_succ, Nat.sub_0_r, replace_from_skip.
Qed.

(** X15.  For a file under the download path, the URL is the base
    [https://docs.python.org/3.5], the path of the file relative to the
    download path, and the anchor; a further occurrence of the download
    path inside the relative path is removed as well. *)
Theorem create_url_relative
    (self : PythonDataParser) (relative anchor : string) :
  download_path self <> "" ->
  file_being_used self = download_path self +:+ relative ->
  create_url self anchor
  = "https://docs.python.org/3.5"
    +:+ Str.replace (download_path self) "" relative +:+ anchor
  /\ (Str.replace (download_path self) "" relative = relative ->
      create_url self anchor
      = "https://docs.python.org/3.5" +:+ relative +:+ anchor).
Proof.
  intros Hne Hfile.
  assert (H : create_url self anchor
              = "https://docs.python.org/3.5"
                +:+ Str.replace (download_path self) "" relative +:+ anchor).
  { by rewrite create_url_eq, Hfile, replace_prefix. }
  split; [done|]. intros Heq. by rewrite H, Heq.
Qed.

Lemma create_url_relative_getcwd :
  (download_path getcwd_parser <> ""
   /\ file_being_used getcwd_parser
      = download_path getcwd_parser +:+ "/library/os.html")
  /\ create_url getcwd_parser "#os.getcwd"
     = "https://docs.python.org/3.5/library/os.html#os.getcwd".
Proof.
  assert (H1 : download_path getcwd_parser <> "") by discriminate.
  assert (H2 : file_being_used getcwd_parser
               = download_path getcwd_parser +:+ "/library/os.html")
    by reflexivity.
  split; [auto|].
  destruct (create_url_relative getcwd_parser "/library/os.html" "#os.getcwd"
              H1 H2) as [_ H].
  exact (H eq_refl).
Defined.

(** ** Empty fields *)

Lemma replace_nonempty old new s :
  old <> "" -> new <> "" -> s <> "" -> Str.replace old new s <> "".
Proof.
  destruct old as [|a old]; [done|]. intros _ Hnew Hs.
  destruct s as [|c s]; [done|]. unfold Str.replace. cbn [Str.replace_from].
  destruct (String.prefix _ _); [|done]. by destruct new.
Qed.

Lemma fix_up_nonempty s : s <> "" -> fix_up s <> "".
Proof.
  intros Hs. unfold fix_up, escape_newlines.
  repeat (apply replace_nonempty; [done..|]). done.
Qed.

(** X16.  The summary of a block is empty exactly when the block has no
    paragraph with text, and the signature is empty exactly when the block
    has no [dt]: an empty field always stands for a missing element. *)
Theorem empty_only_if_missing (section : node) :
  (parse_for_first_paragraph section = ""
   <-> Forall (fun p => text p = "") (find_all "p" None section))
  /\ (parse_for_method_signature section = ""
      <-> find "dt" None section = None).
Proof.
  split.
  - unfold parse_for_first_paragraph.
    induction (find_all "p" None section) as [|p l IH]; simpl.
    + split; [constructor|done].
    + destruct (Str.truthy (text p)) eqn:Hp.
      * apply truthy_true in Hp. split.
        -- intros H. by apply fix_up_nonempty in H.
        -- by intros [? _]%Forall_cons.
      * apply truthy_false in Hp. rewrite IH. split.
        -- by constructor.
        -- by intros [_ ?]%Forall_cons.
  - unfold parse_for_method_signature.
    destruct (find "dt" None section); [|done]. by rewrite format1_pre.
Qed.

(** An empty paragraph is passed over, and one pass of the replacement
    leaves two of three blanks. *)
Example parse_for_first_paragraph_undocumented :
  parse_for_first_paragraph undocumented_block = "Return the  path."
  /\ parse_for_method_signature undocumented_block = "".
Proof. split; reflexivity. Qed.

(** ** The name of a method row *)

Lemma method_names_join section dt id_tag m c me :
  find "dt" None section = Some dt ->
  get "id" dt = Some id_tag ->
  parse_for_class_method section = Ok (m, c, me) ->
  me <> "" ->
  Str.join "." [m; c; me] = id_tag.
Proof.
  intros Hdt Hid Hp Hme.
  pose proof (parse_for_class_method_id section dt id_tag Hdt Hid) as Hp'.
  cbv zeta in Hp'. rewrite Hp in Hp'. injection Hp' as Heq.
  transitivity (Str.join "." (Str.split "." id_tag));
    [|apply (join_split "."%char)].
  destruct (Str.truthy id_tag); [|by injection Heq as _ _ ->].
  destruct (Nat.eqb_spec (length (Str.split "." id_tag)) 3) as [Hlen|Hlen].
  - injection Heq as -> -> ->. by apply join_parts_three.
  - destruct (Nat.ltb_spec 3 (length (Str.split "." id_tag))) as [Hlt|_].
    + injection Heq as -> -> ->. by apply join_parts_more.
    + by injection Heq as _ _ ->.
Qed.

(** X17.  The article row of a method entry with a non-empty module is
    named by the identifier of the block itself, trimmed; with an empty
    module the name is the identifier without its leading dot. *)
Theorem method_row_name
    (self : PythonDataParser) (section dt : node) (id_tag : string)
    (d : data_element) :
  find "dt" None section = Some dt ->
  get "id" dt = Some id_tag ->
  parse_method_section self section = Ok [d] ->
  id_tag = module d +:+ "." +:+ function d
  /\ (module d <> "" -> fst (create_names_from_data d) = Str.strip id_tag)
  /\ (module d = "" ->
      fst (create_names_from_data d) = Str.strip (function d)).
Proof.
  intros Hdt Hid Hd.
  apply parse_method_section_Ok in Hd as (m & c & me & Hp & Hcase).
  destruct Hcase as [[_ [=]]|[Hme [= ->]]]. cbn [module function].
  pose proof (method_names_join _ _ _ _ _ _ Hdt Hid Hp Hme) as Hjoin.
  change (Str.join "." [m; c; me]) with (m +:+ "." +:+ c +:+ "." +:+ me) in Hjoin.
  split; [done|]. rewrite create_names_from_data_eq. cbn [module function fst].
  split.
  - intros Hm. apply truthy_true in Hm. rewrite Hm.
    assert (Str.truthy (c +:+ "." +:+ me) = true) as ->
      by (apply truthy_append_r; by rewrite append_cons).
    simpl andb. cbv iota. by rewrite Hjoin.
  - intros ->. by rewrite !append_nil_l.
Qed.

Lemma method_row_name_email :
  (find "dt" None (method_block email_id) = Some email_dt
   /\ get "id" email_dt = Some email_id
   /\ parse_method_section email_parser (method_block email_id) = Ok [email_entry])
  /\ email_id = module email_entry +:+ "." +:+ function email_entry
  /\ fst (create_names_from_data email_entry) = Str.strip email_id.
Proof.
  assert (H1 : find "dt" None (method_block email_id) = Some email_dt)
    by reflexivity.
  assert (H2 : get "id" email_dt = Some email_id) by reflexivity.
  assert (H3 : parse_method_section email_parser (method_block email_id)
               = Ok [email_entry]) by reflexivity.
  split; [auto|].
  destruct (method_row_name email_parser (method_block email_id) email_dt
              email_id email_entry H1 H2 H3) as (Ha & Hb & _).
  split; [exact Ha|]. apply Hb. discriminate.
Defined.
